(** * Virtual fitting: landmark-driven placement and alpha compositing

    A shallow embedding of [backend/virtual_fitting.py] (class
    [VirtualFitter]) together with the landmark dictionaries and the avatar
    built by [backend/avatar_generator.py] and the prompt box of
    [backend/sam_processor.py].

    Conventions of the embedding.
    - Python floats are read as real numbers ([R]); rounding is not modelled,
      so an equality between floats is meant up to rounding, and a bound
      that the rounded computation can reach is stated as a closed one.
      [int(.)] is truncation toward zero, [//] is the floor of the quotient,
      [np.arctan] is [atan] and [np.degrees] multiplies by [180 / PI].
    - Landmark data are Python dictionaries whose entries may be absent or
      [None]; they are kept as a small tree of Python values, and every
      dictionary operation that can raise returns in [outcome].
    - A NumPy [uint8] array of shape (rows, cols, channels) is a list of rows
      of pixels, a pixel being the list of its channel bytes.  Arrays are
      objects: they live in a store and are passed by reference.  An array
      of two axes, which has no [shape[2]], is told apart where one can
      reach the program: at the accessory resolver and at [generate].
    - OpenCV and the file system are external: they are the fields of the
      class [Cv2]; MediaPipe and the colour enhancement of the generator are
      the fields of the class [Perception]. *)

From Stdlib Require Import Reals Lra Lia ZArith List String Bool.
From Stdlib Require Import Ratan Machin.
Import ListNotations.

Set Implicit Arguments.

(** ** Exceptions and fallible computations *)

Inductive exn : Type :=
| KeyError | TypeError | AttributeError | IndexError | ValueError | CvError.

Inductive outcome (A : Type) : Type :=
| Ok (a : A)
| Raise (e : exn).

Arguments Ok {A} a.
Arguments Raise {A} e.

Definition bind {A B : Type} (m : outcome A) (k : A -> outcome B) : outcome B :=
  match m with
  | Ok a => k a
  | Raise e => Raise e
  end.

Declare Scope py_scope.
Delimit Scope py_scope with py.
Notation "x <- m ;; k" := (bind m (fun x => k))
  (at level 61, m at next level, right associativity) : py_scope.

(** ** Python numbers *)

Section PyNumbers.
Local Open Scope R_scope.

(** [int(r)]: truncation toward zero. *)
Definition py_int (r : R) : Z :=
  if Rle_dec 0 r then Int_part r else (- Int_part (- r))%Z.

(** [a // b] on floats (and on ints, read as reals): floor of the quotient. *)
Definition py_floordiv (a b : R) : R := IZR (Int_part (a / b)).

(** [max(a, b)]: the first argument unless the second is strictly larger. *)
Definition py_max (a b : R) : R := if Rlt_dec a b then b else a.

(** [np.degrees]. *)
Definition np_degrees (r : R) : R := r * (180 / PI).

(** [np.arctan]. *)
Definition np_arctan (r : R) : R := atan r.

End PyNumbers.

(** ** Python values of the landmark dictionaries *)

Inductive pykey : Type :=
| KStr (s : string)
| KInt (i : Z).

#[warnings="-register-all"] Inductive pyval : Type :=
| PyNone
| PyNum (r : R)
| PyDict (items : list (pykey * pyval)).

Definition pykey_eqb (a b : pykey) : bool :=
  match a, b with
  | KStr s, KStr t => String.eqb s t
  | KInt i, KInt j => Z.eqb i j
  | _, _ => false
  end.

Fixpoint lookup (k : pykey) (items : list (pykey * pyval)) : option pyval :=
  match items with
  | [] => None
  | (k', v) :: rest => if pykey_eqb k k' then Some v else lookup k rest
  end.

(** Truth value of a Python object in a condition. *)
Definition truthy (v : pyval) : bool :=
  match v with
  | PyNone => false
  | PyNum r => if Req_dec_T r 0 then false else true
  | PyDict [] => false
  | PyDict (_ :: _) => true
  end.

(** [d.get(k, default)]. *)
Definition py_get (d : pyval) (k : string) (default : pyval) : outcome pyval :=
  match d with
  | PyDict items =>
      Ok (match lookup (KStr k) items with Some v => v | None => default end)
  | _ => Raise AttributeError
  end.

(** [d[k]]. *)
Definition py_getitem (d : pyval) (k : string) : outcome pyval :=
  match d with
  | PyDict items =>
      match lookup (KStr k) items with Some v => Ok v | None => Raise KeyError end
  | _ => Raise TypeError
  end.

(** [k in d]. *)
Definition py_in (k : string) (d : pyval) : outcome bool :=
  match d with
  | PyDict items =>
      Ok (match lookup (KStr k) items with Some _ => true | None => false end)
  | _ => Raise TypeError
  end.

(** [d.items()]. *)
Definition py_items (d : pyval) : outcome (list (pykey * pyval)) :=
  match d with
  | PyDict items => Ok items
  | _ => Raise AttributeError
  end.

(** A value used as a number. *)
Definition py_num (v : pyval) : outcome R :=
  match v with
  | PyNum r => Ok r
  | _ => Raise TypeError
  end.

(** [a + b], [a - b], [a < b], [a > b] on values expected to be numbers. *)
Definition py_add (a b : pyval) : outcome R :=
  match a, b with
  | PyNum x, PyNum y => Ok (x + y)%R
  | _, _ => Raise TypeError
  end.

Definition py_sub (a b : pyval) : outcome R :=
  match a, b with
  | PyNum x, PyNum y => Ok (x - y)%R
  | _, _ => Raise TypeError
  end.

Definition py_lt (a b : pyval) : outcome bool :=
  match a, b with
  | PyNum x, PyNum y => Ok (if Rlt_dec x y then true else false)
  | _, _ => Raise TypeError
  end.

Definition py_gt (a b : pyval) : outcome bool := py_lt b a.

(** ** Arrays *)

Definition pixel : Type := list Z.
Definition ndarray : Type := list (list pixel).

(** [a.shape[0]], [a.shape[1]], [a.shape[2]].  An array without rows reports
    no columns, and one without pixels no channels. *)
Definition shape0 (a : ndarray) : Z := Z.of_nat (List.length a).
Definition shape1 (a : ndarray) : Z := Z.of_nat (List.length (hd [] a)).
Definition shape2 (a : ndarray) : Z := Z.of_nat (List.length (hd [] (hd [] a))).

(** An array as it reaches the program from outside: of two axes (a
    greyscale image, which [cv2.imread] and [PIL] return without a channel
    axis) or of three.  [a.shape[2]] raises [IndexError] on the first. *)
Inductive py_array : Type :=
| Axes2 (m : list (list Z))
| Axes3 (a : ndarray).

(** ** Placement

    The dictionary with keys x, y, width, height and rotation.  Its entries
    are numbers: where a rule copies a landmark coordinate into a placement
    ([neck['x']], [left_wrist['x']]) a coordinate that is not a number is a
    [TypeError] here, where Python would meet it at the first arithmetic on
    the placement. *)

Record placement : Type := mk_placement {
  pl_x : R;
  pl_y : R;
  pl_width : R;
  pl_height : R;
  pl_rotation : R
}.

Inductive AccessoryType : Type :=
| CLOTHING | JEWELRY | GLASSES | HATS | WATCHES | OTHER.

Section PlacementCalculator.
Local Open Scope R_scope.
Local Open Scope py_scope.
Local Open Scope string_scope.

(** [_get_clothing_placement]. [None] is returned as [Ok None]. *)
Definition _get_clothing_placement (image : ndarray) (landmarks : pyval)
  : outcome (option placement) :=
  let h := IZR (shape0 image) in
  features <- py_get landmarks "features" (PyDict []) ;;
  shoulders <- py_get features "shoulders" (PyDict []) ;;
  hips <- py_get features "hips" (PyDict []) ;;
  left_shoulder <- py_get shoulders "left" PyNone ;;
  right_shoulder <- py_get shoulders "right" PyNone ;;
  left_hip <- py_get hips "left" PyNone ;;
  right_hip <- py_get hips "right" PyNone ;;
  if negb (truthy left_shoulder && truthy right_shoulder) then Ok None else
  lx <- py_getitem left_shoulder "x" ;;
  rx <- py_getitem right_shoulder "x" ;;
  sx <- py_add lx rx ;;
  let center_x := sx / 2 in
  ly <- py_getitem left_shoulder "y" ;;
  ry <- py_getitem right_shoulder "y" ;;
  sy <- py_add ly ry ;;
  let center_y := sy / 2 in
  cy_hip <-
    (if truthy left_hip && truthy right_hip then
       hly <- py_getitem left_hip "y" ;;
       hry <- py_getitem right_hip "y" ;;
       hy <- py_add hly hry ;;
       let hip_center_y := hy / 2 in
       Ok ((center_y + hip_center_y) / 2, Some hip_center_y)
     else Ok (center_y + h * 0.1, None)) ;;
  let center_y := fst cy_hip in
  rx' <- py_getitem right_shoulder "x" ;;
  lx' <- py_getitem left_shoulder "x" ;;
  dxw <- py_sub rx' lx' ;;
  let width := Rabs dxw * 2 in
  let height :=
    match snd cy_hip with
    | Some hip_center_y =>
        let torso_height := (hip_center_y - center_y) * 2 in
        py_max torso_height (h * 0.3)
    | None => h * 0.5
    end in
  rotation <-
    (if truthy left_shoulder && truthy right_shoulder then
       ry' <- py_getitem right_shoulder "y" ;;
       ly' <- py_getitem left_shoulder "y" ;;
       dy <- py_sub ry' ly' ;;
       rx'' <- py_getitem right_shoulder "x" ;;
       lx'' <- py_getitem left_shoulder "x" ;;
       dx <- py_sub rx'' lx'' ;;
       if Req_dec_T dx 0 then Ok 0
       else Ok (np_degrees (np_arctan (dy / dx)))
     else Ok 0) ;;
  Ok (Some (mk_placement center_x center_y width height rotation)).

(** [_get_jewelry_placement]. *)
Definition _get_jewelry_placement (image : ndarray) (landmarks : pyval)
  : outcome (option placement) :=
  let h := IZR (shape0 image) in
  let w := IZR (shape1 image) in
  features <- py_get landmarks "features" (PyDict []) ;;
  neck <- py_get features "neck" PyNone ;;
  shoulders <- py_get features "shoulders" (PyDict []) ;;
  if negb (truthy neck) then
    left_shoulder <- py_get shoulders "left" PyNone ;;
    right_shoulder <- py_get shoulders "right" PyNone ;;
    if truthy left_shoulder && truthy right_shoulder then
      lx <- py_getitem left_shoulder "x" ;;
      rx <- py_getitem right_shoulder "x" ;;
      sx <- py_add lx rx ;;
      let center_x := sx / 2 in
      ly <- py_getitem left_shoulder "y" ;;
      ry <- py_getitem right_shoulder "y" ;;
      sy <- py_add ly ry ;;
      let center_y := sy / 2 - h * 0.05 in
      rx' <- py_getitem right_shoulder "x" ;;
      lx' <- py_getitem left_shoulder "x" ;;
      d <- py_sub rx' lx' ;;
      let shoulder_width := Rabs d in
      Ok (Some (mk_placement center_x center_y
                  (shoulder_width * 0.6) (shoulder_width * 0.3) 0))
    else Ok None
  else
    nx <- py_getitem neck "x" ;;
    ny <- py_getitem neck "y" ;;
    x <- py_num nx ;;
    y <- py_num ny ;;
    Ok (Some (mk_placement x y (w * 0.2) (h * 0.1) 0)).

(** [_get_glasses_placement]. *)
Definition _get_glasses_placement (image : ndarray) (landmarks : pyval)
  : outcome (option placement) :=
  features <- py_get landmarks "features" (PyDict []) ;;
  left_eye <- py_get features "left_eye" (PyDict []) ;;
  right_eye <- py_get features "right_eye" (PyDict []) ;;
  have_both <-
    (if truthy left_eye then
       if truthy right_eye then
         inl <- py_in "center" left_eye ;;
         if inl then py_in "center" right_eye else Ok false
       else Ok false
     else Ok false) ;;
  if negb have_both then Ok None else
  left_eye_center <- py_getitem left_eye "center" ;;
  right_eye_center <- py_getitem right_eye "center" ;;
  lx <- py_getitem left_eye_center "x" ;;
  rx <- py_getitem right_eye_center "x" ;;
  sx <- py_add lx rx ;;
  let center_x := sx / 2 in
  ly <- py_getitem left_eye_center "y" ;;
  ry <- py_getitem right_eye_center "y" ;;
  sy <- py_add ly ry ;;
  let center_y := sy / 2 in
  rx' <- py_getitem right_eye_center "x" ;;
  lx' <- py_getitem left_eye_center "x" ;;
  d <- py_sub rx' lx' ;;
  let eye_distance := Rabs d in
  let width := eye_distance * 2.2 in
  let height := width * 0.4 in
  rotation <-
    (if truthy left_eye_center && truthy right_eye_center then
       ry' <- py_getitem right_eye_center "y" ;;
       ly' <- py_getitem left_eye_center "y" ;;
       dy <- py_sub ry' ly' ;;
       rx'' <- py_getitem right_eye_center "x" ;;
       lx'' <- py_getitem left_eye_center "x" ;;
       dx <- py_sub rx'' lx'' ;;
       if Req_dec_T dx 0 then Ok 0
       else Ok (np_degrees (np_arctan (dy / dx)))
     else Ok 0) ;;
  Ok (Some (mk_placement center_x center_y width height rotation)).

(** One round of the scan of [_get_hat_placement] over [face_oval.items()]:
    [top], [left] and [right] (here [left_], [right_]) start as [None]. *)
Definition hat_scan_step (acc : pyval * pyval * pyval) (landmark : pyval)
  : outcome (pyval * pyval * pyval) :=
  let '(top, left_, right_) := acc in
  top' <-
    (match top with
     | PyNone => Ok landmark
     | _ =>
         ly <- py_getitem landmark "y" ;;
         ty <- py_getitem top "y" ;;
         b <- py_lt ly ty ;;
         Ok (if b then landmark else top)
     end) ;;
  left_' <-
    (match left_ with
     | PyNone => Ok landmark
     | _ =>
         lx <- py_getitem landmark "x" ;;
         tx <- py_getitem left_ "x" ;;
         b <- py_lt lx tx ;;
         Ok (if b then landmark else left_)
     end) ;;
  right_' <-
    (match right_ with
     | PyNone => Ok landmark
     | _ =>
         lx <- py_getitem landmark "x" ;;
         tx <- py_getitem right_ "x" ;;
         b <- py_gt lx tx ;;
         Ok (if b then landmark else right_)
     end) ;;
  Ok (top', left_', right_').

Fixpoint hat_scan (items : list (pykey * pyval)) (acc : pyval * pyval * pyval)
  : outcome (pyval * pyval * pyval) :=
  match items with
  | [] => Ok acc
  | (_, landmark) :: rest =>
      acc' <- hat_scan_step acc landmark ;;
      hat_scan rest acc'
  end.

(** [_get_hat_placement]. *)
Definition _get_hat_placement (image : ndarray) (landmarks : pyval)
  : outcome (option placement) :=
  features <- py_get landmarks "features" (PyDict []) ;;
  face_oval <- py_get features "face_oval" (PyDict []) ;;
  items <- py_items face_oval ;;
  tlr <- hat_scan items (PyNone, PyNone, PyNone) ;;
  let '(top, left_, right_) := tlr in
  if negb (truthy top && truthy left_ && truthy right_) then Ok None else
  rx <- py_getitem right_ "x" ;;
  lx <- py_getitem left_ "x" ;;
  d <- py_sub rx lx ;;
  let face_width := Rabs d in
  let width := face_width * 1.5 in
  lx' <- py_getitem left_ "x" ;;
  rx' <- py_getitem right_ "x" ;;
  sx <- py_add lx' rx' ;;
  let center_x := sx / 2 in
  ty <- py_getitem top "y" ;;
  t <- py_num ty ;;
  let center_y := t - width * 0.2 in
  let height := width * 0.6 in
  Ok (Some (mk_placement center_x center_y width height 0)).

(** [_get_watch_placement]. *)
Definition _get_watch_placement (image : ndarray) (landmarks : pyval)
  : outcome (option placement) :=
  let w := IZR (shape1 image) in
  features <- py_get landmarks "features" (PyDict []) ;;
  wrists <- py_get features "wrists" (PyDict []) ;;
  left_wrist <- py_get wrists "left" PyNone ;;
  visible <-
    (if truthy left_wrist then
       v <- py_getitem left_wrist "visibility" ;;
       py_gt v (PyNum 0.5)
     else Ok false) ;;
  if visible then
    let wrist_size := w * 0.1 in
    wx <- py_getitem left_wrist "x" ;;
    wy <- py_getitem left_wrist "y" ;;
    x <- py_num wx ;;
    y <- py_num wy ;;
    Ok (Some (mk_placement x y wrist_size wrist_size 0))
  else Ok None.

(** [_get_default_placement]; the accessory argument is not used by the
    source.  [w // 2] and [h // 2] are integer divisions. *)
Definition _get_default_placement (image : ndarray) (position_type : string)
  : placement :=
  let h := shape0 image in
  let w := shape1 image in
  if String.eqb position_type "head" then
    mk_placement (IZR (w / 2)) (IZR h * 0.15) (IZR w * 0.5) (IZR h * 0.2) 0
  else if String.eqb position_type "face" then
    mk_placement (IZR (w / 2)) (IZR h * 0.25) (IZR w * 0.4) (IZR h * 0.1) 0
  else if String.eqb position_type "neck" then
    mk_placement (IZR (w / 2)) (IZR h * 0.35) (IZR w * 0.3) (IZR h * 0.1) 0
  else if String.eqb position_type "torso" then
    mk_placement (IZR (w / 2)) (IZR h * 0.5) (IZR w * 0.7) (IZR h * 0.4) 0
  else if String.eqb position_type "wrist" then
    mk_placement (IZR w * 0.7) (IZR h * 0.6) (IZR w * 0.15) (IZR w * 0.15) 0
  else
    mk_placement (IZR (w / 2)) (IZR (h / 2)) (IZR w * 0.5) (IZR h * 0.3) 0.

(** The guard shared by the [_apply_*] methods:
    [if landmarks and key in landmarks and landmarks[key]:
         placement = getter(avatar_image, landmarks[key])]. *)
Definition landmark_placement
    (getter : ndarray -> pyval -> outcome (option placement))
    (key : string) (avatar_image : ndarray) (landmarks : pyval)
  : outcome (option placement) :=
  if truthy landmarks then
    present <- py_in key landmarks ;;
    if present then
      sub <- py_getitem landmarks key ;;
      if truthy sub then
        sub' <- py_getitem landmarks key ;;
        getter avatar_image sub'
      else Ok None
    else Ok None
  else Ok None.

(** [if not placement: placement = self._get_default_placement(...)]. *)
Definition or_default (avatar_image : ndarray) (position_type : string)
    (p : option placement) : placement :=
  match p with
  | Some pl => pl
  | None => _get_default_placement avatar_image position_type
  end.

(** The placement each [_apply_*] method hands to [_place_accessory]: the
    placement computation of the category. *)
Definition compute_placement (category : AccessoryType)
    (avatar_image : ndarray) (landmarks : pyval) : outcome placement :=
  match category with
  | CLOTHING =>
      p <- landmark_placement _get_clothing_placement "pose" avatar_image landmarks ;;
      Ok (or_default avatar_image "torso" p)
  | JEWELRY =>
      p <- landmark_placement _get_jewelry_placement "pose" avatar_image landmarks ;;
      Ok (or_default avatar_image "neck" p)
  | GLASSES =>
      p <- landmark_placement _get_glasses_placement "face" avatar_image landmarks ;;
      Ok (or_default avatar_image "face" p)
  | HATS =>
      p <- landmark_placement _get_hat_placement "face" avatar_image landmarks ;;
      Ok (or_default avatar_image "head" p)
  | WATCHES =>
      p <- landmark_placement _get_watch_placement "pose" avatar_image landmarks ;;
      Ok (or_default avatar_image "wrist" p)
  | OTHER => Ok (_get_default_placement avatar_image "center")
  end.

End PlacementCalculator.

(** ** NumPy slicing *)

Section Slicing.
Local Open Scope Z_scope.

(** Start or stop of a slice over a sequence of length [len]: a negative
    index counts from the end, and the index is then clipped to [0, len]. *)
Definition norm_index (len i : Z) : Z :=
  if i <? 0 then Z.max 0 (i + len) else Z.min i len.

(** [l[lo:hi]]. *)
Definition py_slice {A : Type} (lo hi : Z) (l : list A) : list A :=
  let n := Z.of_nat (List.length l) in
  let a := norm_index n lo in
  let b := norm_index n hi in
  firstn (Z.to_nat (b - a)) (skipn (Z.to_nat a) l).

(** [l[lo:hi] = new], for [new] of the length of the slice. *)
Definition py_slice_set {A : Type} (lo hi : Z) (new l : list A) : list A :=
  let n := Z.of_nat (List.length l) in
  let a := norm_index n lo in
  let b := Z.max a (norm_index n hi) in
  firstn (Z.to_nat a) l ++ new ++ skipn (Z.to_nat b) l.

Fixpoint map2 {A B C : Type} (f : A -> B -> C) (l : list A) (m : list B)
  : list C :=
  match l, m with
  | a :: l', b :: m' => f a b :: map2 f l' m'
  | _, _ => []
  end.

(** [a[y0:y1, x0:x1]]. *)
Definition block (y0 y1 x0 x1 : Z) (a : ndarray) : ndarray :=
  map (py_slice x0 x1) (py_slice y0 y1 a).

(** [a[y0:y1, x0:x1] = roi]. *)
Definition set_block (y0 y1 x0 x1 : Z) (roi a : ndarray) : ndarray :=
  py_slice_set y0 y1
    (map2 (fun row new => py_slice_set x0 x1 new row) (py_slice y0 y1 a) roi)
    a.

(** Rows and columns of a two-dimensional selection. *)
Definition dims (a : ndarray) : nat * nat :=
  (List.length a, List.length (hd [] a)).

Definition dims_eqb (a b : ndarray) : bool :=
  (fst (dims a) =? fst (dims b))%nat && (snd (dims a) =? snd (dims b))%nat.

(** [px[c] = v] on one pixel; an index past the end changes nothing. *)
Fixpoint set_nth (c : nat) (v : Z) (px : pixel) : pixel :=
  match px, c with
  | [], _ => []
  | _ :: rest, O => v :: rest
  | b :: rest, S c' => b :: set_nth c' v rest
  end.

(** [np.dstack((a, alpha))] with [alpha] the matrix of 255s. *)
Definition add_opaque_alpha (a : ndarray) : ndarray :=
  map (map (fun px => px ++ [255])) a.

(** [np.zeros((rows, cols, chans), dtype=np.uint8)]. *)
Definition np_zeros (rows cols chans : nat) : ndarray :=
  repeat (repeat (repeat 0 chans) cols) rows.

End Slicing.

(** Well-formed [uint8] arrays with a given number of channels. *)
Definition byte_ok (b : Z) : bool := ((0 <=? b) && (b <=? 255))%Z.

Definition pixel_ok (chans : nat) (px : pixel) : bool :=
  (List.length px =? chans)%nat && forallb byte_ok px.

Definition row_ok (chans cols : nat) (row : list pixel) : bool :=
  (List.length row =? cols)%nat && forallb (pixel_ok chans) row.

Definition is_image (chans : nat) (a : ndarray) : bool :=
  forallb (row_ok chans (List.length (hd [] a))) a.

(** Rows of equal length [w]. *)
Definition rows_of (w : nat) (a : ndarray) : Prop :=
  forall i, (i < List.length a)%nat -> List.length (nth i a []) = w.

(** A non-empty RGBA image. *)
Definition is_rgba (a : ndarray) : bool :=
  is_image 4 a && (shape2 a =? 4)%Z.

(** Whether the alpha channel is [v] at every pixel. *)
Definition alpha_everywhere (v : Z) (a : ndarray) : bool :=
  forallb (forallb (fun px => (nth 3 px 0 =? v)%Z)) a.

(** [a[i, j]], the pixel in row [i] and column [j]. *)
Definition pixel_at (a : ndarray) (i j : nat) : pixel :=
  nth j (nth i a []) [].

(** Whether row [i] and column [j] lie in the rectangle of [rh] rows and
    [rw] columns whose top-left corner is at row [y] and column [x]. *)
Definition in_region (y x rh rw : Z) (i j : nat) : bool :=
  ((y <=? Z.of_nat i) && (Z.of_nat i <? y + rh)
   && (x <=? Z.of_nat j) && (Z.of_nat j <? x + rw))%Z.

(** ** OpenCV and the file system *)

Class Cv2 : Type := {
  (** the 2x3 matrices of [cv2.getRotationMatrix2D] *)
  affine : Type;
  (** [cv2.resize(src, (width, height), interpolation=cv2.INTER_AREA)] *)
  cv2_resize : ndarray -> Z * Z -> outcome ndarray;
  (** [cv2.getRotationMatrix2D(center, angle, scale)] *)
  cv2_getRotationMatrix2D : Z * Z -> R -> R -> affine;
  (** [cv2.warpAffine(src, M, (width, height), flags=cv2.INTER_LINEAR,
      borderMode=cv2.BORDER_TRANSPARENT)] *)
  cv2_warpAffine : ndarray -> affine -> Z * Z -> outcome ndarray;
  (** [cv2.rectangle(img, pt1, pt2, color, thickness)], as the new content
      of [img] *)
  cv2_rectangle : ndarray -> Z * Z -> Z * Z -> list Z -> Z -> ndarray;
  (** [cv2.imread(path, cv2.IMREAD_UNCHANGED)]: [None] when the file cannot
      be decoded *)
  cv2_imread : string -> option py_array;
  (** [os.path.exists(path)] *)
  os_path_exists : string -> bool
}.

(** ** The object store and the state of a [VirtualFitter] *)

Definition loc : Type := nat.

Record world : Type := mk_world {
  (** the arrays allocated so far; a reference is an index *)
  heap : list ndarray;
  (** [self.accessory_cache] *)
  accessory_cache : list (string * loc);
  (** the paths handed to [cv2.imread], oldest first *)
  imread_log : list string
}.

Definition M (A : Type) : Type := world -> outcome A * world.

Definition ret {A : Type} (a : A) : M A := fun w => (Ok a, w).

Definition raise {A : Type} (e : exn) : M A := fun w => (Raise e, w).

Definition mbind {A B : Type} (m : M A) (k : A -> M B) : M B :=
  fun w =>
    match m w with
    | (Ok a, w') => k a w'
    | (Raise e, w') => (Raise e, w')
    end.

Definition lift {A : Type} (r : outcome A) : M A := fun w => (r, w).

(** [try: body  except Exception: handler]. *)
Definition try_except {A : Type} (body : M A) (handler : exn -> M A) : M A :=
  fun w =>
    match body w with
    | (Ok a, w') => (Ok a, w')
    | (Raise e, w') => handler e w'
    end.

Declare Scope world_scope.
Delimit Scope world_scope with world.
Notation "x <- m ;; k" := (mbind m (fun x => k))
  (at level 61, m at next level, right associativity) : world_scope.

(** A new array object. *)
Definition alloc (a : ndarray) : M loc :=
  fun w =>
    (Ok (List.length (heap w)),
     mk_world (heap w ++ [a]) (accessory_cache w) (imread_log w)).

(** The content of an array object. *)
Definition load (l : loc) : M ndarray :=
  fun w => (Ok (nth l (heap w) []), w).

Fixpoint replace_nth {A : Type} (n : nat) (v : A) (l : list A) : list A :=
  match l, n with
  | [], _ => []
  | _ :: rest, O => v :: rest
  | a :: rest, S n' => a :: replace_nth n' v rest
  end.

(** In-place update of an array object. *)
Definition store (l : loc) (a : ndarray) : M unit :=
  fun w =>
    (Ok tt,
     mk_world (replace_nth l a (heap w)) (accessory_cache w) (imread_log w)).

(** [a.copy()]. *)
Definition copy (l : loc) : M loc :=
  (a <- load l ;; alloc a)%world.

(** An array object: a reference to a three-axis array of the store, or an
    array of two axes, which no statement of the program writes to and which
    is kept by value. *)
Inductive array_ref : Type :=
| Ref2 (m : list (list Z))
| Ref3 (l : loc).

(** [cv2.imread], recording the decode. *)
Definition imread {cv : Cv2} (path : string) : M (option array_ref) :=
  fun w =>
    let w' := mk_world (heap w) (accessory_cache w) (imread_log w ++ [path]) in
    match cv2_imread path with
    | Some (Axes3 a) => (a' <- alloc a ;; ret (Some (Ref3 a')))%world w'
    | Some (Axes2 m) => (Ok (Some (Ref2 m)), w')
    | None => (Ok None, w')
    end.

(** ** The compositor and the accessory resolver *)

Section Fitter.
Context {cv : Cv2}.
Local Open Scope Z_scope.

(** Resize, then rotate when the angle is not 0 (the first two steps of
    [_place_accessory]).  Both calls return new arrays. *)
Definition prepare_accessory (accessory_image : ndarray)
    (width height rotation : R) : outcome ndarray :=
  (resized_accessory <-
     cv2_resize accessory_image (py_int width, py_int height) ;;
   if Req_dec_T rotation 0 then Ok resized_accessory
   else
     let center :=
       (shape1 resized_accessory / 2, shape0 resized_accessory / 2) in
     let rotation_matrix := cv2_getRotationMatrix2D center rotation 1 in
     cv2_warpAffine resized_accessory rotation_matrix
       (shape1 resized_accessory, shape0 resized_accessory))%py.

(** The bounds check of [_place_accessory] and the adjusted offsets. *)
Definition out_of_bounds (res racc : ndarray) (x_offset y_offset : Z) : bool :=
  (x_offset <? 0) || (y_offset <? 0)
  || (x_offset + shape1 racc >? shape1 res)
  || (y_offset + shape0 racc >? shape0 res).

Definition clamp_offsets (res racc : ndarray) (x_offset y_offset : Z)
  : Z * Z :=
  if out_of_bounds res racc x_offset y_offset then
    (Z.max 0 (Z.min (shape1 res - shape1 racc) x_offset),
     Z.max 0 (Z.min (shape0 res - shape0 racc) y_offset))
  else (x_offset, y_offset).

Definition roi_width (res racc : ndarray) (x_offset : Z) : Z :=
  Z.min (shape1 racc) (shape1 res - x_offset).

Definition roi_height (res racc : ndarray) (y_offset : Z) : Z :=
  Z.min (shape0 racc) (shape0 res - y_offset).

(** The top-left coordinate asked for on one axis:
    [int(x - width // 2)], [int(y - height // 2)]. *)
Definition requested_offset (center size : R) : Z :=
  py_int (center - py_floordiv size 2).

(** A float stored into a [uint8] array. *)
Definition cast_uint8 (r : R) : Z := py_int r mod 256.

(** The blend of one pixel of the region of interest with the pixel of the
    accessory above it:
    [for c in range(3):
         roi[.., c] = (1.0 - alpha) * roi[.., c] + alpha * accessory[.., c]]
    with [alpha = accessory[.., 3] / 255.0]. *)
Definition blend_pixel (roi_px acc_px : pixel) : pixel :=
  let accessory_alpha := (IZR (nth 3 acc_px 0%Z) / 255)%R in
  fold_left
    (fun px c =>
       set_nth c
         (cast_uint8 ((1 - accessory_alpha) * IZR (nth c px 0%Z)
                      + accessory_alpha * IZR (nth c acc_px 0%Z))%R)
         px)
    [0; 1; 2]%nat roi_px.

(** The region of interest, its blend and the write back into [result].
    An accessory without a fourth channel, or a base with fewer than three,
    is an [IndexError]; operands of different shapes are a [ValueError]
    (NumPy would stretch an axis of length 1, which the offsets exclude). *)
Definition blend_roi (res racc : ndarray) (x_offset y_offset : Z)
  : outcome ndarray :=
  let rw := roi_width res racc x_offset in
  let rh := roi_height res racc y_offset in
  let roi := block y_offset (y_offset + rh) x_offset (x_offset + rw) res in
  let acc_roi := block 0 rh 0 rw racc in
  if shape2 racc <? 4 then Raise IndexError
  else if negb (dims_eqb roi acc_roi) then Raise ValueError
  else if shape2 res <? 3 then Raise IndexError
  else
    Ok (set_block y_offset (y_offset + rh) x_offset (x_offset + rw)
          (map2 (map2 blend_pixel) roi acc_roi) res).

(** [_place_accessory].  The [except] clause logs and returns
    [base_image], the argument itself and not the copy. *)
Definition _place_accessory (base_image accessory_image : option loc)
    (x y width height rotation : R) : M (option loc) :=
  match accessory_image, base_image with
  | Some acc, Some base =>
      (result <- copy base ;;
       try_except
         (a <- load acc ;;
          resized_accessory <- lift (prepare_accessory a width height rotation) ;;
          let x_offset := requested_offset x width in
          let y_offset := requested_offset y height in
          r <- load result ;;
          let offsets := clamp_offsets r resized_accessory x_offset y_offset in
          blended <-
            lift (blend_roi r resized_accessory (fst offsets) (snd offsets)) ;;
          _ <- store result blended ;;
          ret (Some result))
         (fun _ => ret base_image))%world
  | _, _ => ret base_image
  end.

(** The common body of [_apply_clothing], [_apply_jewelry], [_apply_glasses],
    [_apply_hat], [_apply_watch] and [_apply_generic_accessory]. *)
Definition apply_category (category : AccessoryType)
    (avatar_image accessory_image : loc) (landmarks : pyval)
  : M (option loc) :=
  (result <- copy avatar_image ;;
   avatar <- load avatar_image ;;
   placement <- lift (compute_placement category avatar landmarks) ;;
   _place_accessory (Some result) (Some accessory_image)
     (pl_x placement) (pl_y placement)
     (pl_width placement) (pl_height placement) (pl_rotation placement))%world.

Definition _apply_clothing := apply_category CLOTHING.
Definition _apply_jewelry := apply_category JEWELRY.
Definition _apply_glasses := apply_category GLASSES.
Definition _apply_hat := apply_category HATS.
Definition _apply_watch := apply_category WATCHES.
Definition _apply_generic_accessory (avatar_image accessory_image : loc)
  : M (option loc) :=
  apply_category OTHER avatar_image accessory_image PyNone.

(** The accessory argument of [apply_accessory]: an array of three axes
    or of two, a dictionary (with its ['path'] and ['image'] entries when it
    has them), or anything else. *)
Inductive accessory_data : Type :=
| AccArray (a : loc)
| AccArray2 (m : list (list Z))
| AccDict (path : option string) (image : option (option array_ref))
| AccOther.

(** [_create_placeholder_accessory]. *)
Definition _create_placeholder_accessory (size : Z * Z) : M loc :=
  let placeholder := np_zeros (Z.to_nat (snd size)) (Z.to_nat (fst size)) 4 in
  let color := [255; 0; 255; 128] in
  let placeholder :=
    cv2_rectangle placeholder (10, 10) (fst size - 10, snd size - 10)
      color (-1) in
  let border_color := [255; 255; 255; 200] in
  let placeholder :=
    cv2_rectangle placeholder (10, 10) (fst size - 10, snd size - 10)
      border_color 2 in
  alloc placeholder.

Fixpoint cache_lookup (path : string) (cache : list (string * loc))
  : option loc :=
  match cache with
  | [] => None
  | (p, l) :: rest => if String.eqb path p then Some l else cache_lookup path rest
  end.

(** The end of [_get_accessory_image]: [accessory_image.shape[2] == 3] adds
    an opaque alpha channel; [None] has no [shape], and the shape of an
    array of two axes has no third entry. *)
Definition ensure_alpha (accessory_image : option array_ref) : M loc :=
  match accessory_image with
  | None => raise AttributeError
  | Some (Ref2 _) => raise IndexError
  | Some (Ref3 l) =>
      (a <- load l ;;
       if shape2 a =? 3 then alloc (add_opaque_alpha a) else ret l)%world
  end.

(** [_get_accessory_image]. *)
Definition _get_accessory_image (accessory : accessory_data) : M loc :=
  match accessory with
  | AccArray a => ensure_alpha (Some (Ref3 a))
  | AccArray2 m => ensure_alpha (Some (Ref2 m))
  | AccDict (Some path) _ =>
      fun w =>
        match cache_lookup path (accessory_cache w) with
        | Some l => (Ok l, w)
        | None =>
            (if os_path_exists path then
               (accessory_image <- imread path ;;
                ensure_alpha accessory_image)%world
             else
               (placeholder <- _create_placeholder_accessory (100, 100) ;;
                ensure_alpha (Some (Ref3 placeholder)))%world) w
        end
  | AccDict None (Some image) => ensure_alpha image
  | _ =>
      (placeholder <- _create_placeholder_accessory (100, 100) ;;
       ensure_alpha (Some (Ref3 placeholder)))%world
  end.

(** [AccessoryType(category)], with the fallback of [apply_accessory]. *)
Definition AccessoryType_of (category : string) : AccessoryType :=
  if String.eqb category "clothing" then CLOTHING
  else if String.eqb category "jewelry" then JEWELRY
  else if String.eqb category "glasses" then GLASSES
  else if String.eqb category "hats" then HATS
  else if String.eqb category "watches" then WATCHES
  else OTHER.

(** [apply_accessory]. *)
Definition apply_accessory (avatar_image : option loc)
    (accessory : option accessory_data) (category : string)
    (landmarks : pyval) : M (option loc) :=
  match avatar_image with
  | None => raise ValueError
  | Some avatar =>
      match accessory with
      | None => raise ValueError
      | Some acc =>
          let category_enum := AccessoryType_of category in
          (accessory_image <- _get_accessory_image acc ;;
           match category_enum with
           | CLOTHING => _apply_clothing avatar accessory_image landmarks
           | JEWELRY => _apply_jewelry avatar accessory_image landmarks
           | GLASSES => _apply_glasses avatar accessory_image landmarks
           | HATS => _apply_hat avatar accessory_image landmarks
           | WATCHES => _apply_watch avatar accessory_image landmarks
           | OTHER => _apply_generic_accessory avatar accessory_image
           end)%world
      end
  end.

End Fitter.

(** [VirtualFitter.__init__]: an empty cache. *)
Definition VirtualFitter_init (arrays : list ndarray) : world :=
  mk_world arrays [] [].

(** ** The face dictionaries of [avatar_generator.py] *)

Section FaceLandmarks.
Local Open Scope string_scope.
Local Open Scope Z_scope.

(** [landmarks.get(idx, None)] on the index-keyed dictionary of a mesh. *)
Definition landmark_get (landmarks : list (pykey * pyval)) (idx : Z) : pyval :=
  match lookup (KInt idx) landmarks with
  | Some v => v
  | None => PyNone
  end.

(** [_get_eye_landmarks]. *)
Definition _get_eye_landmarks (landmarks : list (pykey * pyval))
    (side : string) : pyval :=
  if String.eqb side "left" then
    PyDict [ (KStr "center", landmark_get landmarks 468);
             (KStr "left_corner", landmark_get landmarks 263);
             (KStr "right_corner", landmark_get landmarks 362);
             (KStr "top", landmark_get landmarks 386);
             (KStr "bottom", landmark_get landmarks 374);
             (KStr "iris", landmark_get landmarks 473) ]
  else
    PyDict [ (KStr "center", landmark_get landmarks 473);
             (KStr "left_corner", landmark_get landmarks 133);
             (KStr "right_corner", landmark_get landmarks 33);
             (KStr "top", landmark_get landmarks 159);
             (KStr "bottom", landmark_get landmarks 145);
             (KStr "iris", landmark_get landmarks 468) ].

Definition oval_indices : list Z :=
  [ 10; 338; 297; 332; 284; 251; 389; 356; 454; 323; 361; 288;
    397; 365; 379; 378; 400; 377; 152; 148; 176; 149; 150; 136;
    172; 58; 132; 93; 234; 127; 162; 21; 54; 103; 67; 109 ].

Fixpoint oval_from (landmarks : list (pykey * pyval)) (i : Z)
    (indices : list Z) : list (pykey * pyval) :=
  match indices with
  | [] => []
  | idx :: rest =>
      match lookup (KInt idx) landmarks with
      | Some v => (KInt i, v) :: oval_from landmarks (i + 1) rest
      | None => oval_from landmarks (i + 1) rest
      end
  end.

(** [_get_face_oval_landmarks]. *)
Definition _get_face_oval_landmarks (landmarks : list (pykey * pyval))
  : pyval :=
  PyDict (oval_from landmarks 0 oval_indices).

(** What [_detect_face_landmarks] returns for a detected mesh. *)
Definition face_landmarks_of (landmarks : list (pykey * pyval)) : pyval :=
  let features :=
    PyDict [ (KStr "left_eye", _get_eye_landmarks landmarks "left");
             (KStr "right_eye", _get_eye_landmarks landmarks "right");
             (KStr "nose",
              PyDict [ (KStr "tip", landmark_get landmarks 4);
                       (KStr "bottom", landmark_get landmarks 94);
                       (KStr "bridge", landmark_get landmarks 6) ]);
             (KStr "mouth",
              PyDict [ (KStr "left_corner", landmark_get landmarks 61);
                       (KStr "right_corner", landmark_get landmarks 291);
                       (KStr "top", landmark_get landmarks 13);
                       (KStr "bottom", landmark_get landmarks 14) ]);
             (KStr "face_oval", _get_face_oval_landmarks landmarks) ] in
  PyDict [ (KStr "landmarks", PyDict landmarks); (KStr "features", features) ].

(** The [landmarks] entry that [AvatarGenerator.generate] returns. *)
Definition generated_landmarks (face pose : pyval) : pyval :=
  PyDict [ (KStr "face", face); (KStr "pose", pose) ].

(** A face landmark [{'x': x, 'y': y, 'z': z}]. *)
Definition face_point (x y z : R) : pyval :=
  PyDict [ (KStr "x", PyNum x); (KStr "y", PyNum y); (KStr "z", PyNum z) ].

(** A pose landmark, with its visibility. *)
Definition pose_point (x y z visibility : R) : pyval :=
  PyDict [ (KStr "x", PyNum x); (KStr "y", PyNum y); (KStr "z", PyNum z);
           (KStr "visibility", PyNum visibility) ].

End FaceLandmarks.

(** ** Reading landmark dictionaries *)

Section Reading.
Local Open Scope string_scope.

(** The entry of a dictionary, when the value is a dictionary that has it. *)
Definition entry (d : pyval) (k : string) : option pyval :=
  match d with
  | PyDict items => lookup (KStr k) items
  | _ => None
  end.

(** A landmark with numeric coordinates [x] and [y]. *)
Definition is_point (v : pyval) (x y : R) : Prop :=
  entry v "x" = Some (PyNum x) /\ entry v "y" = Some (PyNum y).

(** [landmarks.get('features', {}).get(group, {}).get(side)], the way the
    placement rules reach a shoulder, hip or wrist. *)
Definition landmark_at (landmarks : pyval) (group side : string)
  : outcome pyval :=
  (features <- py_get landmarks "features" (PyDict []) ;;
   g <- py_get features group (PyDict []) ;;
   py_get g side PyNone)%py.

(** A landmark that is either missing ([None], an empty dictionary, no
    entry at all) or a point. *)
Definition point_or_missing (v : pyval) : Prop :=
  truthy v = false \/ exists x y, is_point v x y.

(** A pose dictionary with both shoulder points, at [(lx, ly)] and
    [(rx, ry)]. *)
Definition has_shoulders (pose : pyval) (lx ly rx ry : R) : Prop :=
  exists ls rs,
    landmark_at pose "shoulders" "left" = Ok ls /\
    landmark_at pose "shoulders" "right" = Ok rs /\
    is_point ls lx ly /\ is_point rs rx ry.

(** A pose dictionary with both hip points, at heights [hly] and [hry]. *)
Definition has_hips (pose : pyval) (hly hry : R) : Prop :=
  exists lh rh hlx hrx,
    landmark_at pose "hips" "left" = Ok lh /\
    landmark_at pose "hips" "right" = Ok rh /\
    is_point lh hlx hly /\ is_point rh hrx hry.

(** A pose dictionary in which a hip is missing. *)
Definition lacks_hips (pose : pyval) : Prop :=
  exists lh rh,
    landmark_at pose "hips" "left" = Ok lh /\
    landmark_at pose "hips" "right" = Ok rh /\
    truthy lh && truthy rh = false.

(** Hips that are each a point or missing. *)
Definition hips_well_formed (pose : pyval) : Prop :=
  exists lh rh,
    landmark_at pose "hips" "left" = Ok lh /\
    landmark_at pose "hips" "right" = Ok rh /\
    point_or_missing lh /\ point_or_missing rh.

(** The rotation that the clothing and glasses rules compute from a left
    point [(lx, ly)] and a right point [(rx, ry)]. *)
Definition tilt (lx ly rx ry : R) : R :=
  if Req_dec_T (rx - lx) 0 then 0%R
  else np_degrees (np_arctan ((ry - ly) / (rx - lx))).

End Reading.

(** Case analysis on the integer comparisons of a goal. *)
Ltac split_tests :=
  repeat match goal with
  | |- context [Z.gtb ?a ?b] => rewrite (Z.gtb_ltb a b)
  | H : context [Z.gtb ?a ?b] |- _ => rewrite (Z.gtb_ltb a b) in H
  end;
  repeat match goal with
  | |- context [Z.ltb ?a ?b] => destruct (Z.ltb_spec a b)
  | H : context [Z.ltb ?a ?b] |- _ => destruct (Z.ltb_spec a b)
  end.

(** Two readings of the same dictionary entry agree. *)
Ltac same_reading :=
  repeat match goal with
  | H1 : ?t = Ok ?a, H2 : ?t = Ok ?b |- _ =>
      first [ is_var b; rewrite H1 in H2; injection H2 as <-
            | is_var a; rewrite H2 in H1; injection H1 as <- ]
  end.

(** ** A small OpenCV stand-in, to run the fitter on examples

    Nearest-neighbour resizing (the identity at the native size), no
    rotation, rectangles drawn pixel by pixel, and a file system with one
    image and one file that is not an image. *)

Section Sample.
Local Open Scope string_scope.
Local Open Scope Z_scope.

Definition zrange (n : Z) : list Z := map Z.of_nat (seq 0 (Z.to_nat n)).

Definition sample_resize (src : ndarray) (dsize : Z * Z) : outcome ndarray :=
  let w := fst dsize in
  let h := snd dsize in
  if (w <=? 0) || (h <=? 0) || (shape0 src =? 0) || (shape1 src =? 0)
  then Raise CvError
  else
    Ok (map (fun i =>
               map (fun j =>
                      nth (Z.to_nat (j * shape1 src / w))
                        (nth (Z.to_nat (i * shape0 src / h)) src []) [])
                 (zrange w))
          (zrange h)).

Definition sample_rectangle (img : ndarray) (pt1 pt2 : Z * Z)
    (color : list Z) (thickness : Z) : ndarray :=
  map (fun irow =>
         let i := fst irow in
         map (fun jpx =>
                let j := fst jpx in
                let inside :=
                  (fst pt1 <=? j) && (j <=? fst pt2)
                  && (snd pt1 <=? i) && (i <=? snd pt2) in
                let edge :=
                  (j - fst pt1 <? thickness) || (fst pt2 - j <? thickness)
                  || (i - snd pt1 <? thickness) || (snd pt2 - i <? thickness) in
                if inside && ((thickness <? 0) || edge) then color
                else snd jpx)
           (combine (zrange (Z.of_nat (List.length (snd irow)))) (snd irow)))
    (combine (zrange (Z.of_nat (List.length img))) img).

Definition sample_cap : ndarray :=
  [ [ [10; 20; 30]; [40; 50; 60] ] ].

Definition sample_imread (path : string) : option py_array :=
  if String.eqb path "accessories/hats/cap.png" then Some (Axes3 sample_cap)
  else None.

Definition sample_exists (path : string) : bool :=
  String.eqb path "accessories/hats/cap.png"
  || String.eqb path "accessories/hats/notes.txt".

Definition sample_cv2 : Cv2 :=
  {| affine := R;
     cv2_resize := sample_resize;
     cv2_getRotationMatrix2D := fun _ angle _ => angle;
     cv2_warpAffine := fun src _ _ => Ok src;
     cv2_rectangle := sample_rectangle;
     cv2_imread := sample_imread;
     os_path_exists := sample_exists |}.

(** A 4x4 opaque grey avatar and two 2x2 accessories, one fully transparent
    and one fully opaque. *)
Definition grey : pixel := [90; 90; 90; 255].
Definition sample_avatar : ndarray := repeat (repeat grey 4) 4.
Definition clear_px : pixel := [7; 8; 9; 0].
Definition solid_px : pixel := [7; 8; 9; 255].
Definition sample_clear : ndarray := repeat (repeat clear_px 2) 2.
Definition sample_solid : ndarray := repeat (repeat solid_px 2) 2.

(** A store holding the avatar at reference 0, the transparent accessory at
    1 and the opaque one at 2, in a freshly built fitter. *)
Definition sample_world : world :=
  VirtualFitter_init [sample_avatar; sample_clear; sample_solid].

(** A detected face mesh without the iris landmarks 468 and 473: three
    points of the face oval only. *)
Definition sample_mesh : list (pykey * pyval) :=
  [ (KInt 10, face_point 50 10 0);
    (KInt 234, face_point 20 40 0);
    (KInt 454, face_point 80 40 0) ].

(** Pose dictionaries with level and with tilted shoulders, without and
    with hips. *)
Definition pose_with (shoulders hips : pyval) : pyval :=
  PyDict [ (KStr "landmarks", PyDict []);
           (KStr "features",
            PyDict [ (KStr "shoulders", shoulders);
                     (KStr "wrists",
                      PyDict [ (KStr "left", PyNone); (KStr "right", PyNone) ]);
                     (KStr "hips", hips);
                     (KStr "neck", PyNone) ]) ].

Definition pair_of (l r : pyval) : pyval :=
  PyDict [ (KStr "left", l); (KStr "right", r) ].

Definition level_pose : pyval :=
  pose_with (pair_of (pose_point 100 200 0 1) (pose_point 300 200 0 1))
            (pair_of PyNone PyNone).

Definition tilted_pose : pyval :=
  pose_with (pair_of (pose_point 100 180 0 1) (pose_point 300 220 0 1))
            (pair_of PyNone PyNone).

Definition torso_pose : pyval :=
  pose_with (pair_of (pose_point 100 100 0 1) (pose_point 300 100 0 1))
            (pair_of (pose_point 120 300 0 1) (pose_point 280 300 0 1)).

End Sample.

(** ** The pose dictionaries and the avatar of [avatar_generator.py] *)

Section Generator.
Local Open Scope string_scope.
Local Open Scope py_scope.

(** The members of [mp.solutions.pose.PoseLandmark] that the generator
    reads, by value.  The enumeration belongs to MediaPipe. *)
Record PoseLandmark : Type := mk_PoseLandmark {
  LEFT_SHOULDER : Z;
  RIGHT_SHOULDER : Z;
  LEFT_WRIST : Z;
  RIGHT_WRIST : Z;
  LEFT_HIP : Z;
  RIGHT_HIP : Z
}.

Definition mediapipe_PoseLandmark : PoseLandmark :=
  mk_PoseLandmark 11 12 15 16 23 24.

Variable P : PoseLandmark.

(** [_calculate_neck_position]. *)
Definition _calculate_neck_position (landmarks : list (pykey * pyval))
  : outcome pyval :=
  let left_shoulder := landmark_get landmarks (LEFT_SHOULDER P) in
  let right_shoulder := landmark_get landmarks (RIGHT_SHOULDER P) in
  if truthy left_shoulder && truthy right_shoulder then
    lx <- py_getitem left_shoulder "x" ;;
    rx <- py_getitem right_shoulder "x" ;;
    sx <- py_add lx rx ;;
    let neck_x := (sx / 2)%R in
    ly <- py_getitem left_shoulder "y" ;;
    ry <- py_getitem right_shoulder "y" ;;
    sy <- py_add ly ry ;;
    let neck_y := (sy / 2 - 10)%R in
    lz <- py_getitem left_shoulder "z" ;;
    rz <- py_getitem right_shoulder "z" ;;
    sz <- py_add lz rz ;;
    let neck_z := (sz / 2)%R in
    Ok (PyDict [ (KStr "x", PyNum neck_x); (KStr "y", PyNum neck_y);
                 (KStr "z", PyNum neck_z) ])
  else Ok PyNone.

(** What [_detect_pose_landmarks] returns for the index-keyed dictionary of
    a detected pose; an exception on the way is caught and gives [None]. *)
Definition pose_landmarks_of (landmarks : list (pykey * pyval)) : pyval :=
  match _calculate_neck_position landmarks with
  | Ok neck =>
      let features :=
        PyDict
          [ (KStr "shoulders",
             PyDict [ (KStr "left", landmark_get landmarks (LEFT_SHOULDER P));
                      (KStr "right", landmark_get landmarks (RIGHT_SHOULDER P)) ]);
            (KStr "wrists",
             PyDict [ (KStr "left", landmark_get landmarks (LEFT_WRIST P));
                      (KStr "right", landmark_get landmarks (RIGHT_WRIST P)) ]);
            (KStr "hips",
             PyDict [ (KStr "left", landmark_get landmarks (LEFT_HIP P));
                      (KStr "right", landmark_get landmarks (RIGHT_HIP P)) ]);
            (KStr "neck", neck) ] in
      PyDict [ (KStr "landmarks", PyDict landmarks);
               (KStr "features", features) ]
  | Raise _ => PyNone
  end.

(** The loops of [_detect_face_landmarks] and [_detect_pose_landmarks] over
    the landmarks of MediaPipe, which are normalised to the image:
    [landmarks[idx] = {'x': landmark.x * w, 'y': landmark.y * h, ...}]. *)
Fixpoint face_mesh_from (w h : R) (idx : Z) (raw : list (R * R * R))
  : list (pykey * pyval) :=
  match raw with
  | [] => []
  | (x, y, z) :: rest =>
      (KInt idx, face_point (x * w) (y * h) z)
        :: face_mesh_from w h (idx + 1) rest
  end.

Fixpoint pose_mesh_from (w h : R) (idx : Z) (raw : list (R * R * R * R))
  : list (pykey * pyval) :=
  match raw with
  | [] => []
  | (x, y, z, visibility) :: rest =>
      (KInt idx, pose_point (x * w) (y * h) z visibility)
        :: pose_mesh_from w h (idx + 1) rest
  end.

(** [_detect_face_landmarks], given what [self.face_mesh.process(image)]
    found: no face ([None]) or the landmarks of the first face. *)
Definition _detect_face_landmarks (image : ndarray)
    (found : option (list (R * R * R))) : pyval :=
  match found with
  | None => PyNone
  | Some raw =>
      face_landmarks_of
        (face_mesh_from (IZR (shape1 image)) (IZR (shape0 image)) 0 raw)
  end.

(** [_detect_pose_landmarks], likewise. *)
Definition _detect_pose_landmarks (image : ndarray)
    (found : option (list (R * R * R * R))) : pyval :=
  match found with
  | None => PyNone
  | Some raw =>
      pose_landmarks_of
        (pose_mesh_from (IZR (shape1 image)) (IZR (shape0 image)) 0 raw)
  end.

(** [a[:, :, :3]] and [a[:, :, 3]]. *)
Definition rgb_channels (a : ndarray) : ndarray := map (map (firstn 3)) a.
Definition alpha_channel (a : ndarray) : list (list Z) :=
  map (map (fun px => nth 3 px 0%Z)) a.

(** [np.dstack((rgb, alpha))]: the arrays must agree in rows and columns. *)
Definition np_dstack (rgb : ndarray) (alpha : list (list Z))
  : outcome ndarray :=
  if (List.length rgb =? List.length alpha)%nat
     && forallb (fun p => (List.length (fst p) =? List.length (snd p))%nat)
          (combine rgb alpha)
  then Ok (map2 (map2 (fun px a => (px ++ [a])%list)) rgb alpha)
  else Raise ValueError.

(** MediaPipe and the colour processing of OpenCV, as the generator uses
    them. *)
Class Perception : Type := {
  (** [cv2.cvtColor(a, cv2.COLOR_BGR2RGB)] *)
  cvtColor_BGR2RGB : ndarray -> ndarray;
  (** [self.face_mesh.process(image).multi_face_landmarks[0].landmark] *)
  face_mesh_process : ndarray -> option (list (R * R * R));
  (** [self.pose.process(image).pose_landmarks.landmark] *)
  pose_process : ndarray -> option (list (R * R * R * R));
  (** the contrast enhancement of [_enhance_image] on the three colour
      channels: BGR to LAB, CLAHE on L, LAB to BGR *)
  enhance_rgb : ndarray -> ndarray
}.

Context {perception : Perception}.

(** [_enhance_image]; an image without a fourth channel has no
    [enhanced[:, :, 3]]. *)
Definition _enhance_image (image : ndarray) : outcome ndarray :=
  let enhanced := image in
  let rgb := rgb_channels enhanced in
  if (shape2 enhanced <? 4)%Z then Raise IndexError else
  let alpha := alpha_channel enhanced in
  let enhanced_rgb := enhance_rgb rgb in
  np_dstack enhanced_rgb alpha.

(** [generate]: the returned dictionary as the pair of its ['image'] and
    ['landmarks'] entries.  The first statement reads
    [segmented_image.shape[2]], which an array of two axes does not have. *)
Definition generate (segmented_image : py_array)
  : outcome (ndarray * pyval) :=
  match segmented_image with
  | Axes2 _ => Raise IndexError
  | Axes3 segmented_image =>
      segmented_image <-
        (if negb (shape2 segmented_image =? 4)%Z then
           if (shape2 segmented_image =? 3)%Z
           then Ok (add_opaque_alpha segmented_image)
           else Raise ValueError
         else Ok segmented_image) ;;
      let avatar_image := segmented_image in
      let rgb_image := cvtColor_BGR2RGB (rgb_channels segmented_image) in
      let face_landmarks :=
        _detect_face_landmarks rgb_image (face_mesh_process rgb_image) in
      let pose_landmarks :=
        _detect_pose_landmarks rgb_image (pose_process rgb_image) in
      let landmarks := generated_landmarks face_landmarks pose_landmarks in
      enhanced_image <- _enhance_image avatar_image ;;
      Ok (enhanced_image, landmarks)
  end.

End Generator.

(** ** More sample data *)

Section Sample2.
Local Open Scope string_scope.
Local Open Scope R_scope.

(** A face oval given by its points. *)
Definition oval_of (points : list (pykey * (R * R * R))) : pyval :=
  PyDict (map (fun kp =>
                 (fst kp,
                  face_point (fst (fst (snd kp))) (snd (fst (snd kp)))
                    (snd (snd kp))))
            points).

(** A face dictionary with the given eyes and face oval. *)
Definition face_with (left_eye right_eye face_oval : pyval) : pyval :=
  PyDict [ (KStr "landmarks", PyDict []);
           (KStr "features",
            PyDict [ (KStr "left_eye", left_eye);
                     (KStr "right_eye", right_eye);
                     (KStr "face_oval", face_oval) ]) ].

Definition eye_at (x y : R) : pyval :=
  PyDict [ (KStr "center", face_point x y 0) ].

Definition sample_oval : list (pykey * (R * R * R)) :=
  [ (KInt 0, (50, 10, 0)); (KInt 1, (20, 40, 0)); (KInt 2, (80, 40, 0)) ].

(** A detected pose: shoulders, left wrist and hips at the indices of
    MediaPipe. *)
Definition sample_pose_mesh : list (pykey * pyval) :=
  [ (KInt 11, pose_point 100 200 0 1);
    (KInt 12, pose_point 300 220 0 1);
    (KInt 15, pose_point 90 400 0 0.9);
    (KInt 23, pose_point 120 500 0 1);
    (KInt 24, pose_point 280 500 0 1) ].

(** The tilted shoulders of [tilted_pose] with left and right exchanged. *)
Definition mirrored_pose : pyval :=
  pose_with (pair_of (pose_point 300 220 0 1) (pose_point 100 180 0 1))
            (pair_of PyNone PyNone).

(** Shoulders one above the other, as of a person seen from the side. *)
Definition upright_pose : pyval :=
  pose_with (pair_of (pose_point 100 100 0 1) (pose_point 100 300 0 1))
            (pair_of PyNone PyNone).

(** The pose dictionary that the generator builds from [sample_pose_mesh]. *)
Definition sample_pose : pyval :=
  pose_landmarks_of mediapipe_PoseLandmark sample_pose_mesh.

(** A face with both eye centres and the oval [sample_oval]. *)
Definition sample_face : pyval :=
  face_with (eye_at 40 50) (eye_at 60 52) (oval_of sample_oval).

(** A stand-in for MediaPipe that finds nothing and an enhancement that
    changes nothing. *)
Definition sample_perception : Perception :=
  {| cvtColor_BGR2RGB := fun a => a;
     face_mesh_process := fun _ => None;
     pose_process := fun _ => None;
     enhance_rgb := fun a => a |}.

End Sample2.

(** ** Reading necks, eyes and face ovals *)

Section Reading2.
Local Open Scope string_scope.

(** [landmarks.get('features', {}).get('neck')]. *)
Definition neck_at (landmarks : pyval) : outcome pyval :=
  (features <- py_get landmarks "features" (PyDict []) ;;
   py_get features "neck" PyNone)%py.

(** A face dictionary whose eyes have centre points [(lx, ly)] and
    [(rx, ry)]. *)
Definition has_eyes (face : pyval) (lx ly rx ry : R) : Prop :=
  exists features left_eye right_eye lc rc,
    py_get face "features" (PyDict []) = Ok features /\
    py_get features "left_eye" (PyDict []) = Ok left_eye /\
    py_get features "right_eye" (PyDict []) = Ok right_eye /\
    entry left_eye "center" = Some lc /\
    entry right_eye "center" = Some rc /\
    is_point lc lx ly /\ is_point rc rx ry.

(** A face dictionary whose face oval holds exactly the given points. *)
Definition has_oval (face : pyval) (points : list (pykey * (R * R * R)))
  : Prop :=
  exists features,
    py_get face "features" (PyDict []) = Ok features /\
    py_get features "face_oval" (PyDict []) = Ok (oval_of points).

(** Abscissas and ordinates of a list of oval points. *)
Definition xs_of (points : list (pykey * (R * R * R))) : list R :=
  map (fun kp => fst (fst (snd kp))) points.
Definition ys_of (points : list (pykey * (R * R * R))) : list R :=
  map (fun kp => snd (fst (snd kp))) points.

(** [m] is the least, respectively the greatest, element of [l]. *)
Definition least (m : R) (l : list R) : Prop :=
  In m l /\ forall v, In v l -> (m <= v)%R.
Definition greatest (m : R) (l : list R) : Prop :=
  In m l /\ forall v, In v l -> (v <= m)%R.

End Reading2.

(** ** The prompt box of [sam_processor.py] *)

Section PromptBox.
Local Open Scope Z_scope.

(** The box [[x1, y1, x2, y2]] that [auto_segment_person] computes for an
    image of [h] rows and [w] columns and hands to [segment_from_box];
    [//] on integers is the floor division. *)
Definition auto_segment_box (h w : Z) : Z * Z * Z * Z :=
  let center_x := w / 2 in
  let center_y := h / 2 in
  let box_w := py_int (IZR w * 0.6) in
  let box_h := py_int (IZR h * 0.8) in
  let x1 := Z.max 0 (center_x - box_w / 2) in
  let y1 := Z.max 0 (center_y - box_h / 2) in
  let x2 := Z.min w (center_x + box_w / 2) in
  let y2 := Z.min h (center_y + box_h / 2) in
  (x1, y1, x2, y2).

(** The conversion at the head of [segment_from_box], on a box of
    integers: a box whose four coordinates all lie in [0, 1] is read as
    normalised and scaled by the image size. *)
Definition box_to_pixels (h w : Z) (box : Z * Z * Z * Z) : Z * Z * Z * Z :=
  let '(b0, b1, b2, b3) := box in
  let unit c := (0 <=? c) && (c <=? 1) in
  if unit b0 && unit b1 && unit b2 && unit b3
  then (b0 * w, b1 * h, b2 * w, b3 * h)
  else (b0, b1, b2, b3).

End PromptBox.

(** ** Shape-preserving enhancement *)

(** The colour enhancement returns a well-formed three-channel array with
    the rows and columns of its argument, as the colour conversions and
    CLAHE of OpenCV do. *)
Definition keeps_shape (perception : Perception) : Prop :=
  forall (n : nat) (a : ndarray),
    forallb (row_ok 3 n) a = true ->
    forallb (row_ok 3 n) (enhance_rgb a) = true /\
    List.length (enhance_rgb a) = List.length a.

(** ** Growth of the store *)

(** [w'] holds every array of [w], unchanged and at the same reference,
    the same cache, and a decode log that starts with the log of [w]. *)
Definition grows (w w' : world) : Prop :=
  (exists more, heap w' = (heap w ++ more)%list) /\
  accessory_cache w' = accessory_cache w /\
  (exists more, imread_log w' = (imread_log w ++ more)%list).

(** * Properties *)

(** ** Reading points out of landmark dictionaries *)

Section PlacementFacts.
Local Open Scope string_scope.
Local Open Scope R_scope.

Lemma is_point_truthy v x y : is_point v x y -> truthy v = true.
Proof.
  intros [Hx _].
  destruct v as [| r | [| p items]]; simpl in *; try discriminate.
  reflexivity.
Qed.

Lemma entry_getitem v k e : entry v k = Some e -> py_getitem v k = Ok e.
Proof.
  destruct v; simpl; try discriminate. intros ->. reflexivity.
Qed.

Lemma is_point_x v x y : is_point v x y -> py_getitem v "x" = Ok (PyNum x).
Proof. intros [H _]. now apply entry_getitem. Qed.

Lemma is_point_y v x y : is_point v x y -> py_getitem v "y" = Ok (PyNum y).
Proof. intros [_ H]. now apply entry_getitem. Qed.

Lemma landmark_at_inv pose g s v :
  landmark_at pose g s = Ok v ->
  exists features group,
    py_get pose "features" (PyDict []) = Ok features /\
    py_get features g (PyDict []) = Ok group /\
    py_get group s PyNone = Ok v.
Proof.
  unfold landmark_at, bind.
  destruct (py_get pose "features" (PyDict [])) as [features|] eqn:Hf;
    try discriminate.
  destruct (py_get features g (PyDict [])) as [group|] eqn:Hg;
    try discriminate.
  intros H. exists features, group. auto.
Qed.

Lemma py_max_Rmax a b : py_max a b = Rmax a b.
Proof.
  unfold py_max, Rmax.
  destruct (Rlt_dec a b), (Rle_dec a b); try reflexivity; lra.
Qed.

Lemma clothing_without_hips image pose lx ly rx ry :
  has_shoulders pose lx ly rx ry -> lacks_hips pose ->
  _get_clothing_placement image pose =
    Ok (Some (mk_placement
                ((lx + rx) / 2)
                ((ly + ry) / 2 + IZR (shape0 image) * 0.1)
                (Rabs (rx - lx) * 2)
                (IZR (shape0 image) * 0.5)
                (tilt lx ly rx ry))).
Proof.
  intros (ls & rs & H1 & H2 & Pl & Pr) (lh & rh & H3 & H4 & Hh).
  apply landmark_at_inv in H1 as (f1 & g1 & F1 & G1 & S1).
  apply landmark_at_inv in H2 as (f2 & g2 & F2 & G2 & S2).
  apply landmark_at_inv in H3 as (f3 & g3 & F3 & G3 & S3).
  apply landmark_at_inv in H4 as (f4 & g4 & F4 & G4 & S4).
  same_reading.
  unfold _get_clothing_placement, tilt.
  rewrite F1. cbn [bind]. rewrite G1, G3. cbn [bind].
  rewrite S1, S2, S3, S4. cbn [bind].
  rewrite (is_point_truthy Pl), (is_point_truthy Pr), Hh. cbn [andb negb].
  rewrite (is_point_x Pl), (is_point_x Pr), (is_point_y Pl), (is_point_y Pr).
  cbn [bind py_add py_sub fst snd].
  destruct (Req_dec_T (rx - lx) 0); reflexivity.
Qed.

Lemma clothing_with_hips image pose lx ly rx ry hly hry :
  has_shoulders pose lx ly rx ry -> has_hips pose hly hry ->
  _get_clothing_placement image pose =
    Ok (Some (mk_placement
                ((lx + rx) / 2)
                (((ly + ry) / 2 + (hly + hry) / 2) / 2)
                (Rabs (rx - lx) * 2)
                (py_max
                   (((hly + hry) / 2
                     - ((ly + ry) / 2 + (hly + hry) / 2) / 2) * 2)
                   (IZR (shape0 image) * 0.3))
                (tilt lx ly rx ry))).
Proof.
  intros (ls & rs & H1 & H2 & Pl & Pr)
         (lh & rh & hlx & hrx & H3 & H4 & Ql & Qr).
  apply landmark_at_inv in H1 as (f1 & g1 & F1 & G1 & S1).
  apply landmark_at_inv in H2 as (f2 & g2 & F2 & G2 & S2).
  apply landmark_at_inv in H3 as (f3 & g3 & F3 & G3 & S3).
  apply landmark_at_inv in H4 as (f4 & g4 & F4 & G4 & S4).
  same_reading.
  unfold _get_clothing_placement, tilt.
  rewrite F1. cbn [bind]. rewrite G1, G3. cbn [bind].
  rewrite S1, S2, S3, S4. cbn [bind].
  rewrite (is_point_truthy Pl), (is_point_truthy Pr),
    (is_point_truthy Ql), (is_point_truthy Qr). cbn [andb negb].
  rewrite (is_point_x Pl), (is_point_x Pr), (is_point_y Pl), (is_point_y Pr),
    (is_point_y Ql), (is_point_y Qr).
  cbn [bind py_add py_sub fst snd].
  destruct (Req_dec_T (rx - lx) 0); reflexivity.
Qed.

Lemma hips_cases pose :
  hips_well_formed pose ->
  lacks_hips pose \/ exists hly hry, has_hips pose hly hry.
Proof.
  intros (lh & rh & H3 & H4 & [Tl | (hlx & hly & Ql)] & Pr).
  - left. exists lh, rh. rewrite Tl. auto.
  - destruct Pr as [Tr | (hrx & hry & Qr)].
    + left. exists lh, rh. rewrite Tr, andb_false_r. auto.
    + right. exists hly, hry, lh, rh, hlx, hrx. auto.
Qed.

(** ** The bound on arctan(1/5) in degrees *)

Lemma atan_series_bounds x : 0 < x < 1 -> x - x ^ 3 / 3 <= atan x <= x.
Proof.
  intros Hx. rewrite atan_eq_ps_atan by assumption.
  unfold ps_atan.
  destruct (in_int x) as [Hin | Hout]; [| exfalso; apply Hout; lra].
  destruct (ps_atan_exists_1 x Hin) as [v Pv].
  assert (Hdec : Un_decreasing (Ratan_seq x))
    by (apply Ratan_seq_decreasing; lra).
  assert (Hcv : Un_cv (Ratan_seq x) 0)
    by (apply Ratan_seq_converging; lra).
  destruct (alternated_series_ineq (Ratan_seq x) v 0 Hdec Hcv Pv) as [Hl Hu].
  unfold tg_alt, Ratan_seq in Hl, Hu. simpl in Hl, Hu.
  split; [ eapply Rle_trans; [| exact Hl] | eapply Rle_trans; [exact Hu |] ];
    apply Req_le; field.
Qed.

Lemma atan_fifth_degrees : 11.30 < atan (40 / 200) * (180 / PI) < 11.32.
Proof.
  replace (40 / 200) with (/ 5) by lra.
  assert (Ha : / 5 - (/ 5) ^ 3 / 3 <= atan (/ 5) <= / 5)
    by (apply atan_series_bounds; lra).
  assert (Hb : / 239 - (/ 239) ^ 3 / 3 <= atan (/ 239) <= / 239)
    by (apply atan_series_bounds; lra).
  assert (HPI : PI = 4 * (4 * atan (/ 5) - atan (/ 239)))
    by (generalize Machin_4_5_239; lra).
  set (a := atan (/ 5)) in *. set (b := atan (/ 239)) in *.
  assert (Hp : 0 < PI) by apply PI_RGT_0.
  assert (Hbl : 0.0041 < b) by lra.
  assert (Hbu : b < 0.0042) by lra.
  assert (Hal : 0.197 < a) by lra.
  assert (Hau : a <= 0.2) by lra.
  split; apply Rmult_lt_reg_r with PI; try assumption;
    replace (a * (180 / PI) * PI) with (a * 180) by (field; lra);
    rewrite HPI; lra.
Qed.

(** ** Clothing placement *)

(** C4, as amended.  With both shoulders and both hips, the height of the
    clothing placement is the larger of the shoulder-to-hip distance
    (hip-center-y minus shoulder-center-y, not twice that) and 30% of the
    image height; with both shoulders and a hip missing it is 50% of the
    image height. *)
Theorem clothing_height :
  (forall image pose lx ly rx ry hly hry,
     has_shoulders pose lx ly rx ry -> has_hips pose hly hry ->
     exists p,
       _get_clothing_placement image pose = Ok (Some p) /\
       pl_height p =
         Rmax ((hly + hry) / 2 - (ly + ry) / 2) (IZR (shape0 image) * 0.3))
  /\
  (forall image pose lx ly rx ry,
     has_shoulders pose lx ly rx ry -> lacks_hips pose ->
     exists p,
       _get_clothing_placement image pose = Ok (Some p) /\
       pl_height p = IZR (shape0 image) * 0.5).
Proof.
  split.
  - intros image pose lx ly rx ry hly hry Hs Hh.
    eexists. split; [ apply (clothing_with_hips image Hs Hh) |].
    cbn [pl_height]. rewrite py_max_Rmax. f_equal. lra.
  - intros image pose lx ly rx ry Hs Hh.
    eexists. split; [ apply (clothing_without_hips image Hs Hh) |].
    reflexivity.
Qed.

Lemma torso_pose_shoulders : has_shoulders torso_pose 100 100 300 100.
Proof.
  exists (pose_point 100 100 0 1), (pose_point 300 100 0 1).
  repeat split; reflexivity.
Defined.

Lemma torso_pose_hips : has_hips torso_pose 300 300.
Proof.
  exists (pose_point 120 300 0 1), (pose_point 280 300 0 1), 120, 280.
  repeat split; reflexivity.
Defined.

Lemma level_pose_shoulders : has_shoulders level_pose 100 200 300 200.
Proof.
  exists (pose_point 100 200 0 1), (pose_point 300 200 0 1).
  repeat split; reflexivity.
Defined.

Lemma level_pose_hips : lacks_hips level_pose.
Proof. exists PyNone, PyNone. repeat split; reflexivity. Defined.

Lemma tilted_pose_shoulders : has_shoulders tilted_pose 100 180 300 220.
Proof.
  exists (pose_point 100 180 0 1), (pose_point 300 220 0 1).
  repeat split; reflexivity.
Defined.

Lemma tilted_pose_hips : lacks_hips tilted_pose.
Proof. exists PyNone, PyNone. repeat split; reflexivity. Defined.

Lemma clothing_height_witness :
  (exists p,
     _get_clothing_placement sample_avatar torso_pose = Ok (Some p) /\
     pl_height p =
       Rmax ((300 + 300) / 2 - (100 + 100) / 2)
            (IZR (shape0 sample_avatar) * 0.3))
  /\
  (exists p,
     _get_clothing_placement sample_avatar level_pose = Ok (Some p) /\
     pl_height p = IZR (shape0 sample_avatar) * 0.5).
Proof.
  split.
  - exact (proj1 clothing_height sample_avatar torso_pose
             100 100 300 100 300 300 torso_pose_shoulders torso_pose_hips).
  - exact (proj2 clothing_height sample_avatar level_pose
             100 200 300 200 level_pose_shoulders level_pose_hips).
Defined.

(** C4 as stated fails: shoulders at height 100 and hips at height 300 on a
    4-row image give a height of 200, where twice the distance would be
    400. *)
Lemma clothing_height_counterexample :
  has_shoulders torso_pose 100 100 300 100 /\
  has_hips torso_pose 300 300 /\
  exists p,
    _get_clothing_placement sample_avatar torso_pose = Ok (Some p) /\
    pl_height p = 200 /\
    pl_height p <>
      Rmax (2 * ((300 + 300) / 2 - (100 + 100) / 2))
           (IZR (shape0 sample_avatar) * 0.3).
Proof.
  split; [ exact torso_pose_shoulders |].
  split; [ exact torso_pose_hips |].
  eexists. split.
  - apply (clothing_with_hips sample_avatar
             torso_pose_shoulders torso_pose_hips).
  - cbn [pl_height]. rewrite py_max_Rmax.
    change (shape0 sample_avatar) with 4%Z.
    assert (E : Rmax (((300 + 300) / 2
                       - ((100 + 100) / 2 + (300 + 300) / 2) / 2) * 2)
                     (4 * 0.3) = 200).
    { rewrite Rmax_left; lra. }
    rewrite E. split; [ reflexivity |].
    rewrite Rmax_left; lra.
Qed.

(** C8.  With both shoulders, the rotation of the clothing placement is the
    arctangent of dy/dx between the shoulder points, in degrees, and 0 when
    dx is 0, and the centre is the mean of the shoulder abscissas; level
    shoulders at (100,200) and (300,200) give rotation 0 and centre 200, and
    shoulders at (100,180) and (300,220) give arctan(40/200) in degrees,
    which lies between 11.30 and 11.32. *)
Theorem clothing_rotation :
  (forall image pose lx ly rx ry,
     has_shoulders pose lx ly rx ry -> hips_well_formed pose ->
     exists p,
       _get_clothing_placement image pose = Ok (Some p) /\
       pl_x p = (lx + rx) / 2 /\
       (rx - lx <> 0 ->
        pl_rotation p = atan ((ry - ly) / (rx - lx)) * (180 / PI)) /\
       (rx - lx = 0 -> pl_rotation p = 0))
  /\
  (forall image pose,
     has_shoulders pose 100 200 300 200 -> hips_well_formed pose ->
     exists p,
       _get_clothing_placement image pose = Ok (Some p) /\
       pl_rotation p = 0 /\ pl_x p = 200)
  /\
  (forall image pose,
     has_shoulders pose 100 180 300 220 -> hips_well_formed pose ->
     exists p,
       _get_clothing_placement image pose = Ok (Some p) /\
       pl_rotation p = atan (40 / 200) * (180 / PI) /\
       11.30 < pl_rotation p < 11.32).
Proof.
  assert (General : forall image pose lx ly rx ry,
             has_shoulders pose lx ly rx ry -> hips_well_formed pose ->
             exists p,
               _get_clothing_placement image pose = Ok (Some p) /\
               pl_x p = (lx + rx) / 2 /\
               pl_rotation p = tilt lx ly rx ry).
  { intros image pose lx ly rx ry Hs Hw.
    destruct (hips_cases Hw) as [Hn | (hly & hry & Hh)].
    - eexists. split; [ apply (clothing_without_hips image Hs Hn) |].
      split; reflexivity.
    - eexists. split; [ apply (clothing_with_hips image Hs Hh) |].
      split; reflexivity. }
  split; [| split].
  - intros image pose lx ly rx ry Hs Hw.
    destruct (General image pose lx ly rx ry Hs Hw) as (p & Hp & Hx & Hr).
    exists p. repeat split; try assumption.
    + intros Hd. rewrite Hr. unfold tilt.
      destruct (Req_dec_T (rx - lx) 0); [ contradiction | reflexivity ].
    + intros Hd. rewrite Hr. unfold tilt.
      destruct (Req_dec_T (rx - lx) 0); [ reflexivity | contradiction ].
  - intros image pose Hs Hw.
    destruct (General image pose _ _ _ _ Hs Hw) as (p & Hp & Hx & Hr).
    exists p. repeat split; try assumption.
    + rewrite Hr. unfold tilt.
      destruct (Req_dec_T (300 - 100) 0); [ reflexivity |].
      replace ((200 - 200) / (300 - 100)) with 0 by lra.
      unfold np_arctan, np_degrees. rewrite atan_0. lra.
    + rewrite Hx. lra.
  - intros image pose Hs Hw.
    destruct (General image pose _ _ _ _ Hs Hw) as (p & Hp & Hx & Hr).
    assert (E : pl_rotation p = atan (40 / 200) * (180 / PI)).
    { rewrite Hr. unfold tilt.
      destruct (Req_dec_T (300 - 100) 0); [ lra |].
      replace ((220 - 180) / (300 - 100)) with (40 / 200) by lra.
      reflexivity. }
    exists p. repeat split; try assumption; rewrite E;
      apply atan_fifth_degrees.
Qed.

Lemma level_pose_hips_well_formed : hips_well_formed level_pose.
Proof.
  exists PyNone, PyNone. repeat split; try reflexivity; left; reflexivity.
Defined.

Lemma tilted_pose_hips_well_formed : hips_well_formed tilted_pose.
Proof.
  exists PyNone, PyNone. repeat split; try reflexivity; left; reflexivity.
Defined.

Lemma clothing_rotation_witness :
  (exists p,
     _get_clothing_placement sample_avatar tilted_pose = Ok (Some p) /\
     pl_x p = (100 + 300) / 2 /\
     (300 - 100 <> 0 ->
      pl_rotation p = atan ((220 - 180) / (300 - 100)) * (180 / PI)) /\
     (300 - 100 = 0 -> pl_rotation p = 0))
  /\
  (exists p,
     _get_clothing_placement sample_avatar level_pose = Ok (Some p) /\
     pl_rotation p = 0 /\ pl_x p = 200)
  /\
  (exists p,
     _get_clothing_placement sample_avatar tilted_pose = Ok (Some p) /\
     pl_rotation p = atan (40 / 200) * (180 / PI) /\
     11.30 < pl_rotation p < 11.32).
Proof.
  split; [| split].
  - exact (proj1 clothing_rotation sample_avatar tilted_pose
             100 180 300 220
             tilted_pose_shoulders tilted_pose_hips_well_formed).
  - exact (proj1 (proj2 clothing_rotation) sample_avatar level_pose
             level_pose_shoulders level_pose_hips_well_formed).
  - exact (proj2 (proj2 clothing_rotation) sample_avatar tilted_pose
             tilted_pose_shoulders tilted_pose_hips_well_formed).
Defined.

(** ** Fallback to the default placement *)

(** The table of [_get_default_placement]. *)
Lemma default_placement_table image :
  let h := IZR (shape0 image) in
  let w := IZR (shape1 image) in
  let half_w := IZR (shape1 image / 2) in
  let half_h := IZR (shape0 image / 2) in
  _get_default_placement image "head"
    = mk_placement half_w (h * 0.15) (w * 0.5) (h * 0.2) 0 /\
  _get_default_placement image "face"
    = mk_placement half_w (h * 0.25) (w * 0.4) (h * 0.1) 0 /\
  _get_default_placement image "neck"
    = mk_placement half_w (h * 0.35) (w * 0.3) (h * 0.1) 0 /\
  _get_default_placement image "torso"
    = mk_placement half_w (h * 0.5) (w * 0.7) (h * 0.4) 0 /\
  _get_default_placement image "wrist"
    = mk_placement (w * 0.7) (h * 0.6) (w * 0.15) (w * 0.15) 0 /\
  _get_default_placement image "center"
    = mk_placement half_w half_h (w * 0.5) (h * 0.3) 0.
Proof. repeat split. Qed.

(** Without a face or a pose the landmark rule is not consulted. *)
Lemma no_landmarks_default category image :
  compute_placement category image PyNone =
  Ok (_get_default_placement image
        (match category with
         | CLOTHING => "torso" | JEWELRY => "neck" | GLASSES => "face"
         | HATS => "head" | WATCHES => "wrist" | OTHER => "center"
         end)).
Proof. destruct category; reflexivity. Qed.

(** The clothing rule falls back when a shoulder is [None]. *)
Lemma clothing_missing_shoulder image face pose rs hips :
  landmark_at pose "shoulders" "left" = Ok PyNone ->
  landmark_at pose "shoulders" "right" = Ok rs ->
  landmark_at pose "hips" "left" = Ok hips ->
  landmark_at pose "hips" "right" = Ok hips ->
  truthy pose = true ->
  compute_placement CLOTHING image (generated_landmarks face pose)
    = Ok (_get_default_placement image "torso").
Proof.
  intros H1 H2 H3 H4 Hp.
  apply landmark_at_inv in H1 as (f1 & g1 & F1 & G1 & S1).
  apply landmark_at_inv in H2 as (f2 & g2 & F2 & G2 & S2).
  apply landmark_at_inv in H3 as (f3 & g3 & F3 & G3 & S3).
  apply landmark_at_inv in H4 as (f4 & g4 & F4 & G4 & S4).
  same_reading.
  unfold compute_placement, landmark_placement, generated_landmarks.
  cbn [truthy py_in py_getitem lookup pykey_eqb bind].
  replace (String.eqb "pose" "face") with false by reflexivity.
  replace (String.eqb "pose" "pose") with true by reflexivity.
  cbn [bind]. rewrite Hp. cbn [bind].
  unfold _get_clothing_placement.
  rewrite F1. cbn [bind]. rewrite G1, G3. cbn [bind].
  rewrite S1, S2, S3, S4. cbn [bind truthy andb negb or_default].
  reflexivity.
Qed.

(** The watch rule falls back when the left wrist is not visible enough. *)
Lemma watch_not_visible image face pose x y z v :
  landmark_at pose "wrists" "left" = Ok (pose_point x y z v) ->
  v <= 0.5 ->
  truthy pose = true ->
  compute_placement WATCHES image (generated_landmarks face pose)
    = Ok (_get_default_placement image "wrist").
Proof.
  intros H1 Hv Hp.
  apply landmark_at_inv in H1 as (f1 & g1 & F1 & G1 & S1).
  unfold compute_placement, landmark_placement, generated_landmarks.
  cbn [truthy py_in py_getitem lookup pykey_eqb bind].
  replace (String.eqb "pose" "face") with false by reflexivity.
  replace (String.eqb "pose" "pose") with true by reflexivity.
  cbn [bind]. rewrite Hp. cbn [bind].
  unfold _get_watch_placement.
  rewrite F1. cbn [bind]. rewrite G1. cbn [bind]. rewrite S1.
  unfold pose_point. cbn [bind truthy py_getitem lookup pykey_eqb].
  replace (String.eqb "visibility" "x") with false by reflexivity.
  replace (String.eqb "visibility" "y") with false by reflexivity.
  replace (String.eqb "visibility" "z") with false by reflexivity.
  replace (String.eqb "visibility" "visibility") with true by reflexivity.
  cbn [bind py_gt py_lt].
  destruct (Rlt_dec 0.5 v); [ lra | reflexivity ].
Qed.

(** The watch rule falls back when the left wrist is missing. *)
Lemma watch_missing_wrist image face pose v :
  landmark_at pose "wrists" "left" = Ok v ->
  truthy v = false ->
  truthy pose = true ->
  compute_placement WATCHES image (generated_landmarks face pose)
    = Ok (_get_default_placement image "wrist").
Proof.
  intros H1 Hv Hp.
  apply landmark_at_inv in H1 as (f1 & g1 & F1 & G1 & S1).
  unfold compute_placement, landmark_placement, generated_landmarks.
  cbn [truthy py_in py_getitem lookup pykey_eqb bind].
  replace (String.eqb "pose" "face") with false by reflexivity.
  replace (String.eqb "pose" "pose") with true by reflexivity.
  cbn [bind]. rewrite Hp. cbn [bind].
  unfold _get_watch_placement.
  rewrite F1. cbn [bind]. rewrite G1. cbn [bind]. rewrite S1.
  cbn [bind]. rewrite Hv. reflexivity.
Qed.

(** The jewelry rule falls back when the neck and a shoulder are missing. *)
Lemma jewelry_missing_neck image face pose features neck ls rs :
  py_get pose "features" (PyDict []) = Ok features ->
  py_get features "neck" PyNone = Ok neck ->
  landmark_at pose "shoulders" "left" = Ok ls ->
  landmark_at pose "shoulders" "right" = Ok rs ->
  truthy neck = false -> truthy ls && truthy rs = false ->
  truthy pose = true ->
  compute_placement JEWELRY image (generated_landmarks face pose)
    = Ok (_get_default_placement image "neck").
Proof.
  intros F N H1 H2 Hn Hs Hp.
  apply landmark_at_inv in H1 as (f1 & g1 & F1 & G1 & S1).
  apply landmark_at_inv in H2 as (f2 & g2 & F2 & G2 & S2).
  same_reading.
  unfold compute_placement, landmark_placement, generated_landmarks.
  cbn [truthy py_in py_getitem lookup pykey_eqb bind].
  replace (String.eqb "pose" "face") with false by reflexivity.
  replace (String.eqb "pose" "pose") with true by reflexivity.
  cbn [bind]. rewrite Hp. cbn [bind].
  unfold _get_jewelry_placement.
  rewrite F. cbn [bind]. rewrite N. cbn [bind]. rewrite G1. cbn [bind].
  rewrite Hn. cbn [negb]. rewrite S1, S2. cbn [bind]. rewrite Hs.
  reflexivity.
Qed.

(** The hat rule falls back when the face oval is empty. *)
Lemma hat_empty_oval image face pose features :
  py_get face "features" (PyDict []) = Ok features ->
  py_get features "face_oval" (PyDict []) = Ok (PyDict []) ->
  truthy face = true ->
  compute_placement HATS image (generated_landmarks face pose)
    = Ok (_get_default_placement image "head").
Proof.
  intros F O Hf.
  unfold compute_placement, landmark_placement, generated_landmarks.
  cbn [truthy py_in py_getitem lookup pykey_eqb bind].
  replace (String.eqb "face" "face") with true by reflexivity.
  cbn [bind]. rewrite Hf. cbn [bind].
  unfold _get_hat_placement.
  rewrite F. cbn [bind]. rewrite O. reflexivity.
Qed.

(** The glasses rule falls back when an eye has no ['center'] entry. *)
Lemma glasses_no_centre_key image face pose features left_eye right_eye :
  py_get face "features" (PyDict []) = Ok features ->
  py_get features "left_eye" (PyDict []) = Ok left_eye ->
  py_get features "right_eye" (PyDict []) = Ok right_eye ->
  truthy left_eye = false \/ truthy right_eye = false \/
  (truthy left_eye = true /\ truthy right_eye = true /\
   (py_in "center" left_eye = Ok false \/
    (py_in "center" left_eye = Ok true /\
     py_in "center" right_eye = Ok false))) ->
  truthy face = true ->
  compute_placement GLASSES image (generated_landmarks face pose)
    = Ok (_get_default_placement image "face").
Proof.
  intros F L R H Hf.
  unfold compute_placement, landmark_placement, generated_landmarks.
  cbn [truthy py_in py_getitem lookup pykey_eqb bind].
  replace (String.eqb "face" "face") with true by reflexivity.
  cbn [bind]. rewrite Hf. cbn [bind].
  unfold _get_glasses_placement.
  rewrite F. cbn [bind]. rewrite L. cbn [bind]. rewrite R. cbn [bind].
  destruct H as [H | [H | (H1 & H2 & [H | (H3 & H4)])]].
  - rewrite H. reflexivity.
  - rewrite H. destruct (truthy left_eye); reflexivity.
  - rewrite H1, H2, H. reflexivity.
  - rewrite H1, H2, H3. cbn [bind]. rewrite H4. reflexivity.
Qed.
(** The face dictionary built from a mesh without landmark 468 has a left
    eye whose ['center'] entry is present and [None]. *)
Lemma eye_centre_none landmarks :
  lookup (KInt 468) landmarks = None ->
  entry (_get_eye_landmarks landmarks "left") "center" = Some PyNone.
Proof.
  intros H. unfold _get_eye_landmarks, landmark_get. rewrite H. reflexivity.
Qed.

(** On such a face the glasses rule raises instead of returning [None]. *)
Lemma glasses_none_centre_raises image landmarks :
  lookup (KInt 468) landmarks = None ->
  _get_glasses_placement image (face_landmarks_of landmarks)
    = Raise TypeError.
Proof.
  intros H. unfold _get_glasses_placement, face_landmarks_of.
  unfold _get_eye_landmarks, landmark_get. rewrite H. reflexivity.
Qed.

(** C5, at the failing input.  For a detected face without the iris
    landmarks (both eye centres [None]) the placement computation of the
    glasses category raises [TypeError]; it does not return the default
    values of the face surface. *)
Theorem glasses_fallback_not_returned :
  let landmarks :=
    generated_landmarks (face_landmarks_of sample_mesh) PyNone in
  entry (_get_eye_landmarks sample_mesh "left") "center" = Some PyNone /\
  entry (_get_eye_landmarks sample_mesh "right") "center" = Some PyNone /\
  compute_placement GLASSES sample_avatar landmarks = Raise TypeError /\
  compute_placement GLASSES sample_avatar landmarks
    <> Ok (_get_default_placement sample_avatar "face").
Proof.
  cbv zeta. repeat split; try reflexivity. discriminate.
Qed.

End PlacementFacts.

(** ** The entry point and the accessory resolver *)

Section ResolverFacts.
Local Open Scope string_scope.

(** C10.  A call of [apply_accessory] whose avatar or accessory is [None]
    raises [ValueError] at once: the store, the cache and the decode log are
    as before, so no copy, no placeholder and no compositing took place. *)
Theorem apply_accessory_requires_inputs (cv : Cv2)
    (avatar_image : option loc) (accessory : option accessory_data)
    (category : string) (landmarks : pyval) (w : world) :
  avatar_image = None \/ accessory = None ->
  apply_accessory avatar_image accessory category landmarks w
    = (Raise ValueError, w).
Proof.
  intros [-> | ->]; [ reflexivity |].
  destruct avatar_image; reflexivity.
Qed.

Lemma apply_accessory_requires_inputs_witness :
  apply_accessory (cv := sample_cv2) (Some 0%nat) None "hats" PyNone
    sample_world
    = (Raise ValueError, sample_world).
Proof.
  apply (@apply_accessory_requires_inputs sample_cv2 (Some 0%nat) None
           "hats" PyNone sample_world).
  right. reflexivity.
Defined.

(** The resolver has no statement that writes [self.accessory_cache]. *)
Lemma ensure_alpha_cache (a : option array_ref) (w : world) :
  accessory_cache (snd (ensure_alpha a w)) = accessory_cache w.
Proof.
  destruct a as [[m | l]|]; try reflexivity.
  unfold ensure_alpha, mbind, load.
  destruct (shape2 (nth l (heap w) []) =? 3)%Z; reflexivity.
Qed.

Lemma resolver_leaves_cache (cv : Cv2) (accessory : accessory_data)
    (w : world) :
  accessory_cache (snd (_get_accessory_image accessory w))
    = accessory_cache w.
Proof.
  destruct accessory as [a | m | [path|] image |]; cbn [_get_accessory_image].
  - apply ensure_alpha_cache.
  - apply ensure_alpha_cache.
  - destruct (cache_lookup path (accessory_cache w)); [ reflexivity |].
    destruct (os_path_exists path).
    + unfold mbind at 1. unfold imread.
      destruct (cv2_imread path) as [[m | a]|]; cbv [mbind alloc ret].
      * rewrite ensure_alpha_cache. reflexivity.
      * rewrite ensure_alpha_cache. reflexivity.
      * reflexivity.
    + unfold mbind, _create_placeholder_accessory, alloc.
      rewrite ensure_alpha_cache. reflexivity.
  - destruct image as [image|].
    + apply ensure_alpha_cache.
    + unfold mbind, _create_placeholder_accessory, alloc.
      rewrite ensure_alpha_cache. reflexivity.
  - unfold mbind, _create_placeholder_accessory, alloc.
    rewrite ensure_alpha_cache. reflexivity.
Qed.

(** Each resolution of an uncached, decodable path decodes the file. *)
Lemma resolver_decodes_each_time (cv : Cv2) (path : string) (a : ndarray) (w : world) :
  cache_lookup path (accessory_cache w) = None ->
  os_path_exists path = true ->
  cv2_imread path = Some (Axes3 a) ->
  let after := snd (_get_accessory_image (AccDict (Some path) None) w) in
  imread_log after = (imread_log w ++ [path])%list /\
  cache_lookup path (accessory_cache after) = None.
Proof.
  intros Hc He Hd after. split.
  - unfold after. cbn [_get_accessory_image]. rewrite Hc, He.
    unfold mbind at 1. unfold imread. rewrite Hd.
    cbv [mbind alloc ret ensure_alpha load].
    cbn [heap accessory_cache imread_log].
    destruct (shape2 _ =? 3)%Z; reflexivity.
  - unfold after. rewrite resolver_leaves_cache. exact Hc.
Qed.
(** C3, at the failing input.  Resolving the path of a decodable file twice
    in a fresh fitter hands the path to [cv2.imread] twice, and the cache is
    empty after each call: the pixel data agree, but two decodes took
    place and two distinct arrays were built. *)
Theorem resolver_decodes_twice :
  let reference := AccDict (Some "accessories/hats/cap.png") None in
  let first := _get_accessory_image (cv := sample_cv2) reference sample_world in
  let second := _get_accessory_image (cv := sample_cv2) reference (snd first) in
  accessory_cache (snd first) = [] /\
  accessory_cache (snd second) = [] /\
  imread_log (snd second)
    = ["accessories/hats/cap.png"; "accessories/hats/cap.png"] /\
  fst first = Ok 4%nat /\ fst second = Ok 6%nat /\
  nth 4 (heap (snd second)) [] = nth 6 (heap (snd second)) [].
Proof. cbv zeta. repeat split. Qed.

(** A path that does not exist resolves to the placeholder. *)
Lemma resolver_missing_path (cv : Cv2) (path : string) (w : world) :
  cache_lookup path (accessory_cache w) = None ->
  os_path_exists path = false ->
  let placeholder :=
    cv2_rectangle
      (cv2_rectangle (np_zeros 100 100 4) (10, 10) (90, 90)
         [255; 0; 255; 128] (-1))%Z
      (10, 10)%Z (90, 90)%Z [255; 255; 255; 200]%Z 2%Z in
  shape2 placeholder <> 3%Z ->
  _get_accessory_image (AccDict (Some path) None) w
    = (Ok (List.length (heap w)),
       mk_world (heap w ++ [placeholder]) (accessory_cache w) (imread_log w)).
Proof.
  intros Hc He placeholder Hs. cbn [_get_accessory_image].
  rewrite Hc, He.
  unfold mbind, _create_placeholder_accessory, alloc, ensure_alpha, load.
  cbn [heap accessory_cache imread_log fst snd].
  change (Z.to_nat 100) with 100%nat.
  change (100 - 10)%Z with 90%Z. fold placeholder.
  unfold mbind. cbn [heap].
  rewrite app_nth2, Nat.sub_diag by lia. cbn [nth].
  destruct (shape2 placeholder =? 3)%Z eqn:E;
    [ apply Z.eqb_eq in E; contradiction | reflexivity ].
Qed.

(** A file that exists but cannot be decoded: [cv2.imread] returns [None]
    and reading its [shape] raises. *)
Lemma resolver_undecodable (cv : Cv2) (path : string) (w : world) :
  cache_lookup path (accessory_cache w) = None ->
  os_path_exists path = true ->
  cv2_imread path = None ->
  fst (_get_accessory_image (AccDict (Some path) None) w)
    = Raise AttributeError.
Proof.
  intros Hc He Hd. cbn [_get_accessory_image].
  rewrite Hc, He. unfold mbind, imread. rewrite Hd. reflexivity.
Qed.

(** C7, at the failing input.  The file [accessories/hats/notes.txt] exists
    and is not an image: resolving it raises [AttributeError] instead of
    returning the placeholder, and the exception leaves [apply_accessory]. *)
Theorem resolver_undecodable_raises :
  let reference := AccDict (Some "accessories/hats/notes.txt") None in
  os_path_exists (Cv2 := sample_cv2) "accessories/hats/notes.txt" = true /\
  cv2_imread (Cv2 := sample_cv2) "accessories/hats/notes.txt" = None /\
  fst (_get_accessory_image (cv := sample_cv2) reference sample_world)
    = Raise AttributeError /\
  fst (apply_accessory (cv := sample_cv2) (Some 0%nat) (Some reference)
         "hats" PyNone sample_world)
    = Raise AttributeError.
Proof. cbv zeta. repeat split. Qed.

(** C6, at the failing input.  For a detected face without the iris
    landmarks the glasses rule raises [TypeError] on the [None] eye centre;
    the default path is not selected, and the exception leaves
    [_apply_glasses] and [apply_accessory]. *)
Theorem glasses_missing_centre_raises :
  let face := face_landmarks_of sample_mesh in
  let landmarks := generated_landmarks face PyNone in
  landmark_get sample_mesh 468 = PyNone /\
  _get_glasses_placement sample_avatar face = Raise TypeError /\
  fst (_apply_glasses (cv := sample_cv2) 0%nat 2%nat landmarks sample_world)
    = Raise TypeError /\
  fst (apply_accessory (cv := sample_cv2) (Some 0%nat) (Some (AccArray 2%nat))
         "glasses" landmarks sample_world)
    = Raise TypeError.
Proof. cbv zeta. repeat split. Qed.

End ResolverFacts.

(** ** Lists, slices and blocks *)

Section SliceFacts.
Local Open Scope nat_scope.

Lemma length_map2 {A B C : Type} (f : A -> B -> C) (l : list A) (m : list B) :
  List.length (map2 f l m) = Nat.min (List.length l) (List.length m).
Proof.
  revert m. induction l as [| a l IH]; intros [| b m]; simpl; auto.
Qed.

Lemma nth_map2 {A B C : Type} (f : A -> B -> C) (l : list A) (m : list B)
    (i : nat) (dl : A) (dm : B) (d : C) :
  i < List.length l -> i < List.length m ->
  nth i (map2 f l m) d = f (nth i l dl) (nth i m dm).
Proof.
  revert m i. induction l as [| a l IH]; intros [| b m] [| i]; simpl;
    intros Hl Hm; try lia; auto.
  apply IH; lia.
Qed.

(** Replacing the elements from [a] up to [b] by as many new ones. *)
Lemma nth_splice {A : Type} (a b : nat) (new l : list A) (d : A) (i : nat) :
  a <= b -> b <= List.length l -> List.length new = b - a ->
  nth i (firstn a l ++ new ++ skipn b l) d =
    if (a <=? i) && (i <? b) then nth (i - a) new d else nth i l d.
Proof.
  intros Hab Hb Hn.
  assert (Hf : List.length (firstn a l) = a)
    by (apply firstn_length_le; lia).
  destruct (Nat.leb_spec a i) as [Hai | Hai]; cbn [andb].
  - rewrite app_nth2 by lia. rewrite Hf.
    destruct (Nat.ltb_spec i b) as [Hib | Hib].
    + rewrite app_nth1 by lia. reflexivity.
    + rewrite app_nth2 by lia. rewrite nth_skipn. f_equal. lia.
  - rewrite app_nth1 by lia. rewrite nth_firstn.
    destruct (Nat.ltb_spec i a); [ reflexivity | lia ].
Qed.

Lemma length_splice {A : Type} (a b : nat) (new l : list A) :
  a <= b -> b <= List.length l -> List.length new = b - a ->
  List.length (firstn a l ++ new ++ skipn b l) = List.length l.
Proof.
  intros Hab Hb Hn.
  rewrite !length_app, length_skipn, firstn_length_le by lia. lia.
Qed.

Lemma norm_index_in (len i : Z) :
  (0 <= i <= len)%Z -> norm_index len i = i.
Proof.
  intros H. unfold norm_index.
  destruct (Z.ltb_spec i 0); lia.
Qed.

Lemma py_slice_in {A : Type} (lo hi : nat) (l : list A) :
  lo <= hi -> hi <= List.length l ->
  py_slice (Z.of_nat lo) (Z.of_nat hi) l = firstn (hi - lo) (skipn lo l).
Proof.
  intros H1 H2. unfold py_slice.
  rewrite !norm_index_in by lia.
  f_equal; [ lia | f_equal; lia ].
Qed.

Lemma py_slice_set_in {A : Type} (lo hi : nat) (new l : list A) :
  lo <= hi -> hi <= List.length l ->
  py_slice_set (Z.of_nat lo) (Z.of_nat hi) new l
    = firstn lo l ++ new ++ skipn hi l.
Proof.
  intros H1 H2. unfold py_slice_set.
  rewrite !norm_index_in by lia.
  rewrite Z.max_r by lia. rewrite !Nat2Z.id. reflexivity.
Qed.

Lemma length_py_slice {A : Type} (lo hi : nat) (l : list A) :
  lo <= hi -> hi <= List.length l ->
  List.length (py_slice (Z.of_nat lo) (Z.of_nat hi) l) = hi - lo.
Proof.
  intros H1 H2. rewrite py_slice_in by assumption.
  rewrite firstn_length_le; [ reflexivity |].
  rewrite length_skipn. lia.
Qed.

Lemma nth_py_slice {A : Type} (lo hi : nat) (l : list A) (d : A) (i : nat) :
  lo <= hi -> hi <= List.length l -> i < hi - lo ->
  nth i (py_slice (Z.of_nat lo) (Z.of_nat hi) l) d = nth (lo + i) l d.
Proof.
  intros H1 H2 H3. rewrite py_slice_in by assumption.
  rewrite nth_firstn.
  destruct (Nat.ltb_spec i (hi - lo)); [| lia ].
  apply nth_skipn.
Qed.

Lemma is_image_rows (chans : nat) (a : ndarray) :
  is_image chans a = true -> rows_of (List.length (hd [] a)) a.
Proof.
  unfold is_image. intros H i Hi.
  rewrite forallb_forall in H.
  specialize (H (nth i a []) (nth_In a [] Hi)).
  unfold row_ok in H. apply andb_prop in H as [H _].
  now apply Nat.eqb_eq in H.
Qed.

Lemma is_image_pixel (chans : nat) (a : ndarray) (i j : nat) :
  is_image chans a = true ->
  i < List.length a -> j < List.length (hd [] a) ->
  pixel_ok chans (pixel_at a i j) = true.
Proof.
  intros H Hi Hj. pose proof (@is_image_rows _ _ H i Hi) as Hr.
  unfold is_image in H. rewrite forallb_forall in H.
  specialize (H (nth i a []) (nth_In a [] Hi)).
  unfold row_ok in H. apply andb_prop in H as [_ H].
  rewrite forallb_forall in H. apply H.
  unfold pixel_at. apply nth_In. lia.
Qed.

Lemma length_block (y rh x rw : nat) (a : ndarray) :
  y + rh <= List.length a ->
  List.length (block (Z.of_nat y) (Z.of_nat (y + rh))
                 (Z.of_nat x) (Z.of_nat (x + rw)) a) = rh.
Proof.
  intros H. unfold block. rewrite length_map, length_py_slice by lia. lia.
Qed.

Lemma nth_block (y rh x rw : nat) (a : ndarray) (w i : nat) :
  rows_of w a -> y + rh <= List.length a -> x + rw <= w -> i < rh ->
  nth i (block (Z.of_nat y) (Z.of_nat (y + rh))
           (Z.of_nat x) (Z.of_nat (x + rw)) a) []
    = py_slice (Z.of_nat x) (Z.of_nat (x + rw)) (nth (y + i) a []).
Proof.
  intros Hr Hy Hx Hi. unfold block.
  replace (@nil pixel) with (py_slice (Z.of_nat x) (Z.of_nat (x + rw)) (@nil pixel)) at 1.
  2:{ unfold py_slice. now rewrite skipn_nil, firstn_nil. }
  rewrite map_nth. f_equal. apply nth_py_slice; lia.
Qed.

Lemma pixel_at_block (y rh x rw : nat) (a : ndarray) (w i j : nat) :
  rows_of w a -> y + rh <= List.length a -> x + rw <= w ->
  i < rh -> j < rw ->
  pixel_at (block (Z.of_nat y) (Z.of_nat (y + rh))
              (Z.of_nat x) (Z.of_nat (x + rw)) a) i j
    = pixel_at a (y + i) (x + j).
Proof.
  intros Hr Hy Hx Hi Hj. unfold pixel_at.
  rewrite (@nth_block y rh x rw a w) by assumption.
  apply nth_py_slice; try lia.
  rewrite Hr by lia. lia.
Qed.

Lemma rows_of_block (y rh x rw : nat) (a : ndarray) (w : nat) :
  rows_of w a -> y + rh <= List.length a -> x + rw <= w ->
  rows_of rw (block (Z.of_nat y) (Z.of_nat (y + rh))
                (Z.of_nat x) (Z.of_nat (x + rw)) a).
Proof.
  intros Hr Hy Hx i Hi. rewrite length_block in Hi by assumption.
  rewrite (@nth_block y rh x rw a w) by assumption.
  rewrite length_py_slice; try lia. rewrite Hr by lia. lia.
Qed.


Lemma hd_nth {A : Type} (l : list A) (d : A) : hd d l = nth 0 l d.
Proof. destruct l; reflexivity. Qed.

Lemma length_set_block (y rh x rw : nat) (roi a : ndarray) :
  y + rh <= List.length a -> List.length roi = rh ->
  List.length (set_block (Z.of_nat y) (Z.of_nat (y + rh))
                 (Z.of_nat x) (Z.of_nat (x + rw)) roi a)
    = List.length a.
Proof.
  intros Hy Hr. unfold set_block.
  rewrite py_slice_set_in by lia.
  apply length_splice; try lia.
  rewrite length_map2, length_py_slice by lia. lia.
Qed.

Lemma nth_set_block (y rh x rw : nat) (roi a : ndarray) (w i : nat) :
  rows_of w a -> y + rh <= List.length a -> x + rw <= w ->
  List.length roi = rh ->
  nth i (set_block (Z.of_nat y) (Z.of_nat (y + rh))
           (Z.of_nat x) (Z.of_nat (x + rw)) roi a) []
    = if (y <=? i) && (i <? y + rh)
      then firstn x (nth i a []) ++ nth (i - y) roi []
             ++ skipn (x + rw) (nth i a [])
      else nth i a [].
Proof.
  intros Ha Hy Hx Hr. unfold set_block.
  rewrite py_slice_set_in by lia.
  rewrite nth_splice; try lia.
  2:{ rewrite length_map2, length_py_slice by lia. lia. }
  destruct ((y <=? i) && (i <? y + rh)) eqn:E; [| reflexivity ].
  apply andb_prop in E as [E1 E2].
  apply Nat.leb_le in E1. apply Nat.ltb_lt in E2.
  rewrite (@nth_map2 _ _ _ _ _ _ (i - y) [] [] []).
  2:{ rewrite length_py_slice by lia. lia. }
  2:{ lia. }
  rewrite nth_py_slice by lia.
  replace (y + (i - y)) with i by lia.
  apply py_slice_set_in; try lia.
  rewrite Ha by lia. lia.
Qed.

Lemma pixel_at_set_block (y rh x rw : nat) (roi a : ndarray) (w i j : nat) :
  rows_of w a -> y + rh <= List.length a -> x + rw <= w ->
  List.length roi = rh -> rows_of rw roi ->
  pixel_at (set_block (Z.of_nat y) (Z.of_nat (y + rh))
              (Z.of_nat x) (Z.of_nat (x + rw)) roi a) i j
    = if in_region (Z.of_nat y) (Z.of_nat x) (Z.of_nat rh) (Z.of_nat rw) i j
      then pixel_at roi (i - y) (j - x)
      else pixel_at a i j.
Proof.
  intros Ha Hy Hx Hr Hrw. unfold pixel_at, in_region.
  rewrite (@nth_set_block y rh x rw roi a w i) by assumption.
  destruct (Nat.leb_spec y i) as [Hn1 | Hn1];
    destruct (Z.leb_spec (Z.of_nat y) (Z.of_nat i)); try lia; cbn [andb];
    [| reflexivity ].
  destruct (Nat.ltb_spec i (y + rh)) as [Hn2 | Hn2];
    destruct (Z.ltb_spec (Z.of_nat i) (Z.of_nat y + Z.of_nat rh)); try lia;
    cbn [andb]; [| reflexivity ].
  rewrite nth_splice; try lia.
  - destruct (Nat.leb_spec x j) as [Hn3 | Hn3];
      destruct (Z.leb_spec (Z.of_nat x) (Z.of_nat j)); try lia; cbn [andb];
      [| reflexivity ].
    destruct (Nat.ltb_spec j (x + rw)) as [Hn4 | Hn4];
      destruct (Z.ltb_spec (Z.of_nat j) (Z.of_nat x + Z.of_nat rw)); try lia;
      reflexivity.
  - rewrite Ha by lia. lia.
  - rewrite Hrw by lia. lia.
Qed.

Lemma length_row_set_block (y rh x rw : nat) (roi a : ndarray) (w i : nat) :
  rows_of w a -> y + rh <= List.length a -> x + rw <= w ->
  List.length roi = rh -> rows_of rw roi ->
  List.length (nth i (set_block (Z.of_nat y) (Z.of_nat (y + rh))
                        (Z.of_nat x) (Z.of_nat (x + rw)) roi a) [])
    = List.length (nth i a []).
Proof.
  intros Ha Hy Hx Hr Hrw.
  rewrite (@nth_set_block y rh x rw roi a w i) by assumption.
  destruct ((y <=? i) && (i <? y + rh)) eqn:E; [| reflexivity ].
  apply andb_prop in E as [E1 E2].
  apply Nat.leb_le in E1. apply Nat.ltb_lt in E2.
  apply length_splice; try lia.
  - rewrite Ha by lia. lia.
  - rewrite Hrw by lia. lia.
Qed.

End SliceFacts.

(** ** The blend of one pixel *)

Section BlendFacts.
Local Open Scope R_scope.

Lemma Int_part_IZR (z : Z) : Int_part (IZR z) = z.
Proof. symmetry. apply Int_part_spec. lra. Qed.

Lemma py_int_IZR (z : Z) : py_int (IZR z) = z.
Proof.
  unfold py_int. destruct (Rle_dec 0 (IZR z)).
  - apply Int_part_IZR.
  - rewrite <- opp_IZR, Int_part_IZR. lia.
Qed.

Lemma py_floordiv_even (z : Z) : py_floordiv (IZR (2 * z)) 2 = IZR z.
Proof.
  unfold py_floordiv. f_equal.
  replace (IZR (2 * z) / 2) with (IZR z).
  - apply Int_part_IZR.
  - rewrite mult_IZR. lra.
Qed.

Lemma cast_uint8_byte (b : Z) : byte_ok b = true -> cast_uint8 (IZR b) = b.
Proof.
  unfold byte_ok, cast_uint8. intros H. apply andb_prop in H as [H1 H2].
  apply Z.leb_le in H1, H2. rewrite py_int_IZR. apply Z.mod_small. lia.
Qed.

Lemma pixel_ok_4 (p : pixel) :
  pixel_ok 4 p = true ->
  exists p0 p1 p2 p3,
    p = [p0; p1; p2; p3] /\
    byte_ok p0 = true /\ byte_ok p1 = true /\
    byte_ok p2 = true /\ byte_ok p3 = true.
Proof.
  unfold pixel_ok. intros H. apply andb_prop in H as [Hl Hb].
  apply Nat.eqb_eq in Hl.
  destruct p as [| p0 [| p1 [| p2 [| p3 [| p4 p]]]]]; try discriminate.
  cbn [forallb] in Hb.
  repeat (apply andb_prop in Hb as [? Hb]).
  exists p0, p1, p2, p3. auto.
Qed.

(** The fourth channel and the length of a pixel survive the blend. *)
Lemma blend_pixel_alpha (p q : pixel) :
  nth 3 (blend_pixel p q) 0%Z = nth 3 p 0%Z.
Proof.
  unfold blend_pixel. cbn [fold_left].
  destruct p as [| p0 [| p1 [| p2 [| p3 p]]]]; reflexivity.
Qed.

Lemma blend_pixel_length (p q : pixel) :
  List.length (blend_pixel p q) = List.length p.
Proof.
  unfold blend_pixel. cbn [fold_left].
  destruct p as [| p0 [| p1 [| p2 [| p3 p]]]]; reflexivity.
Qed.

(** A transparent accessory pixel leaves the base pixel as it is. *)
Lemma blend_pixel_transparent (p q : pixel) :
  pixel_ok 4 p = true -> nth 3 q 0%Z = 0%Z -> blend_pixel p q = p.
Proof.
  intros Hp Hq. destruct (pixel_ok_4 _ Hp) as (p0 & p1 & p2 & p3 & -> & B0 & B1 & B2 & _).
  unfold blend_pixel. rewrite Hq. cbn [fold_left set_nth nth].
  repeat match goal with
  | |- context [cast_uint8 ?e] =>
      match e with
      | context [IZR ?v] =>
          replace e with (IZR v) by lra; rewrite cast_uint8_byte by assumption
      end
  end.
  reflexivity.
Qed.

(** An opaque accessory pixel replaces the three colour channels. *)
Lemma blend_pixel_opaque (p q : pixel) (c : nat) :
  pixel_ok 4 p = true -> pixel_ok 4 q = true -> nth 3 q 0%Z = 255%Z ->
  (c < 3)%nat ->
  nth c (blend_pixel p q) 0%Z = nth c q 0%Z.
Proof.
  intros Hp Hq Ha Hc.
  destruct (pixel_ok_4 _ Hp) as (p0 & p1 & p2 & p3 & -> & _).
  destruct (pixel_ok_4 _ Hq) as (q0 & q1 & q2 & q3 & -> & B0 & B1 & B2 & _).
  unfold blend_pixel. rewrite Ha. cbn [fold_left set_nth nth].
  replace ((1 - 255 / 255) * IZR p0 + 255 / 255 * IZR q0) with (IZR q0) by lra.
  replace ((1 - 255 / 255) * IZR p1 + 255 / 255 * IZR q1) with (IZR q1) by lra.
  replace ((1 - 255 / 255) * IZR p2 + 255 / 255 * IZR q2) with (IZR q2) by lra.
  rewrite !cast_uint8_byte by assumption.
  destruct c as [| [| [| c]]]; try reflexivity; lia.
Qed.

End BlendFacts.

(** ** The compositor *)

Section CompositorFacts.
Context {cv : Cv2}.
Local Open Scope Z_scope.

(** Whatever the offsets asked for, the region of interest at the adjusted
    offsets lies inside the base. *)
Lemma clamp_offsets_inside (b racc : ndarray) (xo yo : Z) :
  let off := clamp_offsets b racc xo yo in
  0 <= fst off /\
  0 <= roi_width b racc (fst off) /\
  fst off + roi_width b racc (fst off) <= shape1 b /\
  0 <= snd off /\
  0 <= roi_height b racc (snd off) /\
  snd off + roi_height b racc (snd off) <= shape0 b.
Proof.
  unfold clamp_offsets, out_of_bounds, roi_width, roi_height,
    shape0, shape1.
  split_tests; cbn [orb fst snd]; lia.
Qed.

Lemma replace_nth_last {A : Type} (l : list A) (a v : A) :
  replace_nth (List.length l) v (l ++ [a]) = l ++ [v].
Proof. induction l as [| b l IH]; simpl; [ reflexivity | now rewrite IH ]. Qed.

(** A successful run of [_place_accessory]: the result is a new array, and
    nothing else in the store changes. *)
Lemma place_accessory_run (w : world) (lb la : loc)
    (x y width height rotation : R) (racc out : ndarray) :
  (lb < List.length (heap w))%nat -> (la < List.length (heap w))%nat ->
  prepare_accessory (nth la (heap w) []) width height rotation = Ok racc ->
  (let off :=
     clamp_offsets (nth lb (heap w) []) racc
       (requested_offset x width) (requested_offset y height) in
   blend_roi (nth lb (heap w) []) racc (fst off) (snd off) = Ok out) ->
  _place_accessory (Some lb) (Some la) x y width height rotation w
    = (Ok (Some (List.length (heap w))),
       mk_world (heap w ++ [out]) (accessory_cache w) (imread_log w)).
Proof.
  intros Hb Ha Hp Ho. cbv zeta in Ho.
  unfold _place_accessory, copy, try_except, mbind, load, alloc, lift,
    store, ret.
  cbn [heap accessory_cache imread_log].
  rewrite (app_nth1 (heap w) _ [] Ha). rewrite Hp.
  rewrite app_nth2 by lia. rewrite Nat.sub_diag. cbn [nth].
  rewrite Ho. rewrite replace_nth_last. reflexivity.
Qed.

(** An exception in the body makes the call return its base argument: the
    accessory could not be resized or rotated, or the blend raised. *)
Lemma place_accessory_falls_back (w : world) (lb la : loc)
    (x y width height rotation : R) :
  (la < List.length (heap w))%nat ->
  (exists e,
     prepare_accessory (nth la (heap w) []) width height rotation = Raise e)
  \/
  (exists racc e,
     prepare_accessory (nth la (heap w) []) width height rotation = Ok racc /\
     (let off :=
        clamp_offsets (nth lb (heap w) []) racc
          (requested_offset x width) (requested_offset y height) in
      blend_roi (nth lb (heap w) []) racc (fst off) (snd off) = Raise e)) ->
  _place_accessory (Some lb) (Some la) x y width height rotation w
    = (Ok (Some lb),
       mk_world (heap w ++ [nth lb (heap w) []]) (accessory_cache w)
         (imread_log w)).
Proof.
  intros Ha H.
  unfold _place_accessory, copy, try_except, mbind, load, alloc, lift,
    store, ret.
  cbn [heap accessory_cache imread_log].
  rewrite (app_nth1 (heap w) _ [] Ha).
  destruct H as [(e & ->) | (racc & e & -> & Hb)]; [ reflexivity |].
  rewrite app_nth2 by lia. rewrite Nat.sub_diag. cbn [nth].
  cbv zeta in Hb. rewrite Hb. reflexivity.
Qed.

Lemma grows_refl (w : world) : grows w w.
Proof.
  repeat split; try (exists []; rewrite app_nil_r; reflexivity).
Qed.

Lemma grows_trans (w1 w2 w3 : world) :
  grows w1 w2 -> grows w2 w3 -> grows w1 w3.
Proof.
  intros ((h1 & H1) & C1 & (l1 & L1)) ((h2 & H2) & C2 & (l2 & L2)).
  repeat split.
  - exists (h1 ++ h2)%list. rewrite H2, H1, app_assoc. reflexivity.
  - congruence.
  - exists (l1 ++ l2)%list. rewrite L2, L1, app_assoc. reflexivity.
Qed.

Lemma grows_heap (w : world) (more : list ndarray) :
  grows w (mk_world (heap w ++ more) (accessory_cache w) (imread_log w)).
Proof.
  repeat split; cbn [heap accessory_cache imread_log].
  - exists more. reflexivity.
  - exists []. rewrite app_nil_r. reflexivity.
Qed.

(** [_place_accessory] writes the copy it made and nothing else. *)
Lemma place_accessory_grows (base_image accessory_image : option loc)
    (x y width height rotation : R) (w : world) :
  grows w
    (snd (_place_accessory base_image accessory_image x y width height
            rotation w)).
Proof.
  destruct accessory_image as [acc|], base_image as [base|];
    try apply grows_refl.
  unfold _place_accessory, copy, try_except, mbind, load, alloc, lift,
    store, ret.
  cbn [heap accessory_cache imread_log].
  destruct (prepare_accessory _ _ _ _) as [racc | e];
    [| apply grows_heap ].
  destruct (blend_roi _ _ _ _) as [blended | e];
    [| apply grows_heap ].
  cbn [snd heap accessory_cache imread_log].
  rewrite replace_nth_last. apply grows_heap.
Qed.

(** The call never raises: it returns its base argument or the copy it
    made. *)
Lemma place_accessory_returns (base_image accessory_image : option loc)
    (x y width height rotation : R) (w : world) :
  exists r,
    fst (_place_accessory base_image accessory_image x y width height
           rotation w) = Ok r /\
    (r = base_image \/ r = Some (List.length (heap w))).
Proof.
  destruct accessory_image as [acc|], base_image as [base|];
    try (eexists; split; [ reflexivity | left; reflexivity ]).
  unfold _place_accessory, copy, try_except, mbind, load, alloc, lift,
    store, ret.
  cbn [heap accessory_cache imread_log].
  destruct (prepare_accessory _ _ _ _) as [racc | e];
    [| eexists; split; [ reflexivity | left; reflexivity ] ].
  destruct (blend_roi _ _ _ _) as [blended | e];
    eexists; (split; [ reflexivity |]); [ right | left ]; reflexivity.
Qed.

Lemma is_rgba_inv (a : ndarray) :
  is_rgba a = true ->
  is_image 4 a = true /\ shape2 a = 4 /\
  rows_of (List.length (hd [] a)) a /\
  (0 < List.length a)%nat /\ (0 < List.length (hd [] a))%nat.
Proof.
  unfold is_rgba. intros H. apply andb_prop in H as [Hi Hs].
  apply Z.eqb_eq in Hs. repeat split; try assumption.
  - now apply is_image_rows with (chans := 4%nat).
  - destruct a; [ discriminate | simpl; lia ].
  - destruct a as [| [| px row] a]; try discriminate; simpl; lia.
Qed.

(** The region of interest and the accessory block have the same shape, so
    the blend goes through; the new array is the base with the region
    replaced by its blend. *)
Lemma blend_roi_ok (b racc : ndarray) (yn xn rhn rwn : nat) :
  is_rgba b = true -> is_rgba racc = true ->
  roi_width b racc (Z.of_nat xn) = Z.of_nat rwn ->
  roi_height b racc (Z.of_nat yn) = Z.of_nat rhn ->
  (xn + rwn <= List.length (hd [] b))%nat ->
  (yn + rhn <= List.length b)%nat ->
  blend_roi b racc (Z.of_nat xn) (Z.of_nat yn)
    = Ok (set_block (Z.of_nat yn) (Z.of_nat (yn + rhn))
            (Z.of_nat xn) (Z.of_nat (xn + rwn))
            (map2 (map2 blend_pixel)
               (block (Z.of_nat yn) (Z.of_nat (yn + rhn))
                  (Z.of_nat xn) (Z.of_nat (xn + rwn)) b)
               (block (Z.of_nat 0) (Z.of_nat (0 + rhn))
                  (Z.of_nat 0) (Z.of_nat (0 + rwn)) racc))
            b).
Proof.
  intros Hb Hr Hw Hh Hx Hy.
  destruct (is_rgba_inv _ Hb) as (_ & Sb & Rb & _ & _).
  destruct (is_rgba_inv _ Hr) as (_ & Sr & Rr & _ & _).
  assert (Hrw : (rwn <= List.length (hd [] racc))%nat)
    by (unfold roi_width, shape1 in Hw; lia).
  assert (Hrh : (rhn <= List.length racc)%nat)
    by (unfold roi_height, shape0 in Hh; lia).
  unfold blend_roi. rewrite Hw, Hh, Sb, Sr.
  rewrite <- !Nat2Z.inj_add.
  change (4 <? 4) with false. change (4 <? 3) with false. cbv iota.
  change 0 with (Z.of_nat 0) at 1 2.
  set (roi := block (Z.of_nat yn) _ _ _ b).
  set (acc_roi := block (Z.of_nat 0) (Z.of_nat rhn) _ _ racc).
  assert (E : dims_eqb roi acc_roi = true).
  { unfold dims_eqb, dims. cbn [fst snd].
    assert (L1 : List.length roi = rhn)
      by (apply length_block; assumption).
    assert (L2 : List.length acc_roi = rhn)
      by (apply (@length_block 0 rhn 0 rwn racc); lia).
    rewrite L1, L2, Nat.eqb_refl. cbn [andb].
    rewrite !hd_nth. apply Nat.eqb_eq.
    destruct rhn as [| rhn'].
    - destruct roi; [| discriminate ]. destruct acc_roi; [| discriminate ].
      reflexivity.
    - assert (R1 : rows_of rwn roi)
        by (apply (@rows_of_block yn (S rhn') xn rwn b _ Rb); assumption).
      assert (R2 : rows_of rwn acc_roi)
        by (apply (@rows_of_block 0 (S rhn') 0 rwn racc _ Rr); lia).
      rewrite (R1 0%nat), (R2 0%nat) by lia. reflexivity. }
  rewrite E. reflexivity.
Qed.

(** The pixels of the new array. *)
Lemma blend_roi_pixels (b racc : ndarray) (yn xn rhn rwn : nat) (i j : nat) :
  is_rgba b = true -> is_rgba racc = true ->
  (rwn <= List.length (hd [] racc))%nat -> (rhn <= List.length racc)%nat ->
  (xn + rwn <= List.length (hd [] b))%nat ->
  (yn + rhn <= List.length b)%nat ->
  let out :=
    set_block (Z.of_nat yn) (Z.of_nat (yn + rhn))
      (Z.of_nat xn) (Z.of_nat (xn + rwn))
      (map2 (map2 blend_pixel)
         (block (Z.of_nat yn) (Z.of_nat (yn + rhn))
            (Z.of_nat xn) (Z.of_nat (xn + rwn)) b)
         (block (Z.of_nat 0) (Z.of_nat (0 + rhn))
            (Z.of_nat 0) (Z.of_nat (0 + rwn)) racc))
      b in
  List.length out = List.length b /\
  List.length (nth i out []) = List.length (nth i b []) /\
  pixel_at out i j =
    if in_region (Z.of_nat yn) (Z.of_nat xn) (Z.of_nat rhn) (Z.of_nat rwn) i j
    then blend_pixel (pixel_at b i j) (pixel_at racc (i - yn) (j - xn))
    else pixel_at b i j.
Proof.
  intros Hb Hr Hrw Hrh Hx Hy.
  destruct (is_rgba_inv _ Hb) as (_ & Sb & Rb & _ & _).
  destruct (is_rgba_inv _ Hr) as (_ & Sr & Rr & _ & _).
  set (roi := block (Z.of_nat yn) _ _ _ b).
  set (acc_roi := block (Z.of_nat 0) _ _ _ racc).
  assert (L1 : List.length roi = rhn) by (apply length_block; assumption).
  assert (L2 : List.length acc_roi = rhn)
    by (apply (@length_block 0 rhn 0 rwn racc); lia).
  assert (R1 : rows_of rwn roi)
    by (apply (@rows_of_block yn rhn xn rwn b _ Rb); assumption).
  assert (R2 : rows_of rwn acc_roi)
    by (apply (@rows_of_block 0 rhn 0 rwn racc _ Rr); lia).
  set (roi' := map2 (map2 blend_pixel) roi acc_roi).
  assert (L3 : List.length roi' = rhn)
    by (unfold roi'; rewrite length_map2; lia).
  assert (N3 : forall k, (k < rhn)%nat ->
             nth k roi' [] = map2 blend_pixel (nth k roi []) (nth k acc_roi [])).
  { intros k Hk. unfold roi'.
    apply (@nth_map2 _ _ _ (map2 blend_pixel) roi acc_roi k [] [] []); lia. }
  assert (R3 : rows_of rwn roi').
  { intros k Hk. rewrite L3 in Hk. rewrite N3 by assumption.
    rewrite length_map2, R1, R2 by lia. lia. }
  cbv zeta. split; [| split ].
  - apply length_set_block; assumption.
  - apply (@length_row_set_block yn rhn xn rwn roi' b _ i Rb); assumption.
  - rewrite (@pixel_at_set_block yn rhn xn rwn roi' b _ i j Rb)
      by assumption.
    destruct (in_region _ _ _ _ i j) eqn:E; [| reflexivity ].
    unfold in_region in E.
    repeat (apply andb_prop in E as [E ?]).
    repeat match goal with
    | H : (_ <=? _) = true |- _ => apply Z.leb_le in H
    | H : (_ <? _) = true |- _ => apply Z.ltb_lt in H
    end.
    unfold pixel_at at 1. rewrite N3 by lia.
    rewrite (@nth_map2 _ _ _ blend_pixel _ _ (j - xn)%nat [] [] [])
      by (rewrite ?R1, ?R2 by lia; lia).
    fold (pixel_at roi (i - yn) (j - xn)).
    fold (pixel_at acc_roi (i - yn) (j - xn)).
    unfold roi, acc_roi.
    rewrite (@pixel_at_block yn rhn xn rwn b _ (i - yn) (j - xn) Rb) by lia.
    rewrite (@pixel_at_block 0 rhn 0 rwn racc _ (i - yn) (j - xn) Rr) by lia.
    f_equal; f_equal; lia.
Qed.


(** What a successful call returns: a new array, equal to the base outside
    the region of interest and blended inside it. *)
Lemma place_accessory_composited (w : world) (lb la : loc)
    (x y width height rotation : R) (racc : ndarray) :
  (lb < List.length (heap w))%nat -> (la < List.length (heap w))%nat ->
  is_rgba (nth lb (heap w) []) = true ->
  prepare_accessory (nth la (heap w) []) width height rotation = Ok racc ->
  is_rgba racc = true ->
  let b := nth lb (heap w) [] in
  let off :=
    clamp_offsets b racc
      (requested_offset x width) (requested_offset y height) in
  let rw := roi_width b racc (fst off) in
  let rh := roi_height b racc (snd off) in
  exists out,
    _place_accessory (Some lb) (Some la) x y width height rotation w
      = (Ok (Some (List.length (heap w))),
         mk_world (heap w ++ [out]) (accessory_cache w) (imread_log w)) /\
    List.length out = List.length b /\
    (forall i, List.length (nth i out []) = List.length (nth i b [])) /\
    (forall i j,
       pixel_at out i j =
         if in_region (snd off) (fst off) rh rw i j
         then blend_pixel (pixel_at b i j)
                (pixel_at racc (i - Z.to_nat (snd off))
                               (j - Z.to_nat (fst off)))
         else pixel_at b i j).
Proof.
  intros Hlb Hla Hb Hp Hr b off rw rh.
  destruct (clamp_offsets_inside b racc
              (requested_offset x width) (requested_offset y height))
    as (X0 & X1 & X2 & Y0 & Y1 & Y2).
  fold off in X0, X1, X2, Y0, Y1, Y2. fold rw in X1, X2. fold rh in Y1, Y2.
  assert (Ex : fst off = Z.of_nat (Z.to_nat (fst off))) by lia.
  assert (Ey : snd off = Z.of_nat (Z.to_nat (snd off))) by lia.
  assert (Ew : rw = Z.of_nat (Z.to_nat rw)) by lia.
  assert (Eh : rh = Z.of_nat (Z.to_nat rh)) by lia.
  set (xn := Z.to_nat (fst off)) in *. set (yn := Z.to_nat (snd off)) in *.
  set (rwn := Z.to_nat rw) in *. set (rhn := Z.to_nat rh) in *.
  assert (Hw : roi_width b racc (Z.of_nat xn) = Z.of_nat rwn)
    by (rewrite <- Ex; exact Ew).
  assert (Hh : roi_height b racc (Z.of_nat yn) = Z.of_nat rhn)
    by (rewrite <- Ey; exact Eh).
  assert (Hx : (xn + rwn <= List.length (hd [] b))%nat)
    by (unfold shape1 in X2; lia).
  assert (Hy : (yn + rhn <= List.length b)%nat)
    by (unfold shape0 in Y2; lia).
  assert (Hrw : (rwn <= List.length (hd [] racc))%nat)
    by (unfold roi_width, shape1 in Hw; lia).
  assert (Hrh : (rhn <= List.length racc)%nat)
    by (unfold roi_height, shape0 in Hh; lia).
  eexists. split; [| split; [| split ] ].
  - apply place_accessory_run with (racc := racc); try assumption.
    cbv zeta. fold b. fold off. rewrite Ex, Ey.
    apply blend_roi_ok with (rhn := rhn) (rwn := rwn); assumption.
  - apply (proj1 (@blend_roi_pixels b racc yn xn rhn rwn 0%nat 0%nat
                    Hb Hr Hrw Hrh Hx Hy)).
  - intros i.
    apply (proj1 (proj2 (@blend_roi_pixels b racc yn xn rhn rwn i 0%nat
                           Hb Hr Hrw Hrh Hx Hy))).
  - intros i j. rewrite Ex, Ey, Ew, Eh at 1.
    apply (proj2 (proj2 (@blend_roi_pixels b racc yn xn rhn rwn i j
                           Hb Hr Hrw Hrh Hx Hy))).
Qed.

Lemma alpha_everywhere_at (v : Z) (a : ndarray) (i j : nat) :
  alpha_everywhere v a = true ->
  (i < List.length a)%nat -> (j < List.length (nth i a []))%nat ->
  nth 3 (pixel_at a i j) 0 = v.
Proof.
  unfold alpha_everywhere, pixel_at. intros H Hi Hj.
  rewrite forallb_forall in H.
  specialize (H (nth i a []) (nth_In a [] Hi)).
  rewrite forallb_forall in H.
  specialize (H (nth j (nth i a []) []) (nth_In _ [] Hj)).
  now apply Z.eqb_eq in H.
Qed.

End CompositorFacts.

(** ** Bounds, alpha and frame properties of [_place_accessory] *)

Section CompositorClaims.
Local Open Scope Z_scope.

Lemma in_region_inside (b racc : ndarray) (xo yo : Z) (i j : nat) :
  let off := clamp_offsets b racc xo yo in
  in_region (snd off) (fst off)
    (roi_height b racc (snd off)) (roi_width b racc (fst off)) i j = true ->
  (i < List.length b)%nat /\ (j < List.length (hd [] b))%nat /\
  (i - Z.to_nat (snd off) < List.length racc)%nat /\
  (j - Z.to_nat (fst off) < List.length (hd [] racc))%nat.
Proof.
  intros off E.
  destruct (clamp_offsets_inside b racc xo yo)
    as (X0 & X1 & X2 & Y0 & Y1 & Y2).
  fold off in X0, X1, X2, Y0, Y1, Y2.
  unfold in_region in E.
  repeat (apply andb_prop in E as [E ?]).
  repeat match goal with
  | H : (_ <=? _) = true |- _ => apply Z.leb_le in H
  | H : (_ <? _) = true |- _ => apply Z.ltb_lt in H
  end.
  unfold roi_width, roi_height, shape0, shape1 in *. lia.
Qed.


(** C2.  If the accessory that enters the blend (the accessory as resized,
    and rotated, by OpenCV) has alpha 0 at every pixel, the array returned
    equals the base byte for byte; if it has alpha 255 at every pixel, the
    three colour channels of every pixel of the overlapping region are those
    of the accessory pixel above it. *)
Theorem place_accessory_alpha (cv : Cv2) (w : world) (lb la : loc)
    (x y width height rotation : R) (racc : ndarray) :
  (lb < List.length (heap w))%nat -> (la < List.length (heap w))%nat ->
  is_rgba (nth lb (heap w) []) = true ->
  prepare_accessory (nth la (heap w) []) width height rotation = Ok racc ->
  is_rgba racc = true ->
  let b := nth lb (heap w) [] in
  let off :=
    clamp_offsets b racc
      (requested_offset x width) (requested_offset y height) in
  let rw := roi_width b racc (fst off) in
  let rh := roi_height b racc (snd off) in
  (alpha_everywhere 0 racc = true ->
   _place_accessory (Some lb) (Some la) x y width height rotation w
     = (Ok (Some (List.length (heap w))),
        mk_world (heap w ++ [b]) (accessory_cache w) (imread_log w)))
  /\
  (alpha_everywhere 255 racc = true ->
   exists out,
     _place_accessory (Some lb) (Some la) x y width height rotation w
       = (Ok (Some (List.length (heap w))),
          mk_world (heap w ++ [out]) (accessory_cache w) (imread_log w)) /\
     forall i j c,
       in_region (snd off) (fst off) rh rw i j = true -> (c < 3)%nat ->
       nth c (pixel_at out i j) 0
         = nth c (pixel_at racc (i - Z.to_nat (snd off))
                                (j - Z.to_nat (fst off))) 0).
Proof.
  intros Hlb Hla Hb Hp Hr b off rw rh.
  destruct (@place_accessory_composited cv w lb la x y width height rotation
              racc Hlb Hla Hb Hp Hr)
    as (out & Hrun & Hlen & Hrows & Hpx).
  fold b off rw rh in Hrun, Hlen, Hrows, Hpx.
  destruct (is_rgba_inv _ Hb) as (Ib & _ & Rb & _ & _). fold b in Ib, Rb.
  destruct (is_rgba_inv _ Hr) as (Ir & _ & Rr & _ & _).
  split.
  - intros Ha. rewrite Hrun.
    assert (E : out = b); [| rewrite E; reflexivity ].
    apply nth_ext with (d := []) (d' := []); [ exact Hlen |].
    intros i Hi.
    apply nth_ext with (d := []) (d' := []); [ apply Hrows |].
    intros j Hj. fold (pixel_at out i j). fold (pixel_at b i j).
    rewrite Hpx.
    destruct (in_region (snd off) (fst off) rh rw i j) eqn:E;
      [| reflexivity ].
    destruct (@in_region_inside b racc _ _ i j E) as (Bi & Bj & Ai & Aj).
    apply blend_pixel_transparent.
    + apply is_image_pixel; assumption.
    + apply alpha_everywhere_at; try assumption.
      rewrite Rr by assumption. assumption.
  - intros Ha. exists out. split; [ assumption |].
    intros i j c E Hc. rewrite Hpx, E.
    destruct (@in_region_inside b racc _ _ i j E) as (Bi & Bj & Ai & Aj).
    apply blend_pixel_opaque; try assumption.
    + apply is_image_pixel; assumption.
    + apply is_image_pixel; assumption.
    + apply alpha_everywhere_at; try assumption.
      rewrite Rr by assumption. assumption.
Qed.

(** C9, as amended.  No call writes to an array that the store held: the
    caller's base image and accessory bitmap, like every other array, keep
    their content and their reference, and at most a copy is added.  No
    call raises; each returns either its base argument or the copy it made.
    With both images present, the base a well-formed RGBA array and the
    accessory returned by OpenCV (resized, and rotated) as a well-formed RGBA
    array, the call returns the copy: a reference that the store did not
    hold, to an array that has the shape of the base and the alpha channel
    of the base at every pixel, so that only the colour channels are
    blended.  When the base or the accessory is [None] the call returns the
    base argument itself and allocates nothing; when OpenCV fails to resize
    or rotate the accessory, or returns it with fewer than four channels,
    the call also returns the base argument itself, not a new image. *)
Theorem place_accessory_frame (cv : Cv2) (w : world)
    (x y width height rotation : R) :
  (forall base_image accessory_image,
     grows w
       (snd (_place_accessory base_image accessory_image x y width height
               rotation w)) /\
     exists r,
       fst (_place_accessory base_image accessory_image x y width height
              rotation w) = Ok r /\
       (r = base_image \/ r = Some (List.length (heap w))))
  /\
  (forall lb la racc,
     (lb < List.length (heap w))%nat -> (la < List.length (heap w))%nat ->
     is_rgba (nth lb (heap w) []) = true ->
     prepare_accessory (nth la (heap w) []) width height rotation = Ok racc ->
     is_rgba racc = true ->
     exists r w',
       _place_accessory (Some lb) (Some la) x y width height rotation w
         = (Ok (Some r), w') /\
       r = List.length (heap w) /\ r <> lb /\ r <> la /\
       (forall l, (l < List.length (heap w))%nat ->
                  nth l (heap w') [] = nth l (heap w) []) /\
       List.length (nth r (heap w') []) = List.length (nth lb (heap w) []) /\
       (forall i j,
          List.length (pixel_at (nth r (heap w') []) i j)
            = List.length (pixel_at (nth lb (heap w) []) i j) /\
          nth 3 (pixel_at (nth r (heap w') []) i j) 0
            = nth 3 (pixel_at (nth lb (heap w) []) i j) 0))
  /\
  (forall base_image accessory_image,
     base_image = None \/ accessory_image = None ->
     _place_accessory base_image accessory_image x y width height rotation w
       = (Ok base_image, w))
  /\
  (forall lb la,
     (lb < List.length (heap w))%nat -> (la < List.length (heap w))%nat ->
     (exists e,
        prepare_accessory (nth la (heap w) []) width height rotation
          = Raise e)
     \/
     (exists racc,
        prepare_accessory (nth la (heap w) []) width height rotation
          = Ok racc /\
        0 < shape2 racc < 4) ->
     fst (_place_accessory (Some lb) (Some la) x y width height rotation w)
       = Ok (Some lb)).
Proof.
  split; [| split; [| split ] ].
  - intros base_image accessory_image. split.
    + apply place_accessory_grows.
    + apply place_accessory_returns.
  - intros lb la racc Hlb Hla Hb Hp Hr.
    destruct (@place_accessory_composited cv w lb la x y width height rotation
                racc Hlb Hla Hb Hp Hr)
      as (out & Hrun & Hlen & Hrows & Hpx).
    eexists. eexists. split; [ exact Hrun |].
    cbn [heap]. repeat split; try lia.
    + intros l Hl. apply app_nth1. assumption.
    + rewrite app_nth2, Nat.sub_diag by lia. exact Hlen.
    + rewrite app_nth2, Nat.sub_diag by lia. cbn [nth]. rewrite Hpx.
      destruct (in_region _ _ _ _ i j); [| reflexivity ].
      apply blend_pixel_length.
    + rewrite app_nth2, Nat.sub_diag by lia. cbn [nth]. rewrite Hpx.
      destruct (in_region _ _ _ _ i j); [| reflexivity ].
      apply blend_pixel_alpha.
  - intros base_image accessory_image [-> | ->].
    + destruct accessory_image; reflexivity.
    + reflexivity.
  - intros lb la Hlb Hla H.
    assert (D : (exists e,
                   prepare_accessory (nth la (heap w) []) width height
                     rotation = Raise e)
                \/
                (exists racc e,
                   prepare_accessory (nth la (heap w) []) width height
                     rotation = Ok racc /\
                   (let off :=
                      clamp_offsets (nth lb (heap w) []) racc
                        (requested_offset x width)
                        (requested_offset y height) in
                    blend_roi (nth lb (heap w) []) racc (fst off) (snd off)
                      = Raise e))).
    { destruct H as [He | (racc & Hp & _ & Hs)]; [ left; exact He |].
      right. exists racc, IndexError. split; [ exact Hp |].
      cbv zeta. unfold blend_roi.
      apply Z.ltb_lt in Hs. rewrite Hs. reflexivity. }
    exact (f_equal fst
             (@place_accessory_falls_back cv w lb la x y width height
                rotation Hla D)).
Qed.

(** C9 as stated fails: with no accessory the call hands back the caller's
    own base (reference 0 of the store), not a new image. *)
Lemma place_accessory_returns_base_counterexample :
  exists r,
    _place_accessory (cv := sample_cv2) (Some 0%nat) None 2 2 2 2 0
      sample_world
      = (Ok (Some r), sample_world) /\
    r = 0%nat /\ (r < List.length (heap sample_world))%nat.
Proof. exists 0%nat. repeat split. simpl. lia. Qed.

(** The sample accessories at their native size, not rotated. *)
Lemma sample_prepare (a : ndarray) :
  a = sample_clear \/ a = sample_solid ->
  prepare_accessory (cv := sample_cv2) a 2 2 0 = Ok a.
Proof.
  intros H. unfold prepare_accessory.
  rewrite (py_int_IZR 2).
  destruct (Req_dec_T 0 0) as [_ | N]; [| exfalso; apply N; reflexivity ].
  destruct H as [-> | ->]; reflexivity.
Defined.

Lemma requested_offset_example (c s : Z) :
  requested_offset (IZR c) (IZR (2 * s)) = c - s.
Proof.
  unfold requested_offset. rewrite py_floordiv_even.
  rewrite <- minus_IZR. apply py_int_IZR.
Defined.


Lemma requested_offset_2_2 : requested_offset 2 2 = 1.
Proof. exact (requested_offset_example 2 1). Defined.


Lemma place_accessory_alpha_witness :
  _place_accessory (cv := sample_cv2) (Some 0%nat) (Some 1%nat) 2 2 2 2 0
    sample_world
    = (Ok (Some 3%nat),
       mk_world (heap sample_world ++ [sample_avatar]) [] [])
  /\
  exists out,
    _place_accessory (cv := sample_cv2) (Some 0%nat) (Some 2%nat) 2 2 2 2 0
      sample_world
      = (Ok (Some 3%nat), mk_world (heap sample_world ++ [out]) [] []) /\
    forall i j c,
      in_region 1 1 2 2 i j = true -> (c < 3)%nat ->
      nth c (pixel_at out i j) 0
        = nth c (pixel_at sample_solid (i - 1) (j - 1)) 0.
Proof.
  split.
  - apply (proj1 (@place_accessory_alpha sample_cv2 sample_world 0%nat 1%nat
                    2 2 2 2 0 sample_clear
                    ltac:(simpl; lia) ltac:(simpl; lia) eq_refl
                    (sample_prepare (or_introl eq_refl)) eq_refl)).
    reflexivity.
  - destruct (proj2 (@place_accessory_alpha sample_cv2 sample_world 0%nat
                       2%nat 2 2 2 2 0 sample_solid
                       ltac:(simpl; lia) ltac:(simpl; lia) eq_refl
                       (sample_prepare (or_intror eq_refl)) eq_refl)
                eq_refl)
      as (out & Hrun & Hpx).
    exists out. split; [ exact Hrun |].
    intros i j c E Hc.
    rewrite requested_offset_2_2 in Hpx.
    apply (Hpx i j c E Hc).
Defined.

Lemma place_accessory_frame_witness :
  (exists r w',
     _place_accessory (cv := sample_cv2) (Some 0%nat) (Some 2%nat) 2 2 2 2 0
       sample_world
       = (Ok (Some r), w') /\
     r = 3%nat /\
     (forall l, (l < 3)%nat ->
                nth l (heap w') [] = nth l (heap sample_world) []) /\
     (forall i j,
        nth 3 (pixel_at (nth r (heap w') []) i j) 0
          = nth 3 (pixel_at sample_avatar i j) 0))
  /\
  _place_accessory (cv := sample_cv2) (Some 0%nat) None 2 2 2 2 0
    sample_world
    = (Ok (Some 0%nat), sample_world)
  /\
  fst (_place_accessory (cv := sample_cv2) (Some 0%nat) (Some 2%nat)
         2 2 0 2 0 sample_world)
    = Ok (Some 0%nat).
Proof.
  split; [| split ].
  - destruct (proj1 (proj2 (@place_accessory_frame sample_cv2 sample_world
                              2 2 2 2 0))
                0%nat 2%nat sample_solid
                ltac:(simpl; lia) ltac:(simpl; lia) eq_refl
                (sample_prepare (or_intror eq_refl)) eq_refl)
      as (r & w' & Hrun & Hr & _ & _ & Hold & _ & Hpx).
    exists r, w'. repeat split; try assumption.
    intros i j. apply (proj2 (Hpx i j)).
  - apply (proj1 (proj2 (proj2 (@place_accessory_frame sample_cv2
                                   sample_world 2 2 2 2 0)))
             (Some 0%nat) None).
    right. reflexivity.
  - apply (proj2 (proj2 (proj2 (@place_accessory_frame sample_cv2
                                   sample_world 2 2 0 2 0)))
             0%nat 2%nat ltac:(simpl; lia) ltac:(simpl; lia)).
    left. exists CvError. unfold prepare_accessory.
    rewrite (py_int_IZR 0). reflexivity.
Defined.

End CompositorClaims.


(** * Further properties *)

(** ** The landmark rules *)

Section RuleFacts.
Local Open Scope string_scope.
Local Open Scope R_scope.

Lemma tilt_range lx ly rx ry : -90 < tilt lx ly rx ry < 90.
Proof.
  unfold tilt. destruct (Req_dec_T (rx - lx) 0); [ lra |].
  unfold np_degrees, np_arctan.
  destruct (atan_bound ((ry - ly) / (rx - lx))) as [Hl Hu].
  assert (Hp : 0 < PI) by apply PI_RGT_0.
  split.
  - apply Rmult_lt_reg_r with PI; [ assumption |].
    replace (atan ((ry - ly) / (rx - lx)) * (180 / PI) * PI)
      with (atan ((ry - ly) / (rx - lx)) * 180) by (field; lra).
    lra.
  - apply Rmult_lt_reg_r with PI; [ assumption |].
    replace (atan ((ry - ly) / (rx - lx)) * (180 / PI) * PI)
      with (atan ((ry - ly) / (rx - lx)) * 180) by (field; lra).
    lra.
Qed.

Lemma tilt_mirror lx ly rx ry : tilt lx ly rx ry = tilt rx ry lx ly.
Proof.
  unfold tilt.
  destruct (Req_dec_T (rx - lx) 0), (Req_dec_T (lx - rx) 0);
    try reflexivity; try lra.
  do 2 f_equal. field. split; lra.
Qed.

Lemma clothing_total image pose lx ly rx ry :
  has_shoulders pose lx ly rx ry -> hips_well_formed pose ->
  exists cy height,
    _get_clothing_placement image pose
      = Ok (Some (mk_placement ((lx + rx) / 2) cy (Rabs (rx - lx) * 2)
                    height (tilt lx ly rx ry))).
Proof.
  intros Hs Hw.
  destruct (hips_cases Hw) as [Hn | (hly & hry & Hh)].
  - eexists. eexists. apply (clothing_without_hips image Hs Hn).
  - eexists. eexists. apply (clothing_with_hips image Hs Hh).
Qed.

(** X1.  The rotation of a clothing placement is the arctangent of a
    slope in degrees, so it lies between -90 and 90 degrees, the bounds
    included, however the shoulders are placed: clothing is never turned
    upside down. *)
Theorem clothing_rotation_range image pose lx ly rx ry :
  has_shoulders pose lx ly rx ry -> hips_well_formed pose ->
  exists p,
    _get_clothing_placement image pose = Ok (Some p) /\
    -90 <= pl_rotation p <= 90.
Proof.
  intros Hs Hw.
  destruct (clothing_total image Hs Hw) as (cy & height & E).
  eexists. split; [ exact E |]. cbn [pl_rotation].
  pose proof (tilt_range lx ly rx ry). lra.
Qed.

Lemma clothing_rotation_range_witness :
  exists p,
    _get_clothing_placement sample_avatar tilted_pose = Ok (Some p) /\
    -90 <= pl_rotation p <= 90.
Proof.
  exact (clothing_rotation_range sample_avatar tilted_pose_shoulders
           tilted_pose_hips_well_formed).
Defined.

(** X2.  Exchanging the left and the right shoulder (and the left and the
    right hip) does not change the clothing placement. *)
Theorem clothing_mirror image pose pose' lx ly rx ry :
  has_shoulders pose lx ly rx ry -> has_shoulders pose' rx ry lx ly ->
  (lacks_hips pose /\ lacks_hips pose') \/
  (exists hly hry, has_hips pose hly hry /\ has_hips pose' hry hly) ->
  _get_clothing_placement image pose = _get_clothing_placement image pose'.
Proof.
  intros Hs Hs' [[Hn Hn'] | (hly & hry & Hh & Hh')].
  - rewrite (clothing_without_hips image Hs Hn),
      (clothing_without_hips image Hs' Hn').
    rewrite (tilt_mirror lx ly rx ry), (Rabs_minus_sym rx lx).
    do 3 f_equal; lra.
  - rewrite (clothing_with_hips image Hs Hh),
      (clothing_with_hips image Hs' Hh').
    rewrite (tilt_mirror lx ly rx ry), (Rabs_minus_sym rx lx).
    do 2 f_equal. f_equal; try lra.
    f_equal. lra.
Qed.

Lemma clothing_mirror_witness :
  _get_clothing_placement sample_avatar tilted_pose
    = _get_clothing_placement sample_avatar mirrored_pose.
Proof.
  apply (@clothing_mirror sample_avatar tilted_pose mirrored_pose
           100 180 300 220).
  - exact tilted_pose_shoulders.
  - exists (pose_point 300 220 0 1), (pose_point 100 180 0 1).
    repeat split.
  - left. split.
    + exists PyNone, PyNone. repeat split.
    + exists PyNone, PyNone. repeat split.
Defined.

(** X3.  With both shoulders, the clothing placement is as wide as twice
    the horizontal distance between the shoulders: never negative, and zero
    exactly when the shoulders share their abscissa.  With hips its centre is
    midway between the shoulder line and the hip line and its height is at
    least 30% of the image height, also when the hips lie above the
    shoulders; without hips the centre is 10% of the image height below the
    shoulder line. *)
Theorem clothing_geometry image pose lx ly rx ry :
  has_shoulders pose lx ly rx ry -> hips_well_formed pose ->
  exists p,
    _get_clothing_placement image pose = Ok (Some p) /\
    pl_width p = 2 * Rabs (rx - lx) /\ 0 <= pl_width p /\
    (pl_width p = 0 <-> lx = rx) /\
    (forall hly hry,
       has_hips pose hly hry ->
       pl_y p = ((ly + ry) / 2 + (hly + hry) / 2) / 2 /\
       IZR (shape0 image) * 0.3 <= pl_height p) /\
    (lacks_hips pose -> pl_y p = (ly + ry) / 2 + IZR (shape0 image) * 0.1).
Proof.
  intros Hs Hw.
  destruct (clothing_total image Hs Hw) as (cy & height & E).
  eexists. split; [ exact E |]. cbn [pl_width pl_y pl_height].
  pose proof (Rabs_pos (rx - lx)) as Hp.
  split; [ lra |]. split; [ lra |]. split; [| split ].
  - split.
    + intros H0. assert (Ha : Rabs (rx - lx) = 0) by lra.
      destruct (Req_dec (rx - lx) 0) as [E0 | N0]; [ lra |].
      apply Rabs_no_R0 in N0. contradiction.
    + intros ->. replace (rx - rx) with 0 by lra. rewrite Rabs_R0. lra.
  - intros hly hry Hh.
    pose proof (clothing_with_hips image Hs Hh) as E'.
    rewrite E in E'. injection E' as -> ->.
    split; [ reflexivity |]. rewrite py_max_Rmax. apply Rmax_r.
  - intros Hn.
    pose proof (clothing_without_hips image Hs Hn) as E'.
    rewrite E in E'. injection E' as -> _. reflexivity.
Qed.

Lemma clothing_geometry_witness :
  exists p,
    _get_clothing_placement sample_avatar torso_pose = Ok (Some p) /\
    pl_width p = 2 * Rabs (300 - 100) /\ 0 <= pl_width p /\
    (pl_width p = 0 <-> 100 = 300) /\
    (forall hly hry,
       has_hips torso_pose hly hry ->
       pl_y p = ((100 + 100) / 2 + (hly + hry) / 2) / 2 /\
       IZR (shape0 sample_avatar) * 0.3 <= pl_height p) /\
    (lacks_hips torso_pose ->
     pl_y p = (100 + 100) / 2 + IZR (shape0 sample_avatar) * 0.1).
Proof.
  apply (@clothing_geometry sample_avatar torso_pose 100 100 300 100).
  - exact torso_pose_shoulders.
  - exists (pose_point 120 300 0 1), (pose_point 280 300 0 1).
    repeat split; right; [ exists 120, 300 | exists 280, 300 ]; repeat split.
Defined.

(** ** Jewelry *)

Lemma features_dict (features : pyval) (k : string) (d v : pyval) :
  py_get features k d = Ok v ->
  forall k' d', exists v', py_get features k' d' = Ok v'.
Proof.
  destruct features; simpl; try discriminate. intros _ k' d'. eauto.
Qed.

(** X4.  The jewelry rule prefers the neck: with a neck point the placement
    is centred on it and measures 20% of the image width by 10% of its
    height, whatever the shoulders are; without a neck and with both
    shoulders it is centred on the shoulder midpoint raised by 5% of the
    image height, 0.6 shoulder distances wide and half as high; without a
    neck and with a shoulder missing there is no landmark placement. *)
Theorem jewelry_rule image pose neck :
  neck_at pose = Ok neck ->
  (forall nx ny,
     is_point neck nx ny ->
     _get_jewelry_placement image pose
       = Ok (Some (mk_placement nx ny (IZR (shape1 image) * 0.2)
                     (IZR (shape0 image) * 0.1) 0)))
  /\
  (forall lx ly rx ry,
     truthy neck = false -> has_shoulders pose lx ly rx ry ->
     _get_jewelry_placement image pose
       = Ok (Some (mk_placement ((lx + rx) / 2)
                     ((ly + ry) / 2 - IZR (shape0 image) * 0.05)
                     (Rabs (rx - lx) * 0.6) (Rabs (rx - lx) * 0.3) 0)))
  /\
  (forall ls rs,
     truthy neck = false ->
     landmark_at pose "shoulders" "left" = Ok ls ->
     landmark_at pose "shoulders" "right" = Ok rs ->
     truthy ls && truthy rs = false ->
     _get_jewelry_placement image pose = Ok None).
Proof.
  intros Hn.
  unfold neck_at, bind in Hn.
  destruct (py_get pose "features" (PyDict [])) as [features|] eqn:F;
    try discriminate.
  split; [| split ].
  - intros nx ny Pn.
    destruct (features_dict _ _ _ Hn "shoulders" (PyDict [])) as (sh & S).
    unfold _get_jewelry_placement. rewrite F. cbn [bind].
    rewrite Hn. cbn [bind]. rewrite S. cbn [bind].
    rewrite (is_point_truthy Pn). cbn [negb].
    rewrite (is_point_x Pn), (is_point_y Pn). reflexivity.
  - intros lx ly rx ry Tn (ls & rs & H1 & H2 & Pl & Pr).
    apply landmark_at_inv in H1 as (f1 & g1 & F1 & G1 & S1).
    apply landmark_at_inv in H2 as (f2 & g2 & F2 & G2 & S2).
    same_reading.
    unfold _get_jewelry_placement. rewrite F. cbn [bind].
    rewrite Hn. cbn [bind]. rewrite G1. cbn [bind].
    rewrite Tn. cbn [negb]. rewrite S1, S2. cbn [bind].
    rewrite (is_point_truthy Pl), (is_point_truthy Pr). cbn [andb].
    rewrite (is_point_x Pl), (is_point_x Pr), (is_point_y Pl), (is_point_y Pr).
    reflexivity.
  - intros ls rs Tn H1 H2 Hs.
    apply landmark_at_inv in H1 as (f1 & g1 & F1 & G1 & S1).
    apply landmark_at_inv in H2 as (f2 & g2 & F2 & G2 & S2).
    same_reading.
    unfold _get_jewelry_placement. rewrite F. cbn [bind].
    rewrite Hn. cbn [bind]. rewrite G1. cbn [bind].
    rewrite Tn. cbn [negb]. rewrite S1, S2. cbn [bind]. rewrite Hs.
    reflexivity.
Qed.

Lemma jewelry_rule_witness :
  _get_jewelry_placement sample_avatar level_pose
    = Ok (Some (mk_placement ((100 + 300) / 2)
                  ((200 + 200) / 2 - IZR (shape0 sample_avatar) * 0.05)
                  (Rabs (300 - 100) * 0.6) (Rabs (300 - 100) * 0.3) 0)).
Proof.
  refine (proj1 (proj2 (@jewelry_rule sample_avatar level_pose PyNone _))
            100 200 300 200 _ _).
  - reflexivity.
  - reflexivity.
  - exact level_pose_shoulders.
Defined.

(** ** Glasses *)

Lemma entry_truthy (d : pyval) (k : string) (v : pyval) :
  entry d k = Some v -> truthy d = true /\ py_in k d = Ok true.
Proof.
  destruct d as [| r | [| p items]]; simpl; try discriminate.
  intros ->. split; reflexivity.
Qed.

Lemma glasses_total image face lx ly rx ry :
  has_eyes face lx ly rx ry ->
  _get_glasses_placement image face
    = Ok (Some (mk_placement ((lx + rx) / 2) ((ly + ry) / 2)
                  (Rabs (rx - lx) * 2.2) (Rabs (rx - lx) * 2.2 * 0.4)
                  (tilt lx ly rx ry))).
Proof.
  intros (features & left_eye & right_eye & lc & rc
          & F & L & R & El & Er & Pl & Pr).
  destruct (entry_truthy _ _ El) as (Tl & Il).
  destruct (entry_truthy _ _ Er) as (Tr & Ir).
  unfold _get_glasses_placement, tilt. rewrite F. cbn [bind].
  rewrite L. cbn [bind]. rewrite R. cbn [bind].
  rewrite Tl, Tr, Il. cbn [bind]. rewrite Ir. cbn [bind negb].
  rewrite (entry_getitem _ _ El), (entry_getitem _ _ Er). cbn [bind].
  rewrite (is_point_truthy Pl), (is_point_truthy Pr). cbn [andb].
  rewrite (is_point_x Pl), (is_point_x Pr), (is_point_y Pl), (is_point_y Pr).
  cbn [bind py_add py_sub].
  destruct (Req_dec_T (rx - lx) 0); reflexivity.
Qed.

(** X5.  With both eye centres the glasses are centred midway between them,
    2.2 eye distances wide and 0.4 times as high as wide, and rotated by the
    slope of the eye line, between -90 and 90 degrees, the bounds
    included. *)
Theorem glasses_rule image face lx ly rx ry :
  has_eyes face lx ly rx ry ->
  exists p,
    _get_glasses_placement image face = Ok (Some p) /\
    pl_x p = (lx + rx) / 2 /\ pl_y p = (ly + ry) / 2 /\
    pl_width p = 2.2 * Rabs (rx - lx) /\
    pl_height p = 0.4 * pl_width p /\
    pl_rotation p = tilt lx ly rx ry /\
    -90 <= pl_rotation p <= 90.
Proof.
  intros H. eexists. split; [ apply (glasses_total image H) |].
  cbn [pl_x pl_y pl_width pl_height pl_rotation].
  pose proof (tilt_range lx ly rx ry).
  repeat split; lra.
Qed.

Lemma sample_face_eyes : has_eyes sample_face 40 50 60 52.
Proof.
  exists (PyDict [ (KStr "left_eye", eye_at 40 50);
                   (KStr "right_eye", eye_at 60 52);
                   (KStr "face_oval", oval_of sample_oval) ]),
    (eye_at 40 50), (eye_at 60 52), (face_point 40 50 0), (face_point 60 52 0).
  repeat split.
Qed.

Lemma glasses_rule_witness :
  exists p,
    _get_glasses_placement sample_avatar sample_face = Ok (Some p) /\
    pl_x p = (40 + 60) / 2 /\ pl_y p = (50 + 52) / 2 /\
    pl_width p = 2.2 * Rabs (60 - 40) /\
    pl_height p = 0.4 * pl_width p /\
    pl_rotation p = tilt 40 50 60 52 /\
    -90 <= pl_rotation p <= 90.
Proof.
  apply (@glasses_rule sample_avatar sample_face 40 50 60 52).
  exact sample_face_eyes.
Defined.

(** ** Hats *)

Lemma hat_scan_step_points tx ty tz lx ly lz rx ry rz x y z :
  hat_scan_step
    (face_point tx ty tz, face_point lx ly lz, face_point rx ry rz)
    (face_point x y z)
  = Ok (if Rlt_dec y ty then face_point x y z else face_point tx ty tz,
        if Rlt_dec x lx then face_point x y z else face_point lx ly lz,
        if Rlt_dec rx x then face_point x y z else face_point rx ry rz).
Proof.
  unfold hat_scan_step, face_point, py_gt. simpl.
  destruct (Rlt_dec y ty), (Rlt_dec x lx), (Rlt_dec rx x); reflexivity.
Qed.

Lemma hat_scan_points (rest : list (pykey * (R * R * R))) :
  forall tx ty tz lx ly lz rx ry rz,
  exists tx' ty' tz' lx' ly' lz' rx' ry' rz',
    hat_scan
      (map (fun kp =>
              (fst kp,
               face_point (fst (fst (snd kp))) (snd (fst (snd kp)))
                 (snd (snd kp))))
         rest)
      (face_point tx ty tz, face_point lx ly lz, face_point rx ry rz)
    = Ok (face_point tx' ty' tz', face_point lx' ly' lz',
          face_point rx' ry' rz') /\
    (ty' = ty \/ In ty' (ys_of rest)) /\ ty' <= ty /\
    (forall v, In v (ys_of rest) -> ty' <= v) /\
    (lx' = lx \/ In lx' (xs_of rest)) /\ lx' <= lx /\
    (forall v, In v (xs_of rest) -> lx' <= v) /\
    (rx' = rx \/ In rx' (xs_of rest)) /\ rx <= rx' /\
    (forall v, In v (xs_of rest) -> v <= rx').
Proof.
  induction rest as [| [k [[x y] z]] rest IH]; intros.
  - exists tx, ty, tz, lx, ly, lz, rx, ry, rz. simpl.
    repeat split; try (left; reflexivity); try lra; intros v [].
  - cbn [map hat_scan fst snd]. rewrite hat_scan_step_points. cbn [bind].
    destruct (Rlt_dec y ty) as [Hy | Hy], (Rlt_dec x lx) as [Hl | Hl],
             (Rlt_dec rx x) as [Hr | Hr];
      match goal with
      | |- context [hat_scan _ (face_point ?a ?b ?c, face_point ?d ?e ?f,
                                face_point ?g ?h ?i)] =>
          destruct (IH a b c d e f g h i)
            as (tx' & ty' & tz' & lx' & ly' & lz' & rx' & ry' & rz'
                & E & T1 & T2 & T3 & L1 & L2 & L3 & R1 & R2 & R3)
      end;
      exists tx', ty', tz', lx', ly', lz', rx', ry', rz';
      (split; [ exact E |]); cbn [ys_of xs_of map fst snd In] in *;
      repeat split;
      try lra;
      try (intros v [<- | Hv]; [ lra | auto ]);
      try (destruct T1; [ subst; auto | auto ]);
      try (destruct L1; [ subst; auto | auto ]);
      try (destruct R1; [ subst; auto | auto ]).
Qed.

(** X6.  The hat rule scans the face oval for its topmost, leftmost and
    rightmost point: for an oval of points the hat is centred above the
    middle of the face, 1.5 face widths wide and 0.6 times as high as wide,
    its centre 0.2 hat widths above the topmost point, and not rotated; for
    an empty oval there is no landmark placement. *)
Theorem hat_rule image face points :
  has_oval face points ->
  (points = [] -> _get_hat_placement image face = Ok None)
  /\
  (points <> [] ->
   exists top_y min_x max_x,
     least top_y (ys_of points) /\
     least min_x (xs_of points) /\
     greatest max_x (xs_of points) /\
     _get_hat_placement image face
       = Ok (Some (mk_placement ((min_x + max_x) / 2)
                     (top_y - (max_x - min_x) * 1.5 * 0.2)
                     ((max_x - min_x) * 1.5)
                     ((max_x - min_x) * 1.5 * 0.6) 0))).
Proof.
  intros (features & F & O). split.
  - intros ->. unfold _get_hat_placement. rewrite F. cbn [bind].
    rewrite O. reflexivity.
  - intros Hne.
    destruct points as [| [k [[x y] z]] rest]; [ contradiction |].
    destruct (hat_scan_points rest x y z x y z x y z)
      as (tx' & ty' & tz' & lx' & ly' & lz' & rx' & ry' & rz'
          & E & T1 & T2 & T3 & L1 & L2 & L3 & R1 & R2 & R3).
    exists ty', lx', rx'.
    split; [| split; [| split ] ].
    + split.
      * cbn [ys_of map fst snd In] in *.
        destruct T1; [ left; auto | right; auto ].
      * cbn [ys_of map fst snd In] in *. intros v [<- | Hv]; auto.
    + split.
      * cbn [xs_of map fst snd In] in *.
        destruct L1; [ left; auto | right; auto ].
      * cbn [xs_of map fst snd In] in *. intros v [<- | Hv]; auto.
    + split.
      * cbn [xs_of map fst snd In] in *.
        destruct R1; [ left; auto | right; auto ].
      * cbn [xs_of map fst snd In] in *. intros v [<- | Hv]; auto.
    + unfold _get_hat_placement. rewrite F. cbn [bind].
      rewrite O. unfold oval_of.
      cbn [py_items bind map hat_scan fst snd].
      replace (hat_scan_step (PyNone, PyNone, PyNone) (face_point x y z))
        with (Ok (face_point x y z, face_point x y z, face_point x y z))
        by reflexivity.
      cbn [bind]. rewrite E.
      unfold face_point. simpl.
      rewrite Rabs_pos_eq by lra. reflexivity.
Qed.

Lemma sample_face_oval : has_oval sample_face sample_oval.
Proof.
  exists (PyDict [ (KStr "left_eye", eye_at 40 50);
                   (KStr "right_eye", eye_at 60 52);
                   (KStr "face_oval", oval_of sample_oval) ]).
  split; reflexivity.
Qed.

Lemma hat_rule_witness :
  exists top_y min_x max_x,
    least top_y (ys_of sample_oval) /\
    least min_x (xs_of sample_oval) /\
    greatest max_x (xs_of sample_oval) /\
    _get_hat_placement sample_avatar sample_face
      = Ok (Some (mk_placement ((min_x + max_x) / 2)
                    (top_y - (max_x - min_x) * 1.5 * 0.2)
                    ((max_x - min_x) * 1.5)
                    ((max_x - min_x) * 1.5 * 0.6) 0)).
Proof.
  apply (proj2 (@hat_rule sample_avatar sample_face sample_oval
                  sample_face_oval)).
  discriminate.
Defined.

(** ** Watches *)

(** X7.  The watch rule asks for a left wrist whose visibility is strictly
    above 0.5: then the watch is a square of side 10% of the image width
    centred on the wrist; at visibility 0.5 or below there is no landmark
    placement. *)
Theorem watch_rule image pose x y z v :
  landmark_at pose "wrists" "left" = Ok (pose_point x y z v) ->
  (0.5 < v ->
   _get_watch_placement image pose
     = Ok (Some (mk_placement x y (IZR (shape1 image) * 0.1)
                   (IZR (shape1 image) * 0.1) 0)))
  /\
  (v <= 0.5 -> _get_watch_placement image pose = Ok None).
Proof.
  intros H1.
  apply landmark_at_inv in H1 as (f1 & g1 & F1 & G1 & S1).
  assert (E : _get_watch_placement image pose =
              if Rlt_dec 0.5 v
              then Ok (Some (mk_placement x y (IZR (shape1 image) * 0.1)
                               (IZR (shape1 image) * 0.1) 0))
              else Ok None).
  { unfold _get_watch_placement.
    rewrite F1. cbn [bind]. rewrite G1. cbn [bind]. rewrite S1.
    unfold pose_point. cbn [bind truthy py_getitem lookup pykey_eqb].
    replace (String.eqb "visibility" "x") with false by reflexivity.
    replace (String.eqb "visibility" "y") with false by reflexivity.
    replace (String.eqb "visibility" "z") with false by reflexivity.
    replace (String.eqb "visibility" "visibility") with true by reflexivity.
    cbn [bind py_gt py_lt].
    destruct (Rlt_dec 0.5 v); [| reflexivity ].
    replace (String.eqb "x" "x") with true by reflexivity.
    replace (String.eqb "y" "x") with false by reflexivity.
    replace (String.eqb "y" "y") with true by reflexivity.
    reflexivity. }
  rewrite E. split; intros Hv; destruct (Rlt_dec 0.5 v); try reflexivity; lra.
Qed.

Lemma watch_rule_witness :
  _get_watch_placement sample_avatar sample_pose
    = Ok (Some (mk_placement 90 400 (IZR (shape1 sample_avatar) * 0.1)
                  (IZR (shape1 sample_avatar) * 0.1) 0)).
Proof.
  refine (proj1 (@watch_rule sample_avatar sample_pose 90 400 0 0.9 _) _).
  - reflexivity.
  - lra.
Defined.

End RuleFacts.

(** ** More on the blend of one pixel *)

Section BlendBounds.
Local Open Scope R_scope.

(** Truncation keeps a real between two integers that bound it. *)
Lemma py_int_between (m n : Z) (r : R) :
  (0 <= m)%Z -> IZR m <= r <= IZR n -> (m <= py_int r <= n)%Z.
Proof.
  intros Hm [Hl Hu].
  assert (H0 : 0 <= r)
    by (apply Rle_trans with (IZR m); [ apply IZR_le | ]; assumption).
  unfold py_int. destruct (Rle_dec 0 r) as [_ | N]; [| contradiction ].
  destruct (base_Int_part r) as [B1 B2].
  split.
  - assert (IZR m - 1 < IZR (Int_part r)) by lra.
    rewrite <- minus_IZR in H. apply lt_IZR in H. lia.
  - apply le_IZR. lra.
Qed.

(** A blended channel lies between the two channels it mixes. *)
Lemma blend_channel_between (a p q : Z) :
  (0 <= a <= 255)%Z -> byte_ok p = true -> byte_ok q = true ->
  (Z.min p q <= cast_uint8 ((1 - IZR a / 255) * IZR p + IZR a / 255 * IZR q)
   <= Z.max p q)%Z.
Proof.
  intros [A0 A1] Hp Hq.
  unfold byte_ok in Hp, Hq.
  apply andb_prop in Hp as [P0 P1]. apply andb_prop in Hq as [Q0 Q1].
  apply Z.leb_le in P0, P1, Q0, Q1.
  set (t := IZR a / 255).
  assert (T : 0 <= t <= 1).
  { unfold t. apply IZR_le in A0, A1. split.
    - apply Rmult_le_reg_r with 255; [ lra |].
      replace (IZR a / 255 * 255) with (IZR a) by (field; lra). lra.
    - apply Rmult_le_reg_r with 255; [ lra |].
      replace (IZR a / 255 * 255) with (IZR a) by (field; lra). lra. }
  assert (B : IZR (Z.min p q) <= (1 - t) * IZR p + t * IZR q
              <= IZR (Z.max p q)).
  { destruct (Z.le_ge_cases p q) as [L | L].
    - rewrite Z.min_l, Z.max_r by assumption. apply IZR_le in L. nra.
    - rewrite Z.min_r, Z.max_l by assumption. apply IZR_le in L. nra. }
  assert (I : (Z.min p q <= py_int ((1 - t) * IZR p + t * IZR q)
               <= Z.max p q)%Z)
    by (apply py_int_between; [ lia | exact B ]).
  unfold cast_uint8. rewrite Z.mod_small by lia. exact I.
Qed.

Lemma blend_pixel_between (p q : pixel) (c : nat) :
  pixel_ok 4 p = true -> pixel_ok 4 q = true -> (c < 3)%nat ->
  (Z.min (nth c p 0) (nth c q 0) <= nth c (blend_pixel p q) 0
   <= Z.max (nth c p 0) (nth c q 0))%Z.
Proof.
  intros Hp Hq Hc.
  destruct (pixel_ok_4 _ Hp) as (p0 & p1 & p2 & p3 & -> & A0 & A1 & A2 & _).
  destruct (pixel_ok_4 _ Hq) as (q0 & q1 & q2 & q3 & -> & B0 & B1 & B2 & B3).
  assert (Ha : (0 <= q3 <= 255)%Z).
  { unfold byte_ok in B3. apply andb_prop in B3 as [X Y].
    apply Z.leb_le in X, Y. lia. }
  unfold blend_pixel. cbn [fold_left set_nth nth].
  destruct c as [| [| [| c]]]; cbn [nth]; try lia;
    apply blend_channel_between; assumption.
Qed.

Lemma cast_uint8_ok (r : R) : byte_ok (cast_uint8 r) = true.
Proof.
  unfold byte_ok, cast_uint8.
  pose proof (Z.mod_pos_bound (py_int r) 256 ltac:(lia)) as H.
  apply andb_true_intro. split; apply Z.leb_le; lia.
Qed.

(** The blend of a well-formed pixel is a well-formed pixel. *)
Lemma blend_pixel_ok (p q : pixel) :
  pixel_ok 4 p = true -> pixel_ok 4 (blend_pixel p q) = true.
Proof.
  intros Hp.
  destruct (pixel_ok_4 _ Hp) as (p0 & p1 & p2 & p3 & -> & _ & _ & _ & A3).
  unfold blend_pixel. cbn [fold_left set_nth nth].
  unfold pixel_ok. cbn [List.length Nat.eqb forallb andb].
  rewrite !cast_uint8_ok, A3. reflexivity.
Qed.

End BlendBounds.

(** ** More on [_place_accessory] *)

Section CompositorMore.
Local Open Scope Z_scope.



(** X9.  Inside the region of interest every pixel of the result keeps the
    alpha of the base; each of its three colour channels is at most the
    larger of the channel of the base and the channel of the accessory pixel
    above it, and at least the smaller of the two less 1, the unit that the
    truncation of the blend to a byte can take away; the pixel is the pixel
    of the base where the accessory pixel is transparent, and has the colours
    of the accessory pixel where that one is opaque. *)
Theorem place_accessory_blend_between (cv : Cv2) (w : world) (lb la : loc)
    (x y width height rotation : R) (racc : ndarray) :
  (lb < List.length (heap w))%nat -> (la < List.length (heap w))%nat ->
  is_rgba (nth lb (heap w) []) = true ->
  prepare_accessory (nth la (heap w) []) width height rotation = Ok racc ->
  is_rgba racc = true ->
  let b := nth lb (heap w) [] in
  let off :=
    clamp_offsets b racc
      (requested_offset x width) (requested_offset y height) in
  let rw := roi_width b racc (fst off) in
  let rh := roi_height b racc (snd off) in
  exists out,
    _place_accessory (Some lb) (Some la) x y width height rotation w
      = (Ok (Some (List.length (heap w))),
         mk_world (heap w ++ [out]) (accessory_cache w) (imread_log w)) /\
    forall i j,
      in_region (snd off) (fst off) rh rw i j = true ->
      let p := pixel_at b i j in
      let q := pixel_at racc (i - Z.to_nat (snd off))
                 (j - Z.to_nat (fst off)) in
      nth 3 (pixel_at out i j) 0 = nth 3 p 0 /\
      (forall c, (c < 3)%nat ->
         Z.min (nth c p 0) (nth c q 0) - 1 <= nth c (pixel_at out i j) 0
           <= Z.max (nth c p 0) (nth c q 0)) /\
      (nth 3 q 0 = 0 -> pixel_at out i j = p) /\
      (nth 3 q 0 = 255 ->
       forall c, (c < 3)%nat -> nth c (pixel_at out i j) 0 = nth c q 0).
Proof.
  intros Hlb Hla Hb Hp Hr b off rw rh.
  destruct (@place_accessory_composited cv w lb la x y width height rotation
              racc Hlb Hla Hb Hp Hr)
    as (out & Hrun & _ & _ & Hpx).
  fold b off rw rh in Hrun, Hpx.
  destruct (is_rgba_inv _ Hb) as (Ib & _ & _ & _ & _). fold b in Ib.
  destruct (is_rgba_inv _ Hr) as (Ir & _ & _ & _ & _).
  exists out. split; [ exact Hrun |].
  intros i j E p q. rewrite Hpx, E.
  destruct (@in_region_inside b racc _ _ i j E) as (Bi & Bj & Ai & Aj).
  assert (Op : pixel_ok 4 p = true) by (apply is_image_pixel; assumption).
  assert (Oq : pixel_ok 4 q = true) by (apply is_image_pixel; assumption).
  fold p q.
  split; [ apply blend_pixel_alpha |].
  split.
  { intros c Hc.
    pose proof (@blend_pixel_between p q c Op Oq Hc) as B. lia. }
  split.
  - intros Hq. apply blend_pixel_transparent; assumption.
  - intros Hq c Hc. apply blend_pixel_opaque; assumption.
Qed.

Lemma place_accessory_blend_between_witness :
  exists out,
    _place_accessory (cv := sample_cv2) (Some 0%nat) (Some 2%nat) 2 2 2 2 0
      sample_world
      = (Ok (Some 3%nat), mk_world (heap sample_world ++ [out]) [] []) /\
    forall i j,
      in_region 1 1 2 2 i j = true ->
      nth 3 (pixel_at out i j) 0 = nth 3 (pixel_at sample_avatar i j) 0.
Proof.
  destruct (@place_accessory_blend_between sample_cv2 sample_world 0%nat
              2%nat 2 2 2 2 0 sample_solid
              ltac:(simpl; lia) ltac:(simpl; lia) eq_refl
              (sample_prepare (or_intror eq_refl)) eq_refl)
    as (out & Hrun & Hpx).
  exists out. split; [ exact Hrun |].
  intros i j E. rewrite requested_offset_2_2 in Hpx.
  apply (proj1 (Hpx i j E)).
Defined.

Lemma is_image_intro (chans : nat) (a : ndarray) :
  rows_of (List.length (hd [] a)) a ->
  (forall i j, (i < List.length a)%nat -> (j < List.length (hd [] a))%nat ->
               pixel_ok chans (pixel_at a i j) = true) ->
  is_image chans a = true.
Proof.
  intros Hrows Hpx. unfold is_image. apply forallb_forall. intros row Hin.
  destruct (In_nth a row [] Hin) as (i & Hi & <-).
  unfold row_ok. apply andb_true_intro. split.
  - apply Nat.eqb_eq. apply Hrows. exact Hi.
  - apply forallb_forall. intros px Hpin.
    destruct (In_nth _ px [] Hpin) as (j & Hj & <-).
    apply (Hpx i j Hi). rewrite <- (Hrows i Hi). exact Hj.
Qed.

(** The result of a successful call is a well-formed RGBA array. *)
Lemma place_accessory_rgba (cv : Cv2) (w : world) (lb la : loc)
    (x y width height rotation : R) (racc : ndarray) :
  (lb < List.length (heap w))%nat -> (la < List.length (heap w))%nat ->
  is_rgba (nth lb (heap w) []) = true ->
  prepare_accessory (nth la (heap w) []) width height rotation = Ok racc ->
  is_rgba racc = true ->
  exists out,
    _place_accessory (Some lb) (Some la) x y width height rotation w
      = (Ok (Some (List.length (heap w))),
         mk_world (heap w ++ [out]) (accessory_cache w) (imread_log w)) /\
    is_rgba out = true /\
    shape0 out = shape0 (nth lb (heap w) []) /\
    shape1 out = shape1 (nth lb (heap w) []).
Proof.
  intros Hlb Hla Hb Hp Hr.
  destruct (@place_accessory_composited cv w lb la x y width height rotation
              racc Hlb Hla Hb Hp Hr)
    as (out & Hrun & Hlen & Hrows & Hpx).
  set (b := nth lb (heap w) []) in *.
  destruct (is_rgba_inv _ Hb) as (Ib & Sb & Rb & Lb & Wb).
  assert (Hhd : List.length (hd [] out) = List.length (hd [] b))
    by (rewrite !hd_nth; apply Hrows).
  assert (Hok : forall i j, (i < List.length out)%nat ->
                  (j < List.length (hd [] out))%nat ->
                  pixel_ok 4 (pixel_at out i j) = true).
  { intros i j Hi Hj. rewrite Hlen in Hi. rewrite Hhd in Hj.
    rewrite Hpx.
    assert (Op : pixel_ok 4 (pixel_at b i j) = true)
      by (apply is_image_pixel; assumption).
    destruct (in_region _ _ _ _ i j); [ apply blend_pixel_ok |]; exact Op. }
  exists out. split; [ exact Hrun |]. split; [| split ].
  - unfold is_rgba. apply andb_true_intro. split.
    + apply is_image_intro; [| exact Hok ].
      intros i Hi. rewrite Hrows, Hhd. apply Rb. rewrite <- Hlen. exact Hi.
    + apply Z.eqb_eq. unfold shape2.
      assert (O0 : pixel_ok 4 (pixel_at out 0 0) = true)
        by (apply Hok; lia).
      unfold pixel_ok in O0. apply andb_prop in O0 as [O0 _].
      apply Nat.eqb_eq in O0. unfold pixel_at in O0.
      clear Hrun Hrows Hpx Hok.
      destruct out as [| [| px row] rest]; simpl in O0, Hlen, Hhd |- *;
        lia.
  - unfold shape0. rewrite Hlen. reflexivity.
  - unfold shape1. rewrite Hhd. reflexivity.
Qed.

(** X10.  The array returned by a successful call is again a well-formed
    RGBA image with the rows and columns of the base: every byte is in
    0..255 and every pixel has four channels.  It can therefore serve as the
    base of a further call: placing the accessory once more, anywhere on the
    result, succeeds and again returns a new well-formed RGBA image. *)
Theorem place_accessory_well_formed (cv : Cv2) (w : world) (lb la : loc)
    (x y width height rotation : R) (racc : ndarray) :
  (lb < List.length (heap w))%nat -> (la < List.length (heap w))%nat ->
  is_rgba (nth lb (heap w) []) = true ->
  prepare_accessory (nth la (heap w) []) width height rotation = Ok racc ->
  is_rgba racc = true ->
  exists out,
    _place_accessory (Some lb) (Some la) x y width height rotation w
      = (Ok (Some (List.length (heap w))),
         mk_world (heap w ++ [out]) (accessory_cache w) (imread_log w)) /\
    is_rgba out = true /\
    shape0 out = shape0 (nth lb (heap w) []) /\
    shape1 out = shape1 (nth lb (heap w) []) /\
    forall x' y',
    exists out',
      _place_accessory (Some (List.length (heap w))) (Some la)
        x' y' width height rotation
        (mk_world (heap w ++ [out]) (accessory_cache w) (imread_log w))
        = (Ok (Some (S (List.length (heap w)))),
           mk_world (heap w ++ [out; out']) (accessory_cache w)
             (imread_log w)) /\
      is_rgba out' = true.
Proof.
  intros Hlb Hla Hb Hp Hr.
  destruct (@place_accessory_rgba cv w lb la x y width height rotation racc
              Hlb Hla Hb Hp Hr)
    as (out & Hrun & Ho & S0 & S1).
  exists out. repeat split; try assumption.
  intros x' y'.
  set (w' := mk_world (heap w ++ [out]) (accessory_cache w) (imread_log w)).
  assert (L : List.length (heap w') = S (List.length (heap w))).
  { unfold w'. cbn [heap]. rewrite length_app. simpl. lia. }
  assert (N1 : nth (List.length (heap w)) (heap w') [] = out).
  { unfold w'. cbn [heap]. rewrite app_nth2, Nat.sub_diag by lia.
    reflexivity. }
  assert (N2 : nth la (heap w') [] = nth la (heap w) []).
  { unfold w'. cbn [heap]. apply app_nth1. exact Hla. }
  destruct (@place_accessory_rgba cv w' (List.length (heap w)) la
              x' y' width height rotation racc)
    as (out' & Hrun' & Ho' & _).
  - lia.
  - lia.
  - rewrite N1. exact Ho.
  - rewrite N2. exact Hp.
  - exact Hr.
  - exists out'. split; [| exact Ho' ].
    refine (eq_trans Hrun' _). rewrite L.
    unfold w'. cbn [heap accessory_cache imread_log].
    rewrite <- app_assoc. reflexivity.
Qed.

Lemma place_accessory_well_formed_witness :
  exists out,
    _place_accessory (cv := sample_cv2) (Some 0%nat) (Some 2%nat) 2 2 2 2 0
      sample_world
      = (Ok (Some 3%nat), mk_world (heap sample_world ++ [out]) [] []) /\
    is_rgba out = true /\
    shape0 out = shape0 sample_avatar /\
    shape1 out = shape1 sample_avatar.
Proof.
  destruct (@place_accessory_well_formed sample_cv2 sample_world 0%nat 2%nat
              2 2 2 2 0 sample_solid
              ltac:(simpl; lia) ltac:(simpl; lia) eq_refl
              (sample_prepare (or_intror eq_refl)) eq_refl)
    as (out & Hrun & Ho & S0 & S1 & _).
  exists out. repeat split; assumption.
Defined.

(** X11.  A call whose accessory cannot be resized or rotated, or comes out
    of OpenCV with fewer than four channels, returns its base argument: the
    caller's own array, by reference, and neither a new image nor [None] nor
    an exception.  The arrays the store held are as before, and the copy of
    the base made before the failure is all that was added. *)
Theorem place_accessory_failure (cv : Cv2) (w : world) (lb la : loc)
    (x y width height rotation : R) :
  (lb < List.length (heap w))%nat -> (la < List.length (heap w))%nat ->
  (exists e,
     prepare_accessory (nth la (heap w) []) width height rotation = Raise e)
  \/
  (exists racc,
     prepare_accessory (nth la (heap w) []) width height rotation = Ok racc /\
     0 < shape2 racc < 4) ->
  _place_accessory (Some lb) (Some la) x y width height rotation w
    = (Ok (Some lb),
       mk_world (heap w ++ [nth lb (heap w) []]) (accessory_cache w)
         (imread_log w)).
Proof.
  intros Hlb Hla H.
  apply place_accessory_falls_back; [ exact Hla |].
  destruct H as [He | (racc & Hp & _ & Hs)]; [ left; exact He |].
  right. exists racc, IndexError. split; [ exact Hp |].
  cbv zeta. unfold blend_roi.
  apply Z.ltb_lt in Hs. rewrite Hs. reflexivity.
Qed.

Lemma place_accessory_failure_witness :
  _place_accessory (cv := sample_cv2) (Some 0%nat) (Some 2%nat) 2 2 0 2 0
    sample_world
    = (Ok (Some 0%nat),
       mk_world (heap sample_world ++ [sample_avatar]) [] []).
Proof.
  apply (@place_accessory_failure sample_cv2 sample_world 0%nat 2%nat
           2 2 0 2 0).
  - simpl. lia.
  - simpl. lia.
  - left. exists CvError. unfold prepare_accessory.
    rewrite (py_int_IZR 0). reflexivity.
Defined.

End CompositorMore.

(** ** The entry point as a whole *)

Section EntryFacts.
Context {cv : Cv2}.
Local Open Scope string_scope.
Local Open Scope Z_scope.

Lemma apply_category_grows (category : AccessoryType)
    (avatar_image accessory_image : loc) (landmarks : pyval) (w : world) :
  grows w
    (snd (apply_category category avatar_image accessory_image landmarks w)).
Proof.
  unfold apply_category, copy.
  unfold mbind at 1. unfold mbind at 1. unfold load at 1. unfold alloc at 1.
  unfold mbind at 1. unfold load at 1. cbn [heap].
  unfold mbind at 1. unfold lift at 1.
  destruct (compute_placement _ _ _) as [p | e]; [| apply grows_heap ].
  eapply grows_trans; [| apply place_accessory_grows ].
  apply grows_heap.
Qed.

Lemma ensure_alpha_grows (accessory_image : option array_ref) (w : world) :
  grows w (snd (ensure_alpha accessory_image w)).
Proof.
  destruct accessory_image as [[m | l]|]; try apply grows_refl.
  unfold ensure_alpha, mbind, load.
  destruct (shape2 _ =? 3); [ apply grows_heap | apply grows_refl ].
Qed.

Lemma placeholder_grows (w : world) :
  grows w
    (snd (mbind (_create_placeholder_accessory (100, 100))
            (fun placeholder => ensure_alpha (Some (Ref3 placeholder))) w)).
Proof.
  unfold mbind, _create_placeholder_accessory, alloc.
  eapply grows_trans; [| apply ensure_alpha_grows ].
  apply grows_heap.
Qed.

Lemma resolver_grows (accessory : accessory_data) (w : world) :
  grows w (snd (_get_accessory_image accessory w)).
Proof.
  destruct accessory as [a | m | [path|] image |]; cbn [_get_accessory_image].
  - apply ensure_alpha_grows.
  - apply ensure_alpha_grows.
  - destruct (cache_lookup path (accessory_cache w)); [ apply grows_refl |].
    destruct (os_path_exists path); [| apply placeholder_grows ].
    unfold mbind at 1. unfold imread.
    assert (G : grows w (mk_world (heap w) (accessory_cache w)
                           (imread_log w ++ [path]))).
    { repeat split; cbn [heap accessory_cache imread_log].
      - exists []. rewrite app_nil_r. reflexivity.
      - exists [path]. reflexivity. }
    destruct (cv2_imread path) as [[m | a]|]; cbv [mbind alloc ret];
      cbn [heap accessory_cache imread_log].
    + exact G.
    + eapply grows_trans; [| apply ensure_alpha_grows ].
      eapply grows_trans; [ exact G |].
      apply (grows_heap (mk_world (heap w) (accessory_cache w)
                           (imread_log w ++ [path])) [a]).
    + exact G.
  - destruct image as [image|];
      [ apply ensure_alpha_grows | apply placeholder_grows ].
  - apply placeholder_grows.
Qed.

(** X12.  Whatever its arguments and whatever its outcome (an image or
    an exception), [apply_accessory] writes to no array that the store
    held: the avatar, the accessory and every other array are as
    before and keep their references, new arrays are only added; the cache
    is as before, and the decode log is only extended. *)
Theorem apply_accessory_grows (avatar_image : option loc)
    (accessory : option accessory_data) (category : string)
    (landmarks : pyval) (w : world) :
  grows w (snd (apply_accessory avatar_image accessory category landmarks w)).
Proof.
  unfold apply_accessory.
  destruct avatar_image as [avatar|]; [| apply grows_refl ].
  destruct accessory as [acc|]; [| apply grows_refl ].
  unfold mbind.
  pose proof (resolver_grows acc w) as G.
  destruct (_get_accessory_image acc w) as [[accessory_image | e] w'];
    cbn [snd] in G |- *; [| exact G ].
  eapply grows_trans; [ exact G |].
  destruct (AccessoryType_of category); apply apply_category_grows.
Qed.

(** The resolver hands back a four-channel array as it is. *)
Lemma resolver_rgba_array (l : loc) (w : world) :
  shape2 (nth l (heap w) []) <> 3 ->
  _get_accessory_image (AccArray l) w = (Ok l, w).
Proof.
  intros H. cbn [_get_accessory_image]. unfold ensure_alpha, mbind, load.
  destruct (shape2 _ =? 3) eqn:E; [| reflexivity ].
  apply Z.eqb_eq in E. contradiction.
Qed.

(** A successful run of the common body of the [_apply_*] methods. *)
Lemma apply_category_run (category : AccessoryType) (la lacc : loc)
    (landmarks : pyval) (w : world) (p : placement) (racc : ndarray) :
  (la < List.length (heap w))%nat -> (lacc < List.length (heap w))%nat ->
  is_rgba (nth la (heap w) []) = true ->
  compute_placement category (nth la (heap w) []) landmarks = Ok p ->
  prepare_accessory (nth lacc (heap w) [])
    (pl_width p) (pl_height p) (pl_rotation p) = Ok racc ->
  is_rgba racc = true ->
  exists out,
    apply_category category la lacc landmarks w
      = (Ok (Some (S (List.length (heap w)))),
         mk_world (heap w ++ [nth la (heap w) []; out])
           (accessory_cache w) (imread_log w)) /\
    is_rgba out = true /\
    shape0 out = shape0 (nth la (heap w) []) /\
    shape1 out = shape1 (nth la (heap w) []).
Proof.
  intros Hla Hlacc Hb Hc Hp Hr.
  set (b := nth la (heap w) []) in *.
  set (w1 := mk_world (heap w ++ [b]) (accessory_cache w) (imread_log w)).
  assert (E : apply_category category la lacc landmarks w
              = _place_accessory (Some (List.length (heap w))) (Some lacc)
                  (pl_x p) (pl_y p) (pl_width p) (pl_height p)
                  (pl_rotation p) w1).
  { unfold apply_category, copy, mbind, load, alloc, lift.
    cbn [heap accessory_cache imread_log].
    replace (nth la (heap w ++ [nth la (heap w) []]) []) with b
      by (symmetry; apply app_nth1; exact Hla).
    rewrite Hc. reflexivity. }
  assert (N1 : nth (List.length (heap w)) (heap w1) [] = b).
  { unfold w1. cbn [heap]. rewrite app_nth2, Nat.sub_diag by lia.
    reflexivity. }
  assert (N2 : nth lacc (heap w1) [] = nth lacc (heap w) []).
  { unfold w1. cbn [heap]. apply app_nth1. exact Hlacc. }
  assert (L1 : List.length (heap w1) = S (List.length (heap w))).
  { unfold w1. cbn [heap]. rewrite length_app. simpl. lia. }
  destruct (@place_accessory_rgba cv w1 (List.length (heap w)) lacc
              (pl_x p) (pl_y p) (pl_width p) (pl_height p) (pl_rotation p)
              racc)
    as (out & Hrun & Ho & S0 & S1).
  - lia.
  - lia.
  - rewrite N1. exact Hb.
  - rewrite N2. exact Hp.
  - exact Hr.
  - exists out. rewrite N1 in S0, S1.
    split; [| repeat split; assumption ].
    rewrite E. refine (eq_trans Hrun _). rewrite L1.
    unfold w1. cbn [heap accessory_cache imread_log].
    rewrite <- app_assoc. reflexivity.
Qed.

(** X13.  With an RGBA avatar and an RGBA array as accessory, a placement
    that the category computes and an accessory that OpenCV resizes to it,
    [apply_accessory] returns a new image: a well-formed RGBA array with the
    rows and columns of the avatar, held at a reference the store did not
    have; the store gains this array and one copy of the avatar, and nothing
    else changes. *)
Theorem apply_accessory_succeeds (la lacc : loc) (category : string)
    (landmarks : pyval) (w : world) (p : placement) (racc : ndarray) :
  (la < List.length (heap w))%nat -> (lacc < List.length (heap w))%nat ->
  is_rgba (nth la (heap w) []) = true ->
  is_rgba (nth lacc (heap w) []) = true ->
  compute_placement (AccessoryType_of category) (nth la (heap w) []) landmarks
    = Ok p ->
  prepare_accessory (nth lacc (heap w) [])
    (pl_width p) (pl_height p) (pl_rotation p) = Ok racc ->
  is_rgba racc = true ->
  exists out,
    apply_accessory (Some la) (Some (AccArray lacc)) category landmarks w
      = (Ok (Some (S (List.length (heap w)))),
         mk_world (heap w ++ [nth la (heap w) []; out])
           (accessory_cache w) (imread_log w)) /\
    is_rgba out = true /\
    shape0 out = shape0 (nth la (heap w) []) /\
    shape1 out = shape1 (nth la (heap w) []).
Proof.
  intros Hla Hlacc Hb Ha Hc Hp Hr.
  destruct (is_rgba_inv _ Ha) as (_ & Sa & _).
  assert (E : apply_accessory (Some la) (Some (AccArray lacc)) category
                landmarks w
              = apply_category (AccessoryType_of category) la lacc
                  landmarks w).
  { unfold apply_accessory, mbind.
    rewrite resolver_rgba_array by (rewrite Sa; discriminate).
    destruct (AccessoryType_of category); reflexivity. }
  rewrite E. apply apply_category_run with (p := p) (racc := racc); assumption.
Qed.

Lemma has_shoulders_truthy (pose : pyval) (lx ly rx ry : R) :
  has_shoulders pose lx ly rx ry -> truthy pose = true.
Proof.
  intros (ls & rs & H1 & _ & Pl & _).
  destruct pose as [| r | [| kv items]]; try discriminate; [| reflexivity ].
  unfold landmark_at in H1. simpl in H1. injection H1 as <-.
  destruct Pl as [Pl _]. discriminate.
Qed.

(** When OpenCV rejects the size of the placement, the body shared by the
    [_apply_*] methods returns the copy of the avatar that it made, as it
    was copied. *)
Lemma apply_category_falls_back (category : AccessoryType)
    (la lacc : loc) (landmarks : pyval) (w : world) (p : placement) :
  (la < List.length (heap w))%nat ->
  compute_placement category (nth la (heap w) []) landmarks = Ok p ->
  (forall a, exists e,
     prepare_accessory a (pl_width p) (pl_height p) (pl_rotation p)
       = Raise e) ->
  apply_category category la lacc landmarks w
    = (Ok (Some (List.length (heap w))),
       mk_world (heap w ++ [nth la (heap w) []; nth la (heap w) []])
         (accessory_cache w) (imread_log w)).
Proof.
  intros Hla Hc Hp.
  unfold apply_category, copy, mbind, load, alloc, lift.
  cbn [heap accessory_cache imread_log].
  replace (nth la (heap w ++ [nth la (heap w) []]) [])
    with (nth la (heap w) []) by (symmetry; apply app_nth1; exact Hla).
  rewrite Hc.
  unfold _place_accessory, copy, try_except, mbind, load, alloc, lift, ret.
  cbn [heap accessory_cache imread_log].
  match goal with
  | |- context [prepare_accessory ?a _ _ _] => destruct (Hp a) as (e & ->)
  end.
  rewrite app_nth2 by lia. rewrite Nat.sub_diag. cbn [nth].
  rewrite <- app_assoc. reflexivity.
Qed.

(** X14.  Shoulders that share their abscissa give the clothing placement
    the width 0; OpenCV rejects an empty size, and [apply_accessory] then
    returns a new array that equals the avatar: the clothing is not applied,
    and there is no exception, no [None] and no use of the default
    placement to tell the caller so. *)
Theorem clothing_degenerate_returns_avatar (la lacc : loc)
    (landmarks pose : pyval) (x ly ry : R) (w : world) :
  (forall a height, cv2_resize a (0, height) = Raise CvError) ->
  (la < List.length (heap w))%nat ->
  entry landmarks "pose" = Some pose ->
  has_shoulders pose x ly x ry -> hips_well_formed pose ->
  exists r w',
    apply_accessory (Some la) (Some (AccArray lacc)) "clothing" landmarks w
      = (Ok (Some r), w') /\
    (List.length (heap w) <= r)%nat /\
    nth r (heap w') [] = nth la (heap w) [].
Proof.
  intros Hcv Hla He Hs Hw.
  destruct (clothing_total (nth la (heap w) []) Hs Hw) as (cy & height & E).
  destruct (entry_truthy _ _ He) as (Tl & Il).
  pose proof (has_shoulders_truthy Hs) as Tp.
  set (p := mk_placement ((x + x) / 2) cy (Rabs (x - x) * 2) height
              (tilt x ly x ry)) in *.
  assert (Hc : forall b, nth la (heap w) [] = b ->
                 compute_placement CLOTHING b landmarks = Ok p).
  { intros b <-. unfold compute_placement, landmark_placement.
    rewrite Tl, Il. cbn [bind]. rewrite (entry_getitem _ _ He). cbn [bind].
    rewrite Tp, E. reflexivity. }
  assert (Hp : forall a, exists e,
                 prepare_accessory a (pl_width p) (pl_height p)
                   (pl_rotation p) = Raise e).
  { intros a. exists CvError. unfold prepare_accessory, p. cbn [pl_width].
    replace (Rabs (x - x) * 2)%R with (IZR 0)
      by (replace (x - x)%R with 0%R by lra; rewrite Rabs_R0; lra).
    rewrite py_int_IZR, Hcv. reflexivity. }
  unfold apply_accessory.
  replace (AccessoryType_of "clothing") with CLOTHING by reflexivity.
  unfold mbind.
  pose proof (resolver_grows (AccArray lacc) w) as G.
  destruct (_get_accessory_image (AccArray lacc) w)
    as [[accessory_image | e] w1] eqn:R.
  - cbn [snd] in G. destruct G as ((more & Hh) & _ & _).
    assert (L1 : (la < List.length (heap w1))%nat)
      by (rewrite Hh, length_app; lia).
    assert (N1 : nth la (heap w1) [] = nth la (heap w) [])
      by (rewrite Hh; apply app_nth1; exact Hla).
    unfold _apply_clothing.
    rewrite (@apply_category_falls_back CLOTHING la accessory_image
               landmarks w1 p L1 (Hc _ (eq_sym N1)) Hp).
    eexists. eexists. split; [ reflexivity |]. split.
    + rewrite Hh, length_app. lia.
    + cbn [heap]. rewrite app_nth2 by lia. rewrite Nat.sub_diag.
      cbn [nth]. exact N1.
  - exfalso. cbn [_get_accessory_image] in R.
    unfold ensure_alpha, mbind, load in R.
    destruct (shape2 _ =? 3) in R; discriminate.
Qed.

(** X15.  A part that the generator did not detect is [None] in the
    landmarks: without a face, glasses and hats get the default placement
    of the face and of the head, whatever the pose; without a pose,
    clothing, jewelry and watches get the defaults of the torso, the neck
    and the wrist, whatever the face; any other category gets the centred
    default, whatever the landmarks. *)
Theorem undetected_part_default (image : ndarray) (face pose : pyval) :
  compute_placement GLASSES image (generated_landmarks PyNone pose)
    = Ok (_get_default_placement image "face") /\
  compute_placement HATS image (generated_landmarks PyNone pose)
    = Ok (_get_default_placement image "head") /\
  compute_placement CLOTHING image (generated_landmarks face PyNone)
    = Ok (_get_default_placement image "torso") /\
  compute_placement JEWELRY image (generated_landmarks face PyNone)
    = Ok (_get_default_placement image "neck") /\
  compute_placement WATCHES image (generated_landmarks face PyNone)
    = Ok (_get_default_placement image "wrist") /\
  (forall landmarks,
     compute_placement OTHER image landmarks
       = Ok (_get_default_placement image "center")).
Proof. repeat split. Qed.

End EntryFacts.

Section EntryExamples.
Local Open Scope string_scope.
Local Open Scope Z_scope.

Lemma py_int_floor (z : Z) (r : R) :
  (0 <= z)%Z -> (IZR z <= r < IZR z + 1)%R -> py_int r = z.
Proof.
  intros Hz [H1 H2]. unfold py_int.
  assert (H0 : (0 <= r)%R).
  { apply Rle_trans with (IZR z); [ apply IZR_le; exact Hz | exact H1 ]. }
  destruct (Rle_dec 0 r) as [_ | N]; [| contradiction ].
  symmetry. apply Int_part_spec. lra.
Qed.

Lemma sample_prepare_centre :
  prepare_accessory (cv := sample_cv2) sample_solid
    (IZR 4 * 0.5) (IZR 4 * 0.3) 0
  = Ok [ [ solid_px; solid_px ] ].
Proof.
  unfold prepare_accessory.
  rewrite (@py_int_floor 2 (IZR 4 * 0.5)) by (try lia; lra).
  rewrite (@py_int_floor 1 (IZR 4 * 0.3)) by (try lia; lra).
  destruct (Req_dec_T 0 0) as [_ | N]; [| exfalso; apply N; reflexivity ].
  reflexivity.
Defined.

Lemma apply_accessory_succeeds_witness :
  exists out,
    apply_accessory (cv := sample_cv2) (Some 0%nat) (Some (AccArray 2%nat))
      "other" PyNone sample_world
      = (Ok (Some 4%nat),
         mk_world (heap sample_world ++ [sample_avatar; out]) [] []) /\
    is_rgba out = true /\
    shape0 out = shape0 sample_avatar /\
    shape1 out = shape1 sample_avatar.
Proof.
  apply (@apply_accessory_succeeds sample_cv2 0%nat 2%nat "other" PyNone
           sample_world
           (_get_default_placement sample_avatar "center")
           [ [ solid_px; solid_px ] ]).
  - simpl. lia.
  - simpl. lia.
  - reflexivity.
  - reflexivity.
  - reflexivity.
  - exact sample_prepare_centre.
  - reflexivity.
Defined.

Lemma clothing_degenerate_returns_avatar_witness :
  exists r w',
    apply_accessory (cv := sample_cv2) (Some 0%nat)
      (Some (AccArray 2%nat)) "clothing"
      (generated_landmarks PyNone upright_pose) sample_world
      = (Ok (Some r), w') /\
    (3 <= r)%nat /\
    nth r (heap w') [] = sample_avatar.
Proof.
  apply (@clothing_degenerate_returns_avatar sample_cv2 0%nat 2%nat
           (generated_landmarks PyNone upright_pose) upright_pose
           100 100 300 sample_world).
  - intros a height. reflexivity.
  - simpl. lia.
  - reflexivity.
  - exists (pose_point 100 100 0 1), (pose_point 100 300 0 1).
    repeat split.
  - exists PyNone, PyNone. repeat split; left; reflexivity.
Defined.

End EntryExamples.

(** ** Adding an alpha channel *)

Section AlphaFacts.
Local Open Scope Z_scope.

Lemma pixel_ok_3 (px : pixel) :
  pixel_ok 3 px = true ->
  pixel_ok 4 (px ++ [255]) = true /\
  nth 3 (px ++ [255]) 0 = 255 /\
  firstn 3 (px ++ [255]) = px.
Proof.
  unfold pixel_ok. intros H. apply andb_prop in H as [Hl Hb].
  apply Nat.eqb_eq in Hl.
  destruct px as [| p0 [| p1 [| p2 [| p3 px]]]]; try discriminate.
  cbn [forallb] in Hb. repeat (apply andb_prop in Hb as [? Hb]).
  repeat split. cbn [app List.length Nat.eqb forallb andb].
  rewrite H, H0, H1. reflexivity.
Qed.

Lemma row_ok_3 (n : nat) (row : list pixel) :
  row_ok 3 n row = true ->
  row_ok 4 n (map (fun px => px ++ [255]) row) = true /\
  forallb (fun px => nth 3 px 0 =? 255) (map (fun px => px ++ [255]) row)
    = true /\
  map (firstn 3) (map (fun px => px ++ [255]) row) = row.
Proof.
  unfold row_ok. intros H. apply andb_prop in H as [Hl Hb].
  assert (G : forallb (pixel_ok 4) (map (fun px => px ++ [255]) row) = true /\
              forallb (fun px => nth 3 px 0 =? 255)
                (map (fun px => px ++ [255]) row) = true /\
              map (firstn 3) (map (fun px => px ++ [255]) row) = row).
  { clear Hl. induction row as [| px row IH]; [ repeat split |].
    cbn [forallb] in Hb. apply andb_prop in Hb as [Hp Hb].
    destruct (pixel_ok_3 _ Hp) as (O4 & A & F).
    destruct (IH Hb) as (I1 & I2 & I3).
    cbn [map forallb]. rewrite O4, I1, A, I2, F, I3. repeat split. }
  destruct G as (G1 & G2 & G3).
  split; [| split; assumption ].
  apply andb_true_intro. split; [| exact G1 ].
  apply Nat.eqb_eq in Hl. apply Nat.eqb_eq.
  rewrite length_map. exact Hl.
Qed.

Lemma rows_ok_3 (n : nat) (a : ndarray) :
  forallb (row_ok 3 n) a = true ->
  forallb (row_ok 4 n) (add_opaque_alpha a) = true /\
  alpha_everywhere 255 (add_opaque_alpha a) = true /\
  rgb_channels (add_opaque_alpha a) = a.
Proof.
  unfold add_opaque_alpha, alpha_everywhere, rgb_channels.
  induction a as [| row a IH]; [ repeat split |].
  cbn [forallb]. intros H. apply andb_prop in H as [Hr Ha].
  destruct (row_ok_3 _ _ Hr) as (R1 & R2 & R3).
  destruct (IH Ha) as (I1 & I2 & I3).
  cbn [map forallb]. rewrite R1, I1, R2, I2, R3, I3. repeat split.
Qed.

(** [np.dstack((a, alpha))] with an opaque [alpha] turns a well-formed
    three-channel image into a well-formed RGBA image of the same colours. *)
Lemma add_opaque_alpha_rgba (a : ndarray) :
  is_image 3 a = true -> shape2 a = 3 ->
  is_rgba (add_opaque_alpha a) = true /\
  alpha_everywhere 255 (add_opaque_alpha a) = true /\
  rgb_channels (add_opaque_alpha a) = a /\
  shape0 (add_opaque_alpha a) = shape0 a /\
  shape1 (add_opaque_alpha a) = shape1 a.
Proof.
  intros Hi Hs. unfold is_image in Hi.
  destruct (rows_ok_3 _ _ Hi) as (I & A & C).
  assert (Hhd : List.length (hd [] (add_opaque_alpha a))
                = List.length (hd [] a)).
  { unfold add_opaque_alpha. destruct a as [| row a]; [ reflexivity |].
    cbn [map hd]. apply length_map. }
  repeat split; try assumption.
  - unfold is_rgba, is_image. rewrite Hhd, I. cbn [andb].
    apply Z.eqb_eq. unfold shape2 in *.
    destruct a as [| [| px row] a]; try discriminate.
    unfold add_opaque_alpha. cbn [map hd] in *.
    rewrite length_app. cbn [List.length]. lia.
  - unfold shape0, add_opaque_alpha. rewrite length_map. reflexivity.
  - unfold shape1. rewrite Hhd. reflexivity.
Qed.

(** X16.  Handed an array, the resolver reads the third entry of its
    shape.  An array of two axes, such as a greyscale image, has none, and
    the resolver raises [IndexError].  A well-formed three-channel image is
    left as it is and a new RGBA array is returned in its place, with the
    same rows, columns and colours and alpha 255 at every pixel.  A
    non-empty array of three axes whose channel count is not 3 is returned
    itself, by reference, and nothing is allocated: with four channels, but
    also with one or two, where the result has no alpha channel. *)
Theorem resolver_on_arrays (cv : Cv2) (w : world) :
  (forall m, _get_accessory_image (AccArray2 m) w = (Raise IndexError, w))
  /\
  (forall l,
     is_image 3 (nth l (heap w) []) = true ->
     shape2 (nth l (heap w) []) = 3 ->
     exists a',
       _get_accessory_image (AccArray l) w
         = (Ok (List.length (heap w)),
            mk_world (heap w ++ [a']) (accessory_cache w) (imread_log w)) /\
       is_rgba a' = true /\
       alpha_everywhere 255 a' = true /\
       rgb_channels a' = nth l (heap w) [] /\
       shape0 a' = shape0 (nth l (heap w) []) /\
       shape1 a' = shape1 (nth l (heap w) []))
  /\
  (forall l,
     0 < shape2 (nth l (heap w) []) ->
     shape2 (nth l (heap w) []) <> 3 ->
     _get_accessory_image (AccArray l) w = (Ok l, w)).
Proof.
  split; [| split ].
  - intros m. reflexivity.
  - intros l Hi Hs.
    exists (add_opaque_alpha (nth l (heap w) [])). split.
    + cbn [_get_accessory_image]. unfold ensure_alpha, mbind, load.
      rewrite Hs. reflexivity.
    + apply add_opaque_alpha_rgba; assumption.
  - intros l _ H. apply resolver_rgba_array. exact H.
Qed.

Lemma resolver_on_arrays_witness :
  (exists a',
     _get_accessory_image (cv := sample_cv2) (AccArray 0%nat)
       (VirtualFitter_init [sample_cap])
       = (Ok 1%nat, mk_world [sample_cap; a'] [] []) /\
     is_rgba a' = true /\
     alpha_everywhere 255 a' = true /\
     rgb_channels a' = sample_cap)
  /\
  _get_accessory_image (cv := sample_cv2) (AccArray2 [ [ 10; 20 ] ])
    (VirtualFitter_init [sample_cap])
    = (Raise IndexError, VirtualFitter_init [sample_cap]).
Proof.
  split.
  - destruct (proj1 (proj2 (@resolver_on_arrays sample_cv2
                              (VirtualFitter_init [sample_cap])))
                0%nat eq_refl eq_refl)
      as (a' & Hrun & Hr & Ha & Hc & _).
    exists a'. repeat split; assumption.
  - apply (proj1 (@resolver_on_arrays sample_cv2
                    (VirtualFitter_init [sample_cap]))).
Defined.

End AlphaFacts.

(** ** The landmark dictionaries of the generator *)

Section GeneratorFacts.
Local Open Scope string_scope.
Local Open Scope R_scope.

(** X17.  On a pose built by the generator the jewelry rule never uses its
    shoulder estimate: with both shoulders detected the generator has put a
    neck midway between them, 10 pixels up, and the jewelry is centred on
    that neck, 20% of the image width wide and 10% of its height high; with
    a shoulder undetected there is neither a neck nor a shoulder pair, and
    the rule gives no landmark placement. *)
Theorem generated_pose_jewelry (P : PoseLandmark) (image : ndarray)
    (mesh : list (pykey * pyval)) (lx ly lz lv rx ry rz rv : R) :
  lookup (KInt (LEFT_SHOULDER P)) mesh = Some (pose_point lx ly lz lv) ->
  lookup (KInt (RIGHT_SHOULDER P)) mesh = Some (pose_point rx ry rz rv) ->
  _get_jewelry_placement image (pose_landmarks_of P mesh)
    = Ok (Some (mk_placement ((lx + rx) / 2) ((ly + ry) / 2 - 10)
                  (IZR (shape1 image) * 0.2) (IZR (shape0 image) * 0.1) 0))
  /\
  (forall mesh',
     lookup (KInt (LEFT_SHOULDER P)) mesh' = None \/
     lookup (KInt (RIGHT_SHOULDER P)) mesh' = None ->
     _get_jewelry_placement image (pose_landmarks_of P mesh') = Ok None).
Proof.
  intros Hl Hr. split.
  - unfold pose_landmarks_of, _calculate_neck_position, landmark_get.
    rewrite Hl, Hr. reflexivity.
  - intros mesh' [H | H];
      unfold pose_landmarks_of, _calculate_neck_position, landmark_get;
      rewrite H.
    + reflexivity.
    + destruct (lookup (KInt (LEFT_SHOULDER P)) mesh') as [v|];
        [| reflexivity ].
      destruct (truthy v) eqn:T;
        cbn [andb]; unfold _get_jewelry_placement;
        cbn [py_get lookup pykey_eqb bind String.eqb Ascii.eqb Bool.eqb
             truthy negb andb];
        rewrite ?T; reflexivity.
Qed.

Lemma generated_pose_jewelry_witness :
  _get_jewelry_placement sample_avatar sample_pose
    = Ok (Some (mk_placement ((100 + 300) / 2) ((200 + 220) / 2 - 10)
                  (IZR (shape1 sample_avatar) * 0.2)
                  (IZR (shape0 sample_avatar) * 0.1) 0)).
Proof.
  refine (proj1 (@generated_pose_jewelry mediapipe_PoseLandmark sample_avatar
                   sample_pose_mesh 100 200 0 1 300 220 0 1 _ _)).
  - reflexivity.
  - reflexivity.
Defined.

Lemma oval_from_lookup (mesh : list (pykey * pyval)) (indices : list Z) :
  forall (s i : Z) (v : pyval),
    lookup (KInt i) (oval_from mesh s indices) = Some v <->
    (s <= i < s + Z.of_nat (List.length indices))%Z /\
    lookup (KInt (nth (Z.to_nat (i - s)) indices 0%Z)) mesh = Some v.
Proof.
  induction indices as [| idx rest IH]; intros s i v.
  - cbn [oval_from lookup List.length]. split; [ discriminate |].
    intros [H _]. lia.
  - assert (Tail : lookup (KInt i) (oval_from mesh (s + 1) rest) = Some v <->
                   (s + 1 <= i < s + Z.of_nat (List.length (idx :: rest)))%Z /\
                   lookup (KInt (nth (Z.to_nat (i - s)) (idx :: rest) 0%Z))
                     mesh = Some v).
    { rewrite IH. cbn [List.length]. split; intros [B L].
      - split; [ lia |].
        replace (Z.to_nat (i - s)) with (S (Z.to_nat (i - (s + 1)))) by lia.
        exact L.
      - split; [ lia |].
        replace (Z.to_nat (i - s)) with (S (Z.to_nat (i - (s + 1)))) in L
          by lia.
        exact L. }
    assert (Head : i = s ->
                   nth (Z.to_nat (i - s)) (idx :: rest) 0%Z = idx).
    { intros ->. rewrite Z.sub_diag. reflexivity. }
    cbn [oval_from].
    destruct (lookup (KInt idx) mesh) as [u|] eqn:E.
    + cbn [lookup pykey_eqb]. destruct (Z.eqb_spec i s) as [Eq | Ne].
      * rewrite (Head Eq), E. cbn [List.length]. split.
        -- intros H. split; [ lia | exact H ].
        -- intros [_ H]. exact H.
      * rewrite Tail. cbn [List.length]. split; intros [B L];
          (split; [ lia | exact L ]).
    + rewrite Tail. split; intros [B L]; (split; [| exact L ]).
      * lia.
      * destruct (Z.eq_dec i s) as [Eq | Ne]; [| lia ].
        rewrite (Head Eq), E in L. discriminate.
Qed.

(** X18.  The face oval of the generator holds, under the position [i] of
    an index in the list of 36 oval indices, the landmark that the mesh has
    at that index, and nothing else: positions whose index the mesh lacks
    are left out, so the oval has an entry [i] exactly when [i] is one of
    the positions 0..35 and the mesh has the landmark of that position. *)
Theorem face_oval_entries (mesh : list (pykey * pyval)) :
  exists oval,
    _get_face_oval_landmarks mesh = PyDict oval /\
    forall (i : Z) (v : pyval),
      lookup (KInt i) oval = Some v <->
      (0 <= i < 36)%Z /\
      lookup (KInt (nth (Z.to_nat i) oval_indices 0%Z)) mesh = Some v.
Proof.
  exists (oval_from mesh 0 oval_indices). split; [ reflexivity |].
  intros i v. rewrite oval_from_lookup. rewrite Z.sub_0_r. reflexivity.
Qed.

Lemma face_mesh_lookup (w h : R) (raw : list (R * R * R)) :
  forall (idx : Z) (n : nat),
    lookup (KInt (idx + Z.of_nat n)) (face_mesh_from w h idx raw)
    = match nth_error raw n with
      | Some (x, y, z) => Some (face_point (x * w) (y * h) z)
      | None => None
      end.
Proof.
  induction raw as [| [[x y] z] raw IH]; intros idx n.
  - destruct n; reflexivity.
  - cbn [face_mesh_from lookup pykey_eqb].
    destruct n as [| n].
    + rewrite Z.add_0_r, Z.eqb_refl. reflexivity.
    + destruct (Z.eqb_spec (idx + Z.of_nat (S n)) idx) as [Eq | _];
        [ lia |].
      replace (idx + Z.of_nat (S n))%Z with (idx + 1 + Z.of_nat n)%Z by lia.
      rewrite IH. reflexivity.
Qed.

Lemma detected_face_eyes (image : ndarray) (raw : list (R * R * R))
    (x1 y1 z1 x2 y2 z2 : R) :
  nth_error raw 468 = Some (x1, y1, z1) ->
  nth_error raw 473 = Some (x2, y2, z2) ->
  has_eyes (_detect_face_landmarks image (Some raw))
    (x1 * IZR (shape1 image)) (y1 * IZR (shape0 image))
    (x2 * IZR (shape1 image)) (y2 * IZR (shape0 image)).
Proof.
  intros H1 H2.
  set (w := IZR (shape1 image)). set (h := IZR (shape0 image)).
  set (mesh := face_mesh_from w h 0 raw).
  assert (L1 : lookup (KInt 468) mesh = Some (face_point (x1 * w) (y1 * h) z1)).
  { pose proof (face_mesh_lookup w h raw 0 468) as Q.
    change (0 + Z.of_nat 468)%Z with 468%Z in Q.
    unfold mesh. rewrite Q, H1. reflexivity. }
  assert (L2 : lookup (KInt 473) mesh = Some (face_point (x2 * w) (y2 * h) z2)).
  { pose proof (face_mesh_lookup w h raw 0 473) as Q.
    change (0 + Z.of_nat 473)%Z with 473%Z in Q.
    unfold mesh. rewrite Q, H2. reflexivity. }
  unfold has_eyes, _detect_face_landmarks. fold w h mesh.
  eexists _, (_get_eye_landmarks mesh "left"),
    (_get_eye_landmarks mesh "right"),
    (face_point (x1 * w) (y1 * h) z1), (face_point (x2 * w) (y2 * h) z2).
  split; [ reflexivity |]. split; [ reflexivity |]. split; [ reflexivity |].
  split; [| split; [| split; split; reflexivity ] ].
  - unfold _get_eye_landmarks, landmark_get.
    cbn [String.eqb Ascii.eqb Bool.eqb].
    rewrite L1. reflexivity.
  - unfold _get_eye_landmarks, landmark_get.
    cbn [String.eqb Ascii.eqb Bool.eqb].
    rewrite L2. reflexivity.
Qed.

(** X19.  For a face mesh with the refined iris landmarks (at least 474
    points) the glasses are placed on the two iris centres that MediaPipe
    reports, landmarks 468 and 473, scaled from normalised to pixel
    coordinates: centred midway between them and 2.2 times their distance
    wide. *)
Theorem detected_face_glasses (image : ndarray) (raw : list (R * R * R))
    (x1 y1 z1 x2 y2 z2 : R) :
  nth_error raw 468 = Some (x1, y1, z1) ->
  nth_error raw 473 = Some (x2, y2, z2) ->
  let w := IZR (shape1 image) in
  let h := IZR (shape0 image) in
  exists p,
    _get_glasses_placement image (_detect_face_landmarks image (Some raw))
      = Ok (Some p) /\
    pl_x p = (x1 * w + x2 * w) / 2 /\
    pl_y p = (y1 * h + y2 * h) / 2 /\
    pl_width p = 2.2 * Rabs (x2 * w - x1 * w) /\
    pl_height p = 0.4 * pl_width p.
Proof.
  intros H1 H2 w h.
  pose proof (detected_face_eyes image raw H1 H2) as He.
  eexists. split; [ apply (glasses_total image He) |].
  cbn [pl_x pl_y pl_width pl_height]. fold w h.
  repeat split; lra.
Qed.

(** X20.  For a face mesh without the refined iris landmarks (at most 468
    points) both eye centres are [None] and the glasses category raises
    [TypeError], whatever the image and the pose: it neither places the
    glasses by the eyes nor falls back to the default placement. *)
Theorem unrefined_face_glasses_raise (image : ndarray)
    (raw : list (R * R * R)) (pose : pyval) :
  (List.length raw <= 468)%nat ->
  let face := _detect_face_landmarks image (Some raw) in
  _get_glasses_placement image face = Raise TypeError /\
  compute_placement GLASSES image (generated_landmarks face pose)
    = Raise TypeError.
Proof.
  intros Hlen face.
  assert (L : lookup (KInt 468)
                (face_mesh_from (IZR (shape1 image)) (IZR (shape0 image)) 0 raw)
              = None).
  { pose proof (face_mesh_lookup (IZR (shape1 image)) (IZR (shape0 image))
                  raw 0 468) as Q.
    change (0 + Z.of_nat 468)%Z with 468%Z in Q. rewrite Q.
    replace (nth_error raw 468) with (@None (R * R * R)); [ reflexivity |].
    symmetry. apply nth_error_None. exact Hlen. }
  assert (G : _get_glasses_placement image face = Raise TypeError).
  { unfold face, _detect_face_landmarks.
    apply glasses_none_centre_raises. exact L. }
  split; [ exact G |].
  unfold compute_placement, landmark_placement, generated_landmarks.
  cbn [truthy py_in py_getitem lookup pykey_eqb bind].
  replace (String.eqb "face" "face") with true by reflexivity.
  cbn [bind].
  replace (truthy face) with true by reflexivity.
  cbn [bind]. rewrite G. reflexivity.
Qed.

Lemma rgb_channels_ok (n : nat) (a : ndarray) :
  forallb (row_ok 4 n) a = true ->
  forallb (row_ok 3 n) (rgb_channels a) = true.
Proof.
  unfold rgb_channels. induction a as [| row a IH]; [ reflexivity |].
  cbn [forallb map]. intros H. apply andb_prop in H as [Hr Ha].
  rewrite (IH Ha), andb_true_r. clear IH Ha.
  unfold row_ok in *. apply andb_prop in Hr as [Hl Hp].
  apply andb_true_intro. split.
  - apply Nat.eqb_eq in Hl. apply Nat.eqb_eq. rewrite length_map. exact Hl.
  - clear Hl. induction row as [| px row IH]; [ reflexivity |].
    cbn [forallb map] in *. apply andb_prop in Hp as [Hx Hp].
    rewrite (IH Hp), andb_true_r.
    destruct (pixel_ok_4 _ Hx) as (p0 & p1 & p2 & p3 & -> & B0 & B1 & B2 & _).
    unfold pixel_ok. cbn [firstn List.length Nat.eqb forallb andb].
    rewrite B0, B1, B2. reflexivity.
Qed.

(** Stacking an alpha plane on a three-channel array of the same rows and
    columns gives back both. *)
Lemma np_dstack_planes (n : nat) (rgb : ndarray) :
  forall alpha : list (list Z),
    forallb (row_ok 3 n) rgb = true ->
    List.length rgb = List.length alpha ->
    Forall (fun ar => List.length ar = n) alpha ->
    exists out,
      np_dstack rgb alpha = Ok out /\
      alpha_channel out = alpha /\
      rgb_channels out = rgb.
Proof.
  assert (Row : forall (row : list pixel) (ar : list Z),
            forallb (pixel_ok 3) row = true ->
            List.length row = List.length ar ->
            map (fun px => nth 3 px 0%Z)
              (map2 (fun px a => (px ++ [a])%list) row ar) = ar /\
            map (firstn 3) (map2 (fun px a => (px ++ [a])%list) row ar)
              = row).
  { induction row as [| px row IH]; intros [| a ar] Hp Hl;
      try discriminate; [ split; reflexivity |].
    cbn [forallb] in Hp. apply andb_prop in Hp as [Hx Hp].
    injection Hl as Hl. destruct (IH ar Hp Hl) as (I1 & I2).
    cbn [map2 map]. rewrite I1, I2.
    unfold pixel_ok in Hx. apply andb_prop in Hx as [Hx _].
    apply Nat.eqb_eq in Hx.
    destruct px as [| p0 [| p1 [| p2 [| p3 px]]]]; try discriminate.
    split; reflexivity. }
  induction rgb as [| row rgb IH]; intros [| ar alpha] Hi Hl Ha;
    try discriminate.
  - exists []. repeat split.
  - cbn [forallb] in Hi. apply andb_prop in Hi as [Hr Hi].
    injection Hl as Hl. inversion Ha as [| ? ? Har Ha']; subst.
    destruct (IH alpha Hi Hl Ha') as (out & Hd & O1 & O2).
    unfold row_ok in Hr. apply andb_prop in Hr as [Hrl Hrp].
    apply Nat.eqb_eq in Hrl.
    destruct (Row row ar Hrp) as (R1 & R2); [ congruence |].
    unfold np_dstack in Hd |- *.
    cbn [List.length combine forallb fst snd Nat.eqb].
    destruct ((List.length rgb =? List.length alpha)%nat
              && forallb
                   (fun p => (List.length (fst p) =? List.length (snd p))%nat)
                   (combine rgb alpha)) eqn:C; [| discriminate ].
    apply andb_prop in C as [C1 C2].
    rewrite C1, C2.
    replace (List.length row =? List.length ar)%nat with true
      by (symmetry; apply Nat.eqb_eq; congruence).
    cbn [andb]. injection Hd as <-.
    eexists. split; [ reflexivity |].
    unfold alpha_channel, rgb_channels in *. cbn [map2 map].
    rewrite R1, R2, O1, O2. split; reflexivity.
Qed.

Lemma alpha_channel_rows (n : nat) (a : ndarray) :
  forallb (row_ok 4 n) a = true ->
  Forall (fun ar => List.length ar = n) (alpha_channel a).
Proof.
  unfold alpha_channel. induction a as [| row a IH]; [ constructor |].
  cbn [forallb map]. intros H. apply andb_prop in H as [Hr Ha].
  constructor; [| apply IH; exact Ha ].
  unfold row_ok in Hr. apply andb_prop in Hr as [Hl _].
  apply Nat.eqb_eq in Hl. rewrite length_map. exact Hl.
Qed.

Lemma alpha_everywhere_channel (v : Z) (a : ndarray) :
  alpha_everywhere v a
  = forallb (forallb (fun x => (x =? v)%Z)) (alpha_channel a).
Proof.
  unfold alpha_everywhere, alpha_channel.
  induction a as [| row a IH]; [ reflexivity |].
  cbn [forallb map]. rewrite IH. f_equal.
  induction row as [| px row IHr]; [ reflexivity |].
  cbn [forallb map]. rewrite IHr. reflexivity.
Qed.

Section Generate.
Context {perception : Perception}.

Variable P : PoseLandmark.

Lemma generate_rgba (img : ndarray) :
  keeps_shape perception -> is_rgba img = true ->
  exists out face pose,
    generate P (Axes3 img) = Ok (out, generated_landmarks face pose) /\
    alpha_channel out = alpha_channel img /\
    rgb_channels out = enhance_rgb (rgb_channels img).
Proof.
  intros Hen Hi. unfold is_rgba in Hi. apply andb_prop in Hi as [Hi Hs].
  apply Z.eqb_eq in Hs. unfold is_image in Hi.
  set (n := List.length (hd [] img)) in *.
  destruct (Hen n (rgb_channels img) (rgb_channels_ok _ _ Hi)) as (E1 & E2).
  destruct (@np_dstack_planes n (enhance_rgb (rgb_channels img))
              (alpha_channel img) E1) as (out & Hd & O1 & O2).
  - rewrite E2. unfold rgb_channels, alpha_channel.
    rewrite !length_map. reflexivity.
  - apply alpha_channel_rows. exact Hi.
  - exists out. eexists. eexists.
    unfold generate. rewrite Hs. cbn [Z.eqb Pos.eqb negb bind].
    unfold _enhance_image. rewrite Hs. cbn [Z.ltb Z.compare Pos.compare
      Pos.compare_cont]. rewrite Hd. cbn [bind].
    split; [ reflexivity |]. split; assumption.
Qed.

(** X21.  [generate] reads the channel count of its argument first: an
    array of two axes (a greyscale image) has none and raises [IndexError],
    and a non-empty array of three axes with neither three nor four channels
    raises [ValueError].  For a well-formed RGBA image it returns an image
    with the same alpha channel whose colours are the enhanced colours of
    the input, and a landmarks dictionary with the two entries ['face'] and
    ['pose']; a well-formed three-channel image is first made opaque, so the
    image returned has alpha 255 at every pixel. *)
Theorem generate_channels :
  keeps_shape perception ->
  (forall m, generate P (Axes2 m) = Raise IndexError)
  /\
  (forall img,
     is_rgba img = true ->
     exists out face pose,
       generate P (Axes3 img) = Ok (out, generated_landmarks face pose) /\
       alpha_channel out = alpha_channel img /\
       rgb_channels out = enhance_rgb (rgb_channels img))
  /\
  (forall img,
     is_image 3 img = true -> shape2 img = 3%Z ->
     exists out face pose,
       generate P (Axes3 img) = Ok (out, generated_landmarks face pose) /\
       alpha_everywhere 255 out = true /\
       rgb_channels out = enhance_rgb img)
  /\
  (forall img,
     (0 < shape2 img)%Z -> shape2 img <> 3%Z -> shape2 img <> 4%Z ->
     generate P (Axes3 img) = Raise ValueError).
Proof.
  intros Hen. split; [| split; [| split ] ].
  - intros m. reflexivity.
  - intros img Hi. apply generate_rgba; assumption.
  - intros img Hi Hs.
    destruct (add_opaque_alpha_rgba _ Hi Hs) as (Ra & Aa & Ca & _).
    destruct (@generate_rgba (add_opaque_alpha img) Hen Ra)
      as (out & face & pose & Hg & O1 & O2).
    exists out, face, pose. split; [| split ].
    + rewrite <- Hg. unfold generate.
      destruct (is_rgba_inv _ Ra) as (_ & S4 & _). rewrite Hs, S4.
      reflexivity.
    + rewrite alpha_everywhere_channel, O1, <- alpha_everywhere_channel.
      exact Aa.
    + rewrite O2, Ca. reflexivity.
  - intros img _ H3 H4. unfold generate.
    apply Z.eqb_neq in H3, H4. rewrite H3, H4. reflexivity.
Qed.

End Generate.

End GeneratorFacts.

Section GeneratorExamples.
Local Open Scope R_scope.

(** A refined mesh: 478 points, all at the centre of the image but the two
    iris centres. *)
Lemma refined_mesh_468 :
  nth_error (repeat (0.5, 0.5, 0) 468 ++ [ (0.25, 0.5, 0) ]
             ++ repeat (0.5, 0.5, 0) 4 ++ [ (0.75, 0.5, 0) ]
             ++ repeat (0.5, 0.5, 0) 4) 468
  = Some (0.25, 0.5, 0).
Proof. reflexivity. Defined.

Lemma refined_mesh_473 :
  nth_error (repeat (0.5, 0.5, 0) 468 ++ [ (0.25, 0.5, 0) ]
             ++ repeat (0.5, 0.5, 0) 4 ++ [ (0.75, 0.5, 0) ]
             ++ repeat (0.5, 0.5, 0) 4) 473
  = Some (0.75, 0.5, 0).
Proof. reflexivity. Defined.

Lemma detected_face_glasses_witness :
  exists p,
    _get_glasses_placement sample_avatar
      (_detect_face_landmarks sample_avatar
         (Some (repeat (0.5, 0.5, 0) 468 ++ [ (0.25, 0.5, 0) ]
                ++ repeat (0.5, 0.5, 0) 4 ++ [ (0.75, 0.5, 0) ]
                ++ repeat (0.5, 0.5, 0) 4)))
      = Ok (Some p) /\
    pl_x p = (0.25 * IZR (shape1 sample_avatar)
              + 0.75 * IZR (shape1 sample_avatar)) / 2.
Proof.
  destruct (@detected_face_glasses sample_avatar _ _ _ _ _ _ _
              refined_mesh_468 refined_mesh_473)
    as (p & Hp & Hx & _).
  exists p. split; [ exact Hp | exact Hx ].
Defined.

Lemma unrefined_face_glasses_raise_witness :
  _get_glasses_placement sample_avatar
    (_detect_face_landmarks sample_avatar (Some [ (0.5, 0.5, 0) ]))
  = Raise TypeError.
Proof.
  refine (proj1 (@unrefined_face_glasses_raise sample_avatar
                   [ (0.5, 0.5, 0) ] PyNone _)).
  simpl. lia.
Defined.

Lemma sample_keeps_shape : keeps_shape sample_perception.
Proof. intros n a H. split; [ exact H | reflexivity ]. Defined.

Lemma generate_channels_witness :
  (exists out face pose,
     generate (perception := sample_perception) mediapipe_PoseLandmark
       (Axes3 sample_avatar)
       = Ok (out, generated_landmarks face pose) /\
     alpha_channel out = alpha_channel sample_avatar)
  /\
  generate (perception := sample_perception) mediapipe_PoseLandmark
    (Axes2 [ [ 10%Z; 20%Z ] ])
    = Raise IndexError.
Proof.
  split.
  - destruct (proj1 (proj2 (@generate_channels sample_perception
                              mediapipe_PoseLandmark sample_keeps_shape))
                sample_avatar eq_refl)
      as (out & face & pose & Hg & Ha & _).
    exists out, face, pose. split; assumption.
  - apply (proj1 (@generate_channels sample_perception
                    mediapipe_PoseLandmark sample_keeps_shape)).
Defined.

End GeneratorExamples.

(** ** The prompt box of the automatic segmentation *)

Section PromptBoxFacts.
Local Open Scope Z_scope.

Lemma py_int_scaled (w num : Z) (r : R) :
  0 <= w -> 0 <= num ->
  (r * 10 = IZR (w * num))%R ->
  10 * py_int r <= w * num < 10 * py_int r + 10.
Proof.
  intros Hw Hn Hr.
  assert (H0 : (0 <= r)%R).
  { assert (0 <= IZR (w * num))%R by (apply IZR_le; nia). lra. }
  unfold py_int. destruct (Rle_dec 0 r) as [_ | N]; [| contradiction ].
  destruct (base_Int_part r) as [B1 B2].
  split.
  - apply le_IZR. rewrite <- Hr, mult_IZR. lra.
  - apply lt_IZR. rewrite <- Hr, plus_IZR, mult_IZR. lra.
Qed.

(** X22.  The box that [auto_segment_person] builds around the centre of
    the image lies inside the image, and the clamps [max(0, .)] and
    [min(w, .)] never change a coordinate: the box extends half the box size
    (rounded down) to each side of the centre.  For an image of at least 4
    columns and 3 rows the box is not empty, and [segment_from_box] takes
    its coordinates as pixels, not as normalised coordinates. *)
Theorem auto_segment_box_inside (h w : Z) :
  0 <= h -> 0 <= w ->
  let box_w := py_int (IZR w * 0.6) in
  let box_h := py_int (IZR h * 0.8) in
  let '(x1, y1, x2, y2) := auto_segment_box h w in
  x1 = w / 2 - box_w / 2 /\ x2 = w / 2 + box_w / 2 /\
  y1 = h / 2 - box_h / 2 /\ y2 = h / 2 + box_h / 2 /\
  0 <= x1 <= x2 /\ x2 <= w /\ 0 <= y1 <= y2 /\ y2 <= h /\
  (4 <= w -> 3 <= h ->
   x1 < x2 /\ y1 < y2 /\
   box_to_pixels h w (auto_segment_box h w) = auto_segment_box h w).
Proof.
  intros Hh Hw box_w box_h.
  assert (Bw : 10 * box_w <= w * 6 < 10 * box_w + 10).
  { apply py_int_scaled; try lia. rewrite mult_IZR. lra. }
  assert (Bh : 10 * box_h <= h * 8 < 10 * box_h + 10).
  { apply py_int_scaled; try lia. rewrite mult_IZR. lra. }
  unfold auto_segment_box. fold box_w box_h.
  pose proof (Z.div_mod w 2 ltac:(lia)) as Dw.
  pose proof (Z.mod_pos_bound w 2 ltac:(lia)) as Mw.
  pose proof (Z.div_mod h 2 ltac:(lia)) as Dh.
  pose proof (Z.mod_pos_bound h 2 ltac:(lia)) as Mh.
  pose proof (Z.div_mod box_w 2 ltac:(lia)) as Dbw.
  pose proof (Z.mod_pos_bound box_w 2 ltac:(lia)) as Mbw.
  pose proof (Z.div_mod box_h 2 ltac:(lia)) as Dbh.
  pose proof (Z.mod_pos_bound box_h 2 ltac:(lia)) as Mbh.
  set (cw := w / 2) in *. set (ch := h / 2) in *.
  set (bw := box_w / 2) in *. set (bh := box_h / 2) in *.
  assert (X1 : Z.max 0 (cw - bw) = cw - bw) by lia.
  assert (X2 : Z.min w (cw + bw) = cw + bw) by lia.
  assert (Y1 : Z.max 0 (ch - bh) = ch - bh) by lia.
  assert (Y2 : Z.min h (ch + bh) = ch + bh) by lia.
  rewrite X1, X2, Y1, Y2.
  repeat split; try lia.
  unfold box_to_pixels.
  replace ((0 <=? cw + bw) && (cw + bw <=? 1)) with false;
    [ rewrite !andb_false_r; reflexivity |].
  symmetry. apply andb_false_intro2. apply Z.leb_gt. lia.
Qed.

Lemma auto_segment_box_inside_witness :
  let '(x1, y1, x2, y2) := auto_segment_box 10 10 in
  0 <= x1 <= x2 /\ x2 <= 10 /\ 0 <= y1 <= y2 /\ y2 <= 10.
Proof.
  pose proof (@auto_segment_box_inside 10 10 ltac:(lia) ltac:(lia)) as H.
  cbv zeta in H.
  destruct (auto_segment_box 10 10) as [[[x1 y1] x2] y2].
  destruct H as (_ & _ & _ & _ & Hx & Hx2 & Hy & Hy2 & _).
  repeat split; lia.
Defined.

End PromptBoxFacts.
